(** * Verification of the SSM session client: frame codec and session state

    A shallow embedding of [agent-message.ts] (the binary frame codec) and of
    [aws-ssm-session.ts] (the session object that reacts to decoded frames),
    followed by theorems about them.

    Conventions of the embedding.
    - A JavaScript string is the list of its UTF-16 code units ([jsstring]).
    - A JavaScript integer is a [Z]; the 32-bit operators [<<], [>>] and [&]
      are written out with their wrap-around ([to_int32]).
    - A [Uint8Array] is a [list Z] whose elements lie in [0, 256).
    - A function that can raise returns a [result]; a method of the session
      returns an [outcome]: the fields it leaves and the log of what it did
      to the socket, the console and the registered callbacks.
    - What the program takes from its platform is a parameter: the SHA-256
      digest ([Sha256]), [JSON.parse] and [JSON.stringify] ([Json]), the clock
      and the generated UUID bytes ([Env]).  [TextDecoder] is written out.

    The session file holds two versions of the class; the embedding follows
    the first, which handles [start_publication], [pause_publication] and
    [acknowledge] and checks the socket's ready state before sending. *)

From Stdlib Require Import ZArith List String Ascii Bool Lia DecimalString.
From stdpp Require Import base option list gmap.
Import ListNotations.
Local Open Scope Z_scope.

(** ** JavaScript values the program manipulates *)

Module Js.

(** Exceptions the modelled code can raise. *)
Inductive error : Type :=
| EncodingError   (* new Error( 'String is too long to encode' ) *)
| RangeError      (* TypedArray.prototype.set outside the target *)
| SyntaxError     (* JSON.parse on malformed text *)
| TypeError.      (* property access on null or undefined *)

Inductive result (A : Type) : Type :=
| Ok (a : A)
| Throw (e : error).
Arguments Ok {A} a.
Arguments Throw {A} e.

Definition rbind {A B} (r : result A) (k : A -> result B) : result B :=
  match r with
  | Ok a => k a
  | Throw e => Throw e
  end.

Notation "x <-! r ;; k" := (rbind r (fun x => k))
  (at level 100, r at next level, right associativity).

(** Strings: UTF-16 code units. *)
Abbreviation jsstring := (list Z).

Definition js (s : string) : jsstring :=
  List.map (fun a => Z.of_nat (nat_of_ascii a)) (list_ascii_of_string s).

(** The two characters of '\\r\\n'. *)
Definition js_crlf : list Z := [13; 10].

(** [s.length] *)
Definition str_length (s : jsstring) : Z := Z.of_nat (List.length s).

(** [s.charCodeAt( i )] for an index inside the string. *)
Definition charCodeAt (s : jsstring) (i : Z) : Z := nth (Z.to_nat i) s 0.

(** [s.substr( start, len )] and [s.substr( start )], non-negative arguments. *)
Definition substr (s : jsstring) (start len : nat) : jsstring :=
  firstn len (skipn start s).
Definition substr_from (s : jsstring) (start : nat) : jsstring :=
  skipn start s.

(** [parts.join( sep )] *)
Fixpoint join (sep : jsstring) (parts : list jsstring) : jsstring :=
  match parts with
  | [] => []
  | [p] => p
  | p :: rest => p ++ sep ++ join sep rest
  end.

(** White space and line terminators, as [String.prototype.trimEnd] sees them. *)
Definition is_white_space (c : Z) : bool :=
  (c =? 9) || (c =? 10) || (c =? 11) || (c =? 12) || (c =? 13) || (c =? 32)
  || (c =? 160) || (c =? 5760) || ((8192 <=? c) && (c <=? 8202))
  || (c =? 8232) || (c =? 8233) || (c =? 8239) || (c =? 8287)
  || (c =? 12288) || (c =? 65279).

Fixpoint drop_while_ws (s : jsstring) : jsstring :=
  match s with
  | [] => []
  | c :: rest => if is_white_space c then drop_while_ws rest else s
  end.

(** [s.trimEnd()] *)
Definition trimEnd (s : jsstring) : jsstring := rev (drop_while_ws (rev s)).

(** [s.replace( /\0/g, '' )] *)
Definition strip_nul (s : jsstring) : jsstring :=
  List.filter (fun c => negb (c =? 0)) s.

(** *** 32-bit integer operators *)

(** ToInt32 of an integral number. *)
Definition to_int32 (z : Z) : Z := (z + 2 ^ 31) mod 2 ^ 32 - 2 ^ 31.

(** [a << n], [a >> n], [a & b] *)
Definition shl (a n : Z) : Z := to_int32 (Z.shiftl (to_int32 a) n).
Definition sar (a n : Z) : Z := Z.shiftr (to_int32 a) n.
Definition band (a b : Z) : Z := Z.land (to_int32 a) (to_int32 b).

(** *** Uint8Array *)

Abbreviation bytes := (list Z).

(** ToUint8, applied to every value stored in a Uint8Array. *)
Definition to_uint8 (z : Z) : Z := z mod 256.

(** [new Uint8Array( n )] *)
Definition new_Uint8Array (n : Z) : bytes := repeat 0 (Z.to_nat n).

(** Relative index of [slice] and [subarray]: negative counts from the end,
    and the result is clamped to the array. *)
Definition rel_index (len i : Z) : Z :=
  if i <? 0 then Z.max (len + i) 0 else Z.min i len.

(** [buffer.slice( start, end )]; [end] absent means the array's length.
    [buffer.subarray( start, end )] selects the same elements. *)
Definition slice (buffer : bytes) (start : Z) (end_ : option Z) : bytes :=
  let len := Z.of_nat (List.length buffer) in
  let k := rel_index len start in
  let final := match end_ with Some e => rel_index len e | None => len end in
  firstn (Z.to_nat (final - k)) (skipn (Z.to_nat k) buffer).

Definition subarray (buffer : bytes) (start end_ : Z) : bytes :=
  slice buffer start (Some end_).

(** [buffer.set( source, offset )]: raises RangeError unless the source fits. *)
Definition set (buffer : bytes) (source : list Z) (offset : Z) : result bytes :=
  if (offset <? 0) || (Z.of_nat (List.length buffer) <? offset + Z.of_nat (List.length source))
  then Throw RangeError
  else Ok (firstn (Z.to_nat offset) buffer
           ++ List.map to_uint8 source
           ++ skipn (Z.to_nat offset + List.length source) buffer).

(** [buffer[ i ] = v]: ignored outside the array. *)
Definition store (buffer : bytes) (i : Z) (v : Z) : bytes :=
  if i <? 0 then buffer else <[Z.to_nat i := to_uint8 v]> buffer.

(** *** TextDecoder( 'utf8' ).decode: the WHATWG UTF-8 decoder, replacement mode *)

Record utf8_state : Type := {
  code_point : Z;
  bytes_seen : Z;
  bytes_needed : Z;
  lower_boundary : Z;
  upper_boundary : Z;
}.

Definition utf8_start : utf8_state :=
  {| code_point := 0; bytes_seen := 0; bytes_needed := 0;
     lower_boundary := 128; upper_boundary := 191 |}.

Definition replacement : Z := 65533.

(** A byte read while no sequence is open. *)
Definition utf8_lead (b : Z) : utf8_state * list Z :=
  if b <=? 127 then (utf8_start, [b])
  else if (194 <=? b) && (b <=? 223) then
    ({| code_point := Z.land b 31; bytes_seen := 0; bytes_needed := 1;
        lower_boundary := 128; upper_boundary := 191 |}, [])
  else if (224 <=? b) && (b <=? 239) then
    ({| code_point := Z.land b 15; bytes_seen := 0; bytes_needed := 2;
        lower_boundary := (if b =? 224 then 160 else 128);
        upper_boundary := (if b =? 237 then 159 else 191) |}, [])
  else if (240 <=? b) && (b <=? 244) then
    ({| code_point := Z.land b 7; bytes_seen := 0; bytes_needed := 3;
        lower_boundary := (if b =? 240 then 144 else 128);
        upper_boundary := (if b =? 244 then 143 else 191) |}, [])
  else (utf8_start, [replacement]).

Definition utf8_step (st : utf8_state) (b : Z) : utf8_state * list Z :=
  if bytes_needed st =? 0 then utf8_lead b
  else if (b <? lower_boundary st) || (upper_boundary st <? b) then
    (* the open sequence is abandoned and the byte is read again *)
    let '(st', out) := utf8_lead b in (st', replacement :: out)
  else
    let cp := Z.lor (Z.shiftl (code_point st) 6) (Z.land b 63) in
    if bytes_seen st + 1 =? bytes_needed st then (utf8_start, [cp])
    else ({| code_point := cp; bytes_seen := bytes_seen st + 1;
             bytes_needed := bytes_needed st;
             lower_boundary := 128; upper_boundary := 191 |}, []).

Fixpoint utf8_run (st : utf8_state) (input : bytes) : list Z :=
  match input with
  | [] => if bytes_needed st =? 0 then [] else [replacement]
  | b :: rest => let '(st', out) := utf8_step st b in out ++ utf8_run st' rest
  end.

(** A leading byte order mark is not part of the decoded text. *)
Definition strip_bom (input : bytes) : bytes :=
  match input with
  | b0 :: b1 :: b2 :: rest =>
    if (b0 =? 239) && (b1 =? 187) && (b2 =? 191) then rest else input
  | _ => input
  end.

(** A code point as UTF-16 code units. *)
Definition utf16_units (cp : Z) : list Z :=
  if cp <? 65536 then [cp]
  else [55296 + Z.shiftr (cp - 65536) 10; 56320 + Z.land (cp - 65536) 1023].

Definition TextDecoder_decode (input : bytes) : jsstring :=
  List.concat (List.map utf16_units (utf8_run utf8_start (strip_bom input))).

(** The UTF-8 encoding of a string (what an encoder such as [TextEncoder]
    produces): a surrogate pair is one four-byte sequence, a lone surrogate
    is encoded as U+FFFD. *)
Definition utf8_of_code_point (cp : Z) : bytes :=
  if cp <? 128 then [cp]
  else if cp <? 2048 then [192 + Z.shiftr cp 6; 128 + Z.land cp 63]
  else if cp <? 65536 then
    [224 + Z.shiftr cp 12; 128 + Z.land (Z.shiftr cp 6) 63; 128 + Z.land cp 63]
  else
    [240 + Z.shiftr cp 18; 128 + Z.land (Z.shiftr cp 12) 63;
     128 + Z.land (Z.shiftr cp 6) 63; 128 + Z.land cp 63].

Definition is_high_surrogate (c : Z) : bool := (55296 <=? c) && (c <=? 56319).
Definition is_low_surrogate (c : Z) : bool := (56320 <=? c) && (c <=? 57343).

Fixpoint utf8_encode (s : jsstring) : bytes :=
  match s with
  | [] => []
  | c :: rest =>
    if is_high_surrogate c then
      match rest with
      | d :: rest' =>
        if is_low_surrogate d
        then utf8_of_code_point (65536 + (c - 55296) * 1024 + (d - 56320))
             ++ utf8_encode rest'
        else utf8_of_code_point replacement ++ utf8_encode rest
      | [] => utf8_of_code_point replacement
      end
    else if is_low_surrogate c then utf8_of_code_point replacement ++ utf8_encode rest
    else utf8_of_code_point c ++ utf8_encode rest
  end.

End Js.

(** ** channel-messages.ts: the two vocabularies *)

Module MessageType.
Import Js.
Definition InteractiveShellMessage : jsstring := js "interactive_shell".
Definition TaskReplyMessage : jsstring := js "agent_task_reply".
Definition TaskCompleteMessage : jsstring := js "agent_task_complete".
Definition AcknowledgeMessage : jsstring := js "acknowledge".
Definition AgentSessionState : jsstring := js "agent_session_state".
Definition ChannelClosedMessage : jsstring := js "channel_closed".
Definition OutputStreamDataMessage : jsstring := js "output_stream_data".
Definition InputStreamDataMessage : jsstring := js "input_stream_data".
Definition PausePublicationMessage : jsstring := js "pause_publication".
Definition StartPublicationMessage : jsstring := js "start_publication".

Definition members : list jsstring :=
  [ InteractiveShellMessage; TaskReplyMessage; TaskCompleteMessage;
    AcknowledgeMessage; AgentSessionState; ChannelClosedMessage;
    OutputStreamDataMessage; InputStreamDataMessage;
    PausePublicationMessage; StartPublicationMessage ].
End MessageType.

Module PayloadType.
Definition Output : Z := 1.
Definition Error : Z := 2.
Definition Size : Z := 3.
Definition Parameter_ : Z := 4.
Definition HandshakeRequest : Z := 5.
Definition HandshakeResponse : Z := 6.
Definition HandshakeComplete : Z := 7.
Definition EncChallengeRequest : Z := 8.
Definition EncChallengeResponse : Z := 9.
Definition Flag : Z := 10.
End PayloadType.

(** ** agent-message.ts: the frame codec *)

Module Length.
Definition HL : Z := 4.
Definition MessageType : Z := 32.
Definition SchemaVersion : Z := 4.
Definition CreatedDate : Z := 8.
Definition SequenceNumber : Z := 8.
Definition Flags : Z := 8.
Definition MessageId : Z := 16.
Definition PayloadDigest : Z := 32.
Definition PayloadType : Z := 4.
Definition PayloadLength : Z := 4.
End Length.

Module Offset.
Definition HL : Z := 0.
Definition MessageType : Z := HL + Length.HL.
Definition SchemaVersion : Z := MessageType + Length.MessageType.
Definition CreatedDate : Z := SchemaVersion + Length.SchemaVersion.
Definition SequenceNumber : Z := CreatedDate + Length.CreatedDate.
Definition Flags : Z := SequenceNumber + Length.SequenceNumber.
Definition MessageId : Z := Flags + Length.Flags.
Definition PayloadDigest : Z := MessageId + Length.MessageId.
Definition PayloadType : Z := PayloadDigest + Length.PayloadDigest.
Definition PayloadLength : Z := PayloadType + Length.PayloadType.
Definition Payload : Z := PayloadLength + Length.PayloadLength.
End Offset.

(** What [encode] takes from outside the program: [sha256.update( s ).digest()]
    of js-sha256, an array of 32 bytes. *)
Class Sha256 : Type := {
  sha256_digest : Js.jsstring -> list Z;
  sha256_digest_length : forall s, List.length (sha256_digest s) = 32%nat;
}.

(** What one call of [encode] reads from its surroundings: the clock
    ([Date.now()]) and the 16 bytes [uuidv4] generates. *)
Record Env : Type := {
  now : Z;
  uuid : list Z;
}.

Import Js.

(** [EncodeableAgentMessage] is [AgentMessage] without its [MessageId]. *)
Record EncodeableAgentMessage : Type := {
  MessageType : jsstring;
  SequenceNumber : Z;
  PayloadType : Z;
  Payload : jsstring;
}.

Record AgentMessage : Type := {
  encodeable :> EncodeableAgentMessage;
  MessageId : jsstring;
}.

Definition decodeText (buffer : bytes) (start : Z) (end_ : option Z) : jsstring :=
  let decoded := TextDecoder_decode (slice buffer start end_) in
  strip_nul decoded.

Fixpoint putString_loop (value : jsstring) (start : Z) (count : nat) (i : Z)
    (buffer : bytes) : result bytes :=
  match count with
  | O => Ok buffer
  | S count' =>
    let byte := if str_length value <=? i then 32 else charCodeAt value i in
    buffer' <-! set buffer [byte] (start + i);;
    putString_loop value start count' (i + 1) buffer'
  end.

Definition putString (buffer : bytes) (start end_ : Z) (value : jsstring)
    : result bytes :=
  let len := end_ - start in
  if len <? str_length value then Throw EncodingError
  else putString_loop value start (Z.to_nat len) 0 buffer.

Definition decodeInt (buffer : bytes) (start end_ : Z) : Z :=
  let bytes := slice buffer start (Some end_) in
  fold_left (fun acc byte => shl acc 8 + byte) bytes 0.

Definition putInt (buffer : bytes) (pos : Z) (value : Z) : result bytes :=
  let bytes :=
    [ band (sar value 24) 255;
      band (sar value 16) 255;
      band (sar value 8) 255;
      band value 255 ] in
  set buffer bytes pos.

Definition putLong (buffer : bytes) (pos : Z) (value : Z) : result bytes :=
  putInt buffer (pos + 4) value.

(** The character of a hexadecimal digit, lower case. *)
Definition hex_digit (d : Z) : Z := if d <? 10 then 48 + d else 87 + d.

(** [byte.toString( 16 )] of an element of a Uint8Array. *)
Definition toString16 (byte : Z) : jsstring :=
  if byte <? 16 then [hex_digit byte]
  else [hex_digit (byte / 16); hex_digit (byte mod 16)].

(** [s.padStart( 2, '0' )] *)
Definition padStart2 (s : jsstring) : jsstring :=
  repeat 48 (2 - List.length s) ++ s.

Definition longToHex (buffer : bytes) : jsstring :=
  fold_left (fun str byte => str ++ padStart2 (toString16 byte)) buffer [].

Definition decodeUuid (buffer : bytes) (start end_ : Z) : jsstring :=
  let bytes := subarray buffer start end_ in
  let leastSignificant := subarray bytes 0 8 in
  let mostSignificant := subarray bytes 8 16 in
  let raw := longToHex mostSignificant ++ longToHex leastSignificant in
  join (js "-")
    [ substr raw 0 8;
      substr raw 8 4;
      substr raw 12 4;
      substr raw 16 4;
      substr_from raw 20 ].

Definition decode (buffer : bytes) : AgentMessage :=
  let headerLength := decodeInt buffer Offset.HL (Offset.HL + Length.HL) in
  {| encodeable :=
       {| MessageType :=
            trimEnd (decodeText buffer Offset.MessageType
                       (Some (Offset.MessageType + Length.MessageType)));
          SequenceNumber :=
            decodeInt buffer Offset.SequenceNumber
              (Offset.SequenceNumber + Length.SequenceNumber);
          PayloadType :=
            decodeInt buffer Offset.PayloadType
              (Offset.PayloadType + Length.PayloadType);
          Payload := decodeText buffer (headerLength + Length.PayloadLength) None |};
     MessageId :=
       decodeUuid buffer Offset.MessageId (Offset.MessageId + Length.MessageId) |}.

(** [uuidv4( {}, data, offset )] copies the 16 generated bytes into [data]. *)
Definition uuidv4_into (generated : list Z) (buf : bytes) (offset : Z) : bytes :=
  fold_left (fun b i => store b (offset + Z.of_nat i) (nth i generated 0))
            (seq 0 16) buf.

Definition encode `{Sha256} (env : Env) (message : EncodeableAgentMessage)
    : result bytes :=
  let payloadLength := str_length (Payload message) in
  let totalLength := Offset.PayloadLength + payloadLength + 4 in
  let data := new_Uint8Array totalLength in
  data <-! putInt data Offset.HL Offset.PayloadLength;;
  data <-! putString data Offset.MessageType
             (Offset.MessageType + Length.MessageType) (MessageType message);;
  data <-! putInt data Offset.SchemaVersion 1;;
  data <-! putLong data Offset.CreatedDate (now env);;
  data <-! putLong data Offset.SequenceNumber (SequenceNumber message);;
  data <-! putLong data Offset.Flags (if 0 <? SequenceNumber message then 0 else 1);;
  let data := uuidv4_into (uuid env) data Offset.MessageId in
  data <-! set data (sha256_digest (Payload message)) Offset.PayloadDigest;;
  data <-! putInt data Offset.PayloadType (PayloadType message);;
  data <-! putInt data Offset.PayloadLength payloadLength;;
  data <-! putString data Offset.Payload totalLength (Payload message);;
  Ok data.

(** ** The layout of an encoded frame *)

Definition u8 (l : list Z) : bytes := List.map to_uint8 l.

(** The four bytes [putInt] stores. *)
Definition be32 (value : Z) : list Z :=
  [ band (sar value 24) 255; band (sar value 16) 255;
    band (sar value 8) 255; band value 255 ].

(** The bytes [putString] stores for positions [i, i + count). *)
Definition string_cells (value : jsstring) (i : Z) (count : nat) : bytes :=
  List.map (fun j => to_uint8 (if str_length value <=? i + Z.of_nat j then 32
                               else charCodeAt value (i + Z.of_nat j)))
           (seq 0 count).

Definition uuid_cells (generated : list Z) : bytes :=
  List.map (fun i => to_uint8 (nth i generated 0)) (seq 0 16).

Definition header `{Sha256} (env : Env) (message : EncodeableAgentMessage) : bytes :=
  u8 (be32 Offset.PayloadLength)
  ++ string_cells (MessageType message) 0 32
  ++ u8 (be32 1)
  ++ repeat 0 4 ++ u8 (be32 (now env))
  ++ repeat 0 4 ++ u8 (be32 (SequenceNumber message))
  ++ repeat 0 4 ++ u8 (be32 (if 0 <? SequenceNumber message then 0 else 1))
  ++ uuid_cells (uuid env)
  ++ u8 (sha256_digest (Payload message))
  ++ u8 (be32 (PayloadType message))
  ++ u8 (be32 (str_length (Payload message))).

Definition frame `{Sha256} (env : Env) (message : EncodeableAgentMessage) : bytes :=
  header env message ++ u8 (Payload message).

(** ** Texts and UUID strings *)

(** Characters U+0001 .. U+007F: one byte each in UTF-8, and never NUL. *)
Definition ascii_text (s : jsstring) : Prop := Forall (fun c => 1 <= c < 128) s.

Definition is_byte (b : Z) : Prop := 0 <= b < 256.

(** The two hexadecimal digits of a byte. *)
Definition hex2 (b : Z) : jsstring := [hex_digit (b / 16); hex_digit (b mod 16)].

Definition hex_of (l : list Z) : jsstring := List.concat (List.map hex2 l).

(** The canonical text of 16 UUID bytes: 8-4-4-4-12 lower-case hexadecimal
    digits, bytes in order. *)
Definition uuid_string (u : list Z) : jsstring :=
  hex_of (firstn 4 u) ++ js "-" ++ hex_of (firstn 2 (skipn 4 u)) ++ js "-"
  ++ hex_of (firstn 2 (skipn 6 u)) ++ js "-" ++ hex_of (firstn 2 (skipn 8 u))
  ++ js "-" ++ hex_of (skipn 10 u).

Definition is_hex_digit (c : Z) : bool :=
  ((48 <=? c) && (c <=? 57)) || ((97 <=? c) && (c <=? 102)).

(** Syntax of a UUID string: 36 characters, dashes at 8, 13, 18 and 23,
    hexadecimal digits elsewhere. *)
Definition uuid_syntax (s : jsstring) : bool :=
  (List.length s =? 36)%nat
  && forallb (fun '(i, c) =>
       if (i =? 8)%nat || (i =? 13)%nat || (i =? 18)%nat || (i =? 23)%nat
       then c =? 45 else is_hex_digit c)
     (combine (seq 0 (List.length s)) s).

Definition uuid_wf (u : list Z) : Prop := List.length u = 16%nat /\ Forall is_byte u.

(** The two 8-byte halves exchanged. *)
Definition swap_halves (u : list Z) : list Z := skipn 8 u ++ firstn 8 u.

(** ** JSON, as the session uses it *)

(** The values [JSON.parse] returns.  Numbers are integers here: the session
    reads sequence numbers and lengths only. *)
#[warnings="-register-all"]
Inductive json : Type :=
| JNull
| JBool (b : bool)
| JNumber (n : Z)
| JString (s : jsstring)
| JArray (items : list json)
| JObject (fields : list (jsstring * json)).

(** [JSON.parse] (raises SyntaxError on malformed text) and [JSON.stringify]
    are supplied by the platform. *)
Class Json : Type := {
  JSON_parse : jsstring -> result json;
  JSON_stringify : json -> jsstring;
}.

(** The value of the last member named [key]; [None] stands for [undefined]. *)
Fixpoint member (key : jsstring) (fields : list (jsstring * json)) : option json :=
  match fields with
  | [] => None
  | (k, v) :: rest =>
    match member key rest with
    | Some later => Some later
    | None => if decide (k = key) then Some v else None
    end
  end.

(** [value.key] for the property names the session reads
    ([AcknowledgedMessageSequenceNumber], [Output], [length]). *)
Definition property (value : json) (key : jsstring) : result (option json) :=
  match value with
  | JNull => Throw TypeError
  | JObject fields => Ok (member key fields)
  | JString s =>
    Ok (if decide (key = js "length") then Some (JNumber (str_length s)) else None)
  | JArray items =>
    Ok (if decide (key = js "length")
        then Some (JNumber (Z.of_nat (List.length items))) else None)
  | JBool _ | JNumber _ => Ok None
  end.

(** ** aws-ssm-session.ts: the session object *)

Inductive EventName : Type := output | connect | disconnect | pause | resume.

Definition EventName_eqb (a b : EventName) : bool :=
  match a, b with
  | output, output | connect, connect | disconnect, disconnect
  | pause, pause | resume, resume => true
  | _, _ => false
  end.

(** A registered callback is known by a number; what it does with the data
    it receives is outside the session: a callback is taken to return
    normally and not to call back into the session. *)
Record Handler : Type := {
  event : EventName;
  callback : nat;
}.

(** The transport, as far as the session looks at it.  Its [send] and
    [close] are recorded in the log and taken not to raise. *)
Record WebSocket : Type := {
  readyState : Z;
}.

Record AWSSSMSession : Type := {
  webSocket : WebSocket;
  sessionId : jsstring;
  tokenValue : jsstring;
  streamUrl : jsstring;
  outgoingSequenceNumber : Z;
  outputMap : gmap (list Z) (list Z);
  connectionClosed : bool;
  connectionTerminated : bool;
  lastAcknowledgedSequenceNumber : option Z;
  handlers : list Handler;
  paused : bool;
}.

(** What a method does to the world outside the session's fields. *)
Inductive effect : Type :=
| WsSend (data : bytes)            (* webSocket.send( Uint8Array ) *)
| WsSendText (text : jsstring)     (* webSocket.send( string ) *)
| WsClose                          (* webSocket.close() *)
| Emit (name : EventName) (data : jsstring)   (* this.emit( name, data ) *)
| Call (callback : nat) (data : jsstring)     (* h.callback( data ) *)
| ConsoleError (text : jsstring)
| ConsoleWarn (text : jsstring).

(** How a method ends: normally, by an exception that leaves the method
    (with the fields and the log as they were when it was raised), or outside
    this embedding: a parsed value that is not of the type the code expects
    would have to be coerced by [<], [>] or [+], or stored in the field
    declared [number | undefined]. *)
Inductive outcome : Type :=
| Returns (s : AWSSSMSession) (log : list effect)
| Raises (e : error) (s : AWSSSMSession) (log : list effect)
| Unmodelled.

Definition andThen (o : outcome) (k : AWSSSMSession -> outcome) : outcome :=
  match o with
  | Returns s log =>
    match k s with
    | Returns s' log' => Returns s' (log ++ log')
    | Raises e s' log' => Raises e s' (log ++ log')
    | Unmodelled => Unmodelled
    end
  | Raises e s log => Raises e s log
  | Unmodelled => Unmodelled
  end.

Notation "o >>> k" := (andThen o k) (at level 61, left associativity).

Definition with_outgoingSequenceNumber (s : AWSSSMSession) (v : Z) : AWSSSMSession :=
  {| webSocket := webSocket s; sessionId := sessionId s; tokenValue := tokenValue s;
     streamUrl := streamUrl s; outgoingSequenceNumber := v; outputMap := outputMap s;
     connectionClosed := connectionClosed s;
     connectionTerminated := connectionTerminated s;
     lastAcknowledgedSequenceNumber := lastAcknowledgedSequenceNumber s;
     handlers := handlers s; paused := paused s |}.

Definition with_outputMap (s : AWSSSMSession) (v : gmap (list Z) (list Z))
    : AWSSSMSession :=
  {| webSocket := webSocket s; sessionId := sessionId s; tokenValue := tokenValue s;
     streamUrl := streamUrl s; outgoingSequenceNumber := outgoingSequenceNumber s;
     outputMap := v; connectionClosed := connectionClosed s;
     connectionTerminated := connectionTerminated s;
     lastAcknowledgedSequenceNumber := lastAcknowledgedSequenceNumber s;
     handlers := handlers s; paused := paused s |}.

Definition with_connectionClosed (s : AWSSSMSession) (v : bool) : AWSSSMSession :=
  {| webSocket := webSocket s; sessionId := sessionId s; tokenValue := tokenValue s;
     streamUrl := streamUrl s; outgoingSequenceNumber := outgoingSequenceNumber s;
     outputMap := outputMap s; connectionClosed := v;
     connectionTerminated := connectionTerminated s;
     lastAcknowledgedSequenceNumber := lastAcknowledgedSequenceNumber s;
     handlers := handlers s; paused := paused s |}.

Definition with_connectionTerminated (s : AWSSSMSession) (v : bool) : AWSSSMSession :=
  {| webSocket := webSocket s; sessionId := sessionId s; tokenValue := tokenValue s;
     streamUrl := streamUrl s; outgoingSequenceNumber := outgoingSequenceNumber s;
     outputMap := outputMap s; connectionClosed := connectionClosed s;
     connectionTerminated := v;
     lastAcknowledgedSequenceNumber := lastAcknowledgedSequenceNumber s;
     handlers := handlers s; paused := paused s |}.

Definition with_lastAcknowledgedSequenceNumber (s : AWSSSMSession) (v : option Z)
    : AWSSSMSession :=
  {| webSocket := webSocket s; sessionId := sessionId s; tokenValue := tokenValue s;
     streamUrl := streamUrl s; outgoingSequenceNumber := outgoingSequenceNumber s;
     outputMap := outputMap s; connectionClosed := connectionClosed s;
     connectionTerminated := connectionTerminated s;
     lastAcknowledgedSequenceNumber := v;
     handlers := handlers s; paused := paused s |}.

Definition with_handlers (s : AWSSSMSession) (v : list Handler) : AWSSSMSession :=
  {| webSocket := webSocket s; sessionId := sessionId s; tokenValue := tokenValue s;
     streamUrl := streamUrl s; outgoingSequenceNumber := outgoingSequenceNumber s;
     outputMap := outputMap s; connectionClosed := connectionClosed s;
     connectionTerminated := connectionTerminated s;
     lastAcknowledgedSequenceNumber := lastAcknowledgedSequenceNumber s;
     handlers := v; paused := paused s |}.

Definition with_paused (s : AWSSSMSession) (v : bool) : AWSSSMSession :=
  {| webSocket := webSocket s; sessionId := sessionId s; tokenValue := tokenValue s;
     streamUrl := streamUrl s; outgoingSequenceNumber := outgoingSequenceNumber s;
     outputMap := outputMap s; connectionClosed := connectionClosed s;
     connectionTerminated := connectionTerminated s;
     lastAcknowledgedSequenceNumber := lastAcknowledgedSequenceNumber s;
     handlers := handlers s; paused := v |}.

(** The fields as the constructor leaves them; the socket is still connecting. *)
Definition constructor (streamUrl sessionId tokenValue : jsstring) : AWSSSMSession :=
  {| webSocket := {| readyState := 0 |};
     sessionId := sessionId; tokenValue := tokenValue; streamUrl := streamUrl;
     outgoingSequenceNumber := 0; outputMap := ∅;
     connectionClosed := false; connectionTerminated := false;
     lastAcknowledgedSequenceNumber := None;
     handlers := []; paused := false |}.

Section Session.
Context `{Sha256} `{Json}.

Definition emit (eventName : EventName) (data : jsstring) (s : AWSSSMSession)
    : outcome :=
  Returns s
    (Emit eventName data
     :: List.map (fun h => Call (callback h) data)
          (List.filter (fun h => EventName_eqb (event h) eventName) (handlers s))).

Definition on (eventName : EventName) (callback : nat) (s : AWSSSMSession)
    : outcome :=
  Returns (with_handlers s (handlers s ++ [ {| event := eventName; callback := callback |} ]))
          [].

Definition send (message : bytes) (s : AWSSSMSession) : outcome :=
  if negb (readyState (webSocket s) =? 1) then
    Returns s [ConsoleWarn (js "WebSocket is not yet ready.")]
  else
    Returns (with_outgoingSequenceNumber s (outgoingSequenceNumber s + 1))
            [WsSend message].

Definition write (env : Env) (message : jsstring) (s : AWSSSMSession) : outcome :=
  let data :=
    {| MessageType := MessageType.InputStreamDataMessage;
       SequenceNumber := outgoingSequenceNumber s;
       Payload := message;
       PayloadType := PayloadType.Output |} in
  match encode env data with
  | Ok encoded => send encoded s
  | Throw e => Raises e s []
  end.

Definition ping (s : AWSSSMSession) : outcome := Returns s [WsSendText (js "ping")].

Definition setSize (env : Env) (cols rows : Z) (s : AWSSSMSession) : outcome :=
  let message :=
    {| MessageType := MessageType.InputStreamDataMessage;
       SequenceNumber := outgoingSequenceNumber s;
       Payload := JSON_stringify
                    (JObject [ (js "cols", JNumber cols); (js "rows", JNumber rows) ]);
       PayloadType := PayloadType.Size |} in
  match encode env message with
  | Ok encoded => send encoded s
  | Throw e => Raises e s []
  end.

Definition close (s : AWSSSMSession) : outcome := Returns s [WsClose].

Definition acknowledgeMessage (env : Env) (messageType messageId : jsstring)
    (messageSequenceNumber : Z) (s : AWSSSMSession) : outcome :=
  let message :=
    {| MessageType := MessageType.AcknowledgeMessage;
       SequenceNumber := outgoingSequenceNumber s;
       PayloadType := PayloadType.Output;
       Payload := JSON_stringify
         (JObject
            [ (js "AcknowledgedMessageType", JString messageType);
              (js "AcknowledgedMessageId", JString messageId);
              (js "AcknowledgedMessageSequenceNumber", JNumber messageSequenceNumber);
              (js "IsSequentialMessage", JBool true) ]) |} in
  (* Write to the socket without incrementing our own sequence number. *)
  match encode env message with
  | Ok encoded => Returns s [WsSend encoded]
  | Throw e => Raises e s []
  end.

(** [webSocket.onopen]; [requestId] is the text of a fresh UUID. *)
Definition onopen (requestId : jsstring) (s : AWSSSMSession) : outcome :=
  Returns s
    [WsSendText
       (JSON_stringify
          (JObject [ (js "MessageSchemaVersion", JString (js "1.0"));
                     (js "RequestId", JString requestId);
                     (js "TokenValue", JString (tokenValue s)) ]))]
  >>> emit connect [].

(** The [switch] of [webSocket.onmessage], on the decoded message. *)
Definition handle (env : Env) (message : AgentMessage) (s : AWSSSMSession)
    : outcome :=
  if decide (MessageType message = MessageType.OutputStreamDataMessage) then
    acknowledgeMessage env (MessageType message) (MessageId message)
                       (SequenceNumber message) s
    >>> (fun s =>
      let text := Payload message in
      (if negb (bool_decide (is_Some (outputMap s !! MessageId message)))
       then emit output text s
       else Returns s [])
      >>> (fun s =>
        Returns (with_outputMap s (<[MessageId message := text]> (outputMap s))) []))
  else if decide (MessageType message = MessageType.StartPublicationMessage) then
    let s :=
      match lastAcknowledgedSequenceNumber s with
      | Some acknowledged => with_outgoingSequenceNumber s acknowledged
      | None => with_outgoingSequenceNumber s 0
      end in
    emit resume [] (with_paused s false)
  else if decide (MessageType message = MessageType.PausePublicationMessage) then
    emit pause [] (with_paused s true)
  else if decide (MessageType message = MessageType.AcknowledgeMessage) then
    match Payload message with
    | [] => Returns s []
    | _ :: _ =>
      match JSON_parse (Payload message) with
      | Throw e => Raises e s []
      | Ok payloadData =>
        match property payloadData (js "AcknowledgedMessageSequenceNumber") with
        | Throw e => Raises e s []
        | Ok None => Returns s []
        | Ok (Some (JNumber acknowledged)) =>
          match lastAcknowledgedSequenceNumber s with
          | None =>
            Returns (with_lastAcknowledgedSequenceNumber s (Some acknowledged)) []
          | Some last =>
            if last <? acknowledged
            then Returns (with_lastAcknowledgedSequenceNumber s (Some acknowledged)) []
            else Returns s []
          end
        | Ok (Some _) => Unmodelled
        end
      end
    end
  else if decide (MessageType message = MessageType.InputStreamDataMessage) then
    Returns s []
  else if decide (MessageType message = MessageType.ChannelClosedMessage) then
    (match Payload message with
     | [] => Returns s []
     | _ :: _ =>
       match JSON_parse (Payload message) with
       | Throw e => Raises e s []
       | Ok payloadData =>
         match property payloadData (js "Output") with
         | Throw e => Raises e s []
         | Ok None | Ok (Some JNull) => Raises TypeError s []
         | Ok (Some (JString text)) =>
           if 0 <? str_length text
           then emit output (text ++ js_crlf) s
           else Returns s []
         | Ok (Some (JNumber _)) | Ok (Some (JBool _)) | Ok (Some (JArray [])) =>
           Returns s []
         | Ok (Some (JArray (_ :: _))) | Ok (Some (JObject _)) => Unmodelled
         end
       end
     end)
    >>> (fun s => Returns (with_connectionTerminated s true) [])
  else
    Returns s [ConsoleError (js "Unhandled message type " ++ MessageType message
                             ++ js ".")].

(** [webSocket.onmessage] on the bytes of one transport message. *)
Definition onmessage (env : Env) (data : bytes) (s : AWSSSMSession) : outcome :=
  let uint8 := data in
  let message := decode uint8 in
  handle env message s.

Definition onclose (reason : jsstring) (s : AWSSSMSession) : outcome :=
  emit disconnect reason (with_connectionClosed s true).

End Session.

(** ** Reading a log, and runs of the handler *)

(** The events emitted and the frames sent, read off a log. *)
Definition emits (log : list effect) : list (EventName * jsstring) :=
  List.concat (List.map (fun e => match e with Emit name data => [(name, data)] | _ => [] end)
                        log).

Definition sends (log : list effect) : list (list Z) :=
  List.concat (List.map (fun e => match e with WsSend data => [data] | _ => [] end) log).

(** The callbacks [emit] runs. *)
Definition calls (eventName : EventName) (data : jsstring) (s : AWSSSMSession)
    : list effect :=
  List.map (fun h => Call (callback h) data)
           (List.filter (fun h => EventName_eqb (event h) eventName) (handlers s)).

(** [lastAcknowledgedSequenceNumber] does not go down. *)
Definition not_below (before after : option Z) : Prop :=
  match before, after with
  | None, _ => True
  | Some b, Some a => b <= a
  | Some _, None => False
  end.

(** The session a method leaves behind, when the embedding follows it. *)
Definition final_state (o : outcome) : option AWSSSMSession :=
  match o with
  | Returns s _ | Raises _ s _ => Some s
  | Unmodelled => None
  end.

Section SessionRuns.
Context `{Sha256} `{Json}.

(** The message is an acknowledgement carrying the sequence number [n]. *)
Definition acknowledges (message : AgentMessage) (n : Z) : Prop :=
  MessageType message = MessageType.AcknowledgeMessage
  /\ Payload message <> []
  /\ exists payloadData,
       JSON_parse (Payload message) = Ok payloadData
       /\ property payloadData (js "AcknowledgedMessageSequenceNumber")
          = Ok (Some (JNumber n)).

(** Messages handled one after the other, each with its own clock and UUID. *)
Fixpoint feed (inputs : list (Env * AgentMessage)) (s : AWSSSMSession) : outcome :=
  match inputs with
  | [] => Returns s []
  | (env, message) :: rest => handle env message s >>> feed rest
  end.

End SessionRuns.

(** ** A JSON reader and writer to run the session on concrete payloads

    The fragment with integer numbers; text outside it is rejected.  The
    statements about the session hold for every [Json] instance. *)

Module JsonText.

Definition quote : Z := 34.
Definition backslash : Z := 92.

Definition is_space (c : Z) : bool := (c =? 32) || (c =? 9) || (c =? 10) || (c =? 13).
Definition is_digit (c : Z) : bool := (48 <=? c) && (c <=? 57).

Fixpoint skip_spaces (s : jsstring) : jsstring :=
  match s with
  | c :: rest => if is_space c then skip_spaces rest else s
  | [] => []
  end.

Definition hex_value (c : Z) : option Z :=
  if (48 <=? c) && (c <=? 57) then Some (c - 48)
  else if (97 <=? c) && (c <=? 102) then Some (c - 87)
  else if (65 <=? c) && (c <=? 70) then Some (c - 55)
  else None.

Definition escape_value (c : Z) : option Z :=
  if c =? 34 then Some 34 else if c =? 92 then Some 92 else if c =? 47 then Some 47
  else if c =? 98 then Some 8 else if c =? 102 then Some 12
  else if c =? 110 then Some 10 else if c =? 114 then Some 13
  else if c =? 116 then Some 9 else None.

(** The characters of a string literal after its opening quote. *)
Fixpoint read_string (s : jsstring) (acc : jsstring) : option (jsstring * jsstring) :=
  match s with
  | [] => None
  | c :: rest =>
    if c =? quote then Some (rev acc, rest)
    else if c =? backslash then
      match rest with
      | [] => None
      | e :: rest1 =>
        if e =? 117 then
          match rest1 with
          | h1 :: h2 :: h3 :: h4 :: rest2 =>
            match hex_value h1, hex_value h2, hex_value h3, hex_value h4 with
            | Some a, Some b, Some c', Some d =>
              read_string rest2 (((a * 16 + b) * 16 + c') * 16 + d :: acc)
            | _, _, _, _ => None
            end
          | _ => None
          end
        else
          match escape_value e with
          | Some v => read_string rest1 (v :: acc)
          | None => None
          end
      end
    else if c <? 32 then None
    else read_string rest (c :: acc)
  end.

Fixpoint read_digits (s : jsstring) (acc : Z) : Z * jsstring :=
  match s with
  | c :: rest => if is_digit c then read_digits rest (acc * 10 + (c - 48)) else (acc, s)
  | [] => (acc, [])
  end.

(** An integer literal: no leading zero, no fraction, no exponent. *)
Definition read_number (s : jsstring) : option (Z * jsstring) :=
  let '(negative, s1) :=
    match s with
    | c :: rest => if c =? 45 then (true, rest) else (false, s)
    | [] => (false, s)
    end in
  match s1 with
  | d :: rest =>
    if is_digit d then
      let '(n, s2) := if d =? 48 then (0, rest) else read_digits s1 0 in
      match s2 with
      | c :: _ =>
        if is_digit c || (c =? 46) || (c =? 101) || (c =? 69) then None
        else Some (if negative then - n else n, s2)
      | [] => Some (if negative then - n else n, s2)
      end
    else None
  | [] => None
  end.

Definition read_word (word : jsstring) (v : json) (s : jsstring)
    : option (json * jsstring) :=
  if decide (firstn (List.length word) s = word)
  then Some (v, skipn (List.length word) s) else None.

(** One value, then (for arrays and objects) the remaining items; [fuel]
    bounds the number of nested calls. *)
Fixpoint read_value (fuel : nat) (s : jsstring) : option (json * jsstring) :=
  match fuel with
  | O => None
  | S fuel =>
    match skip_spaces s with
    | [] => None
    | c :: rest =>
      if c =? quote then
        match read_string rest [] with
        | Some (text, s1) => Some (JString text, s1)
        | None => None
        end
      else if c =? 91 then
        match skip_spaces rest with
        | c1 :: rest1 =>
          if c1 =? 93 then Some (JArray [], rest1)
          else match read_items fuel rest with
               | Some (items, s1) => Some (JArray items, s1)
               | None => None
               end
        | [] => None
        end
      else if c =? 123 then
        match skip_spaces rest with
        | c1 :: rest1 =>
          if c1 =? 125 then Some (JObject [], rest1)
          else match read_members fuel rest with
               | Some (fields, s1) => Some (JObject fields, s1)
               | None => None
               end
        | [] => None
        end
      else if c =? 116 then read_word (js "true") (JBool true) (c :: rest)
      else if c =? 102 then read_word (js "false") (JBool false) (c :: rest)
      else if c =? 110 then read_word (js "null") JNull (c :: rest)
      else
        match read_number (c :: rest) with
        | Some (n, s1) => Some (JNumber n, s1)
        | None => None
        end
    end
  end
with read_items (fuel : nat) (s : jsstring) : option (list json * jsstring) :=
  match fuel with
  | O => None
  | S fuel =>
    match read_value fuel s with
    | Some (v, s1) =>
      match skip_spaces s1 with
      | c :: rest =>
        if c =? 93 then Some ([v], rest)
        else if c =? 44 then
          match read_items fuel rest with
          | Some (items, s2) => Some (v :: items, s2)
          | None => None
          end
        else None
      | [] => None
      end
    | None => None
    end
  end
with read_members (fuel : nat) (s : jsstring)
    : option (list (jsstring * json) * jsstring) :=
  match fuel with
  | O => None
  | S fuel =>
    match skip_spaces s with
    | c :: rest =>
      if c =? quote then
        match read_string rest [] with
        | Some (key, s1) =>
          match skip_spaces s1 with
          | c1 :: rest1 =>
            if c1 =? 58 then
              match read_value fuel rest1 with
              | Some (v, s2) =>
                match skip_spaces s2 with
                | c2 :: rest2 =>
                  if c2 =? 125 then Some ([(key, v)], rest2)
                  else if c2 =? 44 then
                    match read_members fuel rest2 with
                    | Some (fields, s3) => Some ((key, v) :: fields, s3)
                    | None => None
                    end
                  else None
                | [] => None
                end
              | None => None
              end
            else None
          | [] => None
          end
        | None => None
        end
      else None
    | [] => None
    end
  end.

Definition parse (text : jsstring) : result json :=
  match read_value (2 * List.length text + 2) text with
  | Some (v, rest) =>
    match skip_spaces rest with
    | [] => Ok v
    | _ :: _ => Throw SyntaxError
    end
  | None => Throw SyntaxError
  end.

Definition hex4 (c : Z) : jsstring :=
  [ hex_digit (c / 4096 mod 16); hex_digit (c / 256 mod 16);
    hex_digit (c / 16 mod 16); hex_digit (c mod 16) ].

Definition write_char (c : Z) : jsstring :=
  if c =? 34 then [92; 34] else if c =? 92 then [92; 92]
  else if c =? 8 then [92; 98] else if c =? 12 then [92; 102]
  else if c =? 10 then [92; 110] else if c =? 13 then [92; 114]
  else if c =? 9 then [92; 116]
  else if c <? 32 then [92; 117] ++ hex4 c
  else [c].

Definition write_string (s : jsstring) : jsstring :=
  [quote] ++ List.concat (List.map write_char s) ++ [quote].

Definition write_number (n : Z) : jsstring :=
  js (DecimalString.NilZero.string_of_int (Z.to_int n)).

Fixpoint stringify (v : json) : jsstring :=
  match v with
  | JNull => js "null"
  | JBool true => js "true"
  | JBool false => js "false"
  | JNumber n => write_number n
  | JString s => write_string s
  | JArray items =>
    js "[" ++ join (js ",") (List.map stringify items) ++ js "]"
  | JObject fields =>
    js "{"
    ++ join (js ",")
         (List.map (fun kv => write_string (fst kv) ++ js ":" ++ stringify (snd kv))
                   fields)
    ++ js "}"
  end.

End JsonText.

#[export] Instance json_text : Json :=
  {| JSON_parse := JsonText.parse; JSON_stringify := JsonText.stringify |}.

(** ** SHA-256, to run the codec on concrete frames

    The digest js-sha256 computes for a string.  The statements about the
    codec hold for every [Sha256] instance. *)

Module JsSha256.

Definition w32 (x : Z) : Z := x mod 2 ^ 32.
Definition add32 (x y : Z) : Z := w32 (x + y).
Definition rotr (x n : Z) : Z := Z.lor (Z.shiftr x n) (w32 (Z.shiftl x (32 - n))).
Definition not32 (x : Z) : Z := Z.lxor x 4294967295.

Definition ch (x y z : Z) : Z := Z.lxor (Z.land x y) (Z.land (not32 x) z).
Definition maj (x y z : Z) : Z :=
  Z.lxor (Z.lxor (Z.land x y) (Z.land x z)) (Z.land y z).
Definition big_sigma0 (x : Z) : Z := Z.lxor (Z.lxor (rotr x 2) (rotr x 13)) (rotr x 22).
Definition big_sigma1 (x : Z) : Z := Z.lxor (Z.lxor (rotr x 6) (rotr x 11)) (rotr x 25).
Definition sigma0 (x : Z) : Z := Z.lxor (Z.lxor (rotr x 7) (rotr x 18)) (Z.shiftr x 3).
Definition sigma1 (x : Z) : Z := Z.lxor (Z.lxor (rotr x 17) (rotr x 19)) (Z.shiftr x 10).

(** The round constants: the first 32 bits of the fractional parts of the
    cube roots of the first 64 primes. *)
Definition K : list Z :=
  [
    1116352408; 1899447441; 3049323471; 3921009573;
    961987163; 1508970993; 2453635748; 2870763221;
    3624381080; 310598401; 607225278; 1426881987;
    1925078388; 2162078206; 2614888103; 3248222580;
    3835390401; 4022224774; 264347078; 604807628;
    770255983; 1249150122; 1555081692; 1996064986;
    2554220882; 2821834349; 2952996808; 3210313671;
    3336571891; 3584528711; 113926993; 338241895;
    666307205; 773529912; 1294757372; 1396182291;
    1695183700; 1986661051; 2177026350; 2456956037;
    2730485921; 2820302411; 3259730800; 3345764771;
    3516065817; 3600352804; 4094571909; 275423344;
    430227734; 506948616; 659060556; 883997877;
    958139571; 1322822218; 1537002063; 1747873779;
    1955562222; 2024104815; 2227730452; 2361852424;
    2428436474; 2756734187; 3204031479; 3329325298
  ].

Record state : Type := {
  h0 : Z; h1 : Z; h2 : Z; h3 : Z; h4 : Z; h5 : Z; h6 : Z; h7 : Z;
}.

Definition initial : state :=
  {| h0 := 1779033703; h1 := 3144134277; h2 := 1013904242; h3 := 2773480762;
     h4 := 1359893119; h5 := 2600822924; h6 := 528734635; h7 := 1541459225 |}.

(** The bytes a string is hashed as: its UTF-8 form, a surrogate taken with
    the code unit after it whatever that is. *)
Fixpoint string_bytes (s : list Z) : list Z :=
  match s with
  | [] => []
  | c :: rest =>
    if c <? 128 then c :: string_bytes rest
    else if c <? 2048 then
      (192 + Z.shiftr c 6) :: (128 + Z.land c 63) :: string_bytes rest
    else if (c <? 55296) || (57344 <=? c) then
      (224 + Z.shiftr c 12) :: (128 + Z.land (Z.shiftr c 6) 63)
      :: (128 + Z.land c 63) :: string_bytes rest
    else
      let next := match rest with d :: _ => d | [] => 0 end in
      let code := 65536 + Z.lor (Z.shiftl (Z.land c 1023) 10) (Z.land next 1023) in
      (240 + Z.shiftr code 18) :: (128 + Z.land (Z.shiftr code 12) 63)
      :: (128 + Z.land (Z.shiftr code 6) 63) :: (128 + Z.land code 63)
      :: match rest with _ :: rest' => string_bytes rest' | [] => [] end
  end.

Definition word_bytes (w : Z) : list Z :=
  [ Z.shiftr w 24 mod 256; Z.shiftr w 16 mod 256; Z.shiftr w 8 mod 256; w mod 256 ].

(** The message with its padding: a one bit, zeros, and the bit length in
    eight bytes. *)
Definition padded (message : list Z) : list Z :=
  let n := Z.of_nat (List.length message) in
  let zeros := Z.to_nat ((55 - n) mod 64) in
  message ++ [128] ++ repeat 0 zeros
  ++ word_bytes (Z.shiftr (n * 8) 32) ++ word_bytes (w32 (n * 8)).

Fixpoint words (block : list Z) : list Z :=
  match block with
  | a :: b :: c :: d :: rest => (((a * 256 + b) * 256 + c) * 256 + d) :: words rest
  | _ => []
  end.

(** The message schedule, most recent word first. *)
Fixpoint schedule (count : nat) (recent : list Z) : list Z :=
  match count with
  | O => recent
  | S count' =>
    let w := add32 (add32 (sigma1 (nth 1 recent 0)) (nth 6 recent 0))
                   (add32 (sigma0 (nth 14 recent 0)) (nth 15 recent 0)) in
    schedule count' (w :: recent)
  end.

Definition round (st : state) (kw : Z * Z) : state :=
  let '(k, w) := kw in
  let t1 := add32 (add32 (add32 (h7 st) (big_sigma1 (h4 st)))
                         (add32 (ch (h4 st) (h5 st) (h6 st)) k)) w in
  let t2 := add32 (big_sigma0 (h0 st)) (maj (h0 st) (h1 st) (h2 st)) in
  {| h0 := add32 t1 t2; h1 := h0 st; h2 := h1 st; h3 := h2 st;
     h4 := add32 (h3 st) t1; h5 := h4 st; h6 := h5 st; h7 := h6 st |}.

Definition compress (st : state) (block : list Z) : state :=
  let w := rev (schedule 48 (rev (words block))) in
  let r := fold_left round (combine K w) st in
  {| h0 := add32 (h0 st) (h0 r); h1 := add32 (h1 st) (h1 r);
     h2 := add32 (h2 st) (h2 r); h3 := add32 (h3 st) (h3 r);
     h4 := add32 (h4 st) (h4 r); h5 := add32 (h5 st) (h5 r);
     h6 := add32 (h6 st) (h6 r); h7 := add32 (h7 st) (h7 r) |}.

Fixpoint blocks (count : nat) (st : state) (data : list Z) : state :=
  match count with
  | O => st
  | S count' => blocks count' (compress st (firstn 64 data)) (skipn 64 data)
  end.

Definition hash (message : list Z) : state :=
  let data := padded message in
  blocks (List.length data / 64) initial data.

Definition digest (s : list Z) : list Z :=
  let st := hash (string_bytes s) in
  word_bytes (h0 st) ++ word_bytes (h1 st) ++ word_bytes (h2 st) ++ word_bytes (h3 st)
  ++ word_bytes (h4 st) ++ word_bytes (h5 st) ++ word_bytes (h6 st)
  ++ word_bytes (h7 st).

End JsSha256.

#[export] Instance js_sha256 : Sha256 :=
  {| sha256_digest := JsSha256.digest;
     sha256_digest_length := fun _ => eq_refl |}.

(** ** Inputs used in the examples *)

Definition env0 : Env :=
  {| now := 1700000000000;
     uuid := [0; 1; 2; 3; 4; 5; 70; 7; 136; 9; 10; 11; 12; 13; 14; 15] |}.

Definition msg0 : EncodeableAgentMessage :=
  {| MessageType := MessageType.InputStreamDataMessage;
     SequenceNumber := 7;
     PayloadType := PayloadType.Output;
     Payload := js "ls -l" |}.

Definition text_of_quoted (name : string) : jsstring :=
  [JsonText.quote] ++ js name ++ [JsonText.quote].

(** A sequence number past the 32-bit range. *)
Definition msg_big : EncodeableAgentMessage :=
  {| MessageType := MessageType.InputStreamDataMessage;
     SequenceNumber := 2147483648;
     PayloadType := PayloadType.Output;
     Payload := js "a" |}.

(** A payload holding U+00E9, whose UTF-8 encoding has two bytes. *)
Definition msg_accent : EncodeableAgentMessage :=
  {| MessageType := MessageType.InputStreamDataMessage;
     SequenceNumber := 0;
     PayloadType := PayloadType.Output;
     Payload := [233] |}.

(** A payload holding U+0000. *)
Definition msg_nul : EncodeableAgentMessage :=
  {| MessageType := MessageType.InputStreamDataMessage;
     SequenceNumber := 1;
     PayloadType := PayloadType.Output;
     Payload := [97; 0; 98] |}.

(** A tag that ends with a space, and a payload type past 32 bits. *)
Definition msg_trailing : EncodeableAgentMessage :=
  {| MessageType := js "shell ";
     SequenceNumber := 1;
     PayloadType := 4294967297;
     Payload := js "a" |}.

(** A tag of 33 characters. *)
Definition msg_long_tag : EncodeableAgentMessage :=
  {| MessageType := repeat 97 33;
     SequenceNumber := 0;
     PayloadType := PayloadType.Output;
     Payload := js "a" |}.

(** A session with two callbacks registered for [output] and one for
    [resume], its socket open. *)
Definition session1 : AWSSSMSession :=
  {| webSocket := {| readyState := 1 |};
     sessionId := js "session-1"; tokenValue := js "token";
     streamUrl := js "wss://stream.example";
     outgoingSequenceNumber := 9; outputMap := ∅;
     connectionClosed := false; connectionTerminated := false;
     lastAcknowledgedSequenceNumber := None;
     handlers := [ {| event := output; callback := 0 |};
                   {| event := resume; callback := 1 |};
                   {| event := output; callback := 2 |} ];
     paused := true |}.


Definition env1 : Env :=
  {| now := 1700000000123;
     uuid := [255; 238; 221; 204; 187; 170; 73; 136; 167; 102; 85; 68; 51; 34; 17; 0] |}.

(** A message as the remote agent sends it, with the given type and payload. *)
Definition incoming (messageType : jsstring) (sequenceNumber : Z) (payload : jsstring)
    : AgentMessage :=
  {| encodeable := {| MessageType := messageType; SequenceNumber := sequenceNumber;
                      PayloadType := PayloadType.Output; Payload := payload |};
     MessageId := js "0a0b0c0d-0e0f-4a4b-8c8d-010203040506" |}.

(** The text of an object with one member. *)
Definition object_text (key : string) (value : json) : jsstring :=
  JsonText.stringify (JObject [ (js key, value) ]).

Definition ack_message (n : Z) : AgentMessage :=
  incoming MessageType.AcknowledgeMessage 0
           (object_text "AcknowledgedMessageSequenceNumber" (JNumber n)).

Definition closed_message (text : string) : AgentMessage :=
  incoming MessageType.ChannelClosedMessage 4 (object_text "Output" (JString (js text))).

Definition output_message : AgentMessage :=
  incoming MessageType.OutputStreamDataMessage 12 (js "total 0").

Definition start_message : AgentMessage :=
  incoming MessageType.StartPublicationMessage 13 [].

(** ** Big-endian values *)

(** The number a byte sequence denotes, most significant byte first. *)
Definition be_value (l : list Z) : Z := fold_left (fun acc b => acc * 256 + b) l 0.


(** A buffer given by its ten fields, in wire order. *)
Definition layout (hl tag sc seq fl id dg pt pl body : list Z) : list Z :=
  hl ++ tag ++ sc ++ seq ++ fl ++ id ++ dg ++ pt ++ pl ++ body.

(** Code units below 128, U+0000 included. *)
Definition low_text (s : list Z) : Prop := Forall (fun c => 0 <= c < 128) s.

(** ** Reading an outcome, and registering callbacks in a row *)

(** The log a method leaves behind, when the embedding follows it. *)
Definition effects (o : outcome) : list effect :=
  match o with
  | Returns _ log | Raises _ _ log => log
  | Unmodelled => []
  end.

(** [on] called once for each pair, in order. *)
Fixpoint register (registrations : list (EventName * nat)) (s : AWSSSMSession)
    : outcome :=
  match registrations with
  | [] => Returns s []
  | (eventName, callback) :: rest => on eventName callback s >>> register rest
  end.

(** ** aws-ssm-session.ts before flow control

    The class as it was without [lastAcknowledgedSequenceNumber] and
    [paused]: [send] does not look at the socket, and the publication and
    acknowledgement messages are accepted and ignored.  Its [Handler] knows
    the events [output], [connect] and [disconnect] only. *)

Module Earlier.

Record AWSSSMSession : Type := {
  webSocket : WebSocket;
  sessionId : jsstring;
  tokenValue : jsstring;
  streamUrl : jsstring;
  outgoingSequenceNumber : Z;
  outputMap : gmap (list Z) (list Z);
  connectionClosed : bool;
  connectionTerminated : bool;
  handlers : list Handler;
}.

Inductive outcome : Type :=
| Returns (s : AWSSSMSession) (log : list effect)
| Raises (e : error) (s : AWSSSMSession) (log : list effect)
| Unmodelled.

Definition andThen (o : outcome) (k : AWSSSMSession -> outcome) : outcome :=
  match o with
  | Returns s log =>
    match k s with
    | Returns s' log' => Returns s' (log ++ log')
    | Raises e s' log' => Raises e s' (log ++ log')
    | Unmodelled => Unmodelled
    end
  | Raises e s log => Raises e s log
  | Unmodelled => Unmodelled
  end.

Definition with_outgoingSequenceNumber (s : AWSSSMSession) (v : Z) : AWSSSMSession :=
  {| webSocket := webSocket s; sessionId := sessionId s; tokenValue := tokenValue s;
     streamUrl := streamUrl s; outgoingSequenceNumber := v; outputMap := outputMap s;
     connectionClosed := connectionClosed s;
     connectionTerminated := connectionTerminated s; handlers := handlers s |}.

Definition with_outputMap (s : AWSSSMSession) (v : gmap (list Z) (list Z))
    : AWSSSMSession :=
  {| webSocket := webSocket s; sessionId := sessionId s; tokenValue := tokenValue s;
     streamUrl := streamUrl s; outgoingSequenceNumber := outgoingSequenceNumber s;
     outputMap := v; connectionClosed := connectionClosed s;
     connectionTerminated := connectionTerminated s; handlers := handlers s |}.

Definition with_connectionClosed (s : AWSSSMSession) (v : bool) : AWSSSMSession :=
  {| webSocket := webSocket s; sessionId := sessionId s; tokenValue := tokenValue s;
     streamUrl := streamUrl s; outgoingSequenceNumber := outgoingSequenceNumber s;
     outputMap := outputMap s; connectionClosed := v;
     connectionTerminated := connectionTerminated s; handlers := handlers s |}.

Definition with_connectionTerminated (s : AWSSSMSession) (v : bool) : AWSSSMSession :=
  {| webSocket := webSocket s; sessionId := sessionId s; tokenValue := tokenValue s;
     streamUrl := streamUrl s; outgoingSequenceNumber := outgoingSequenceNumber s;
     outputMap := outputMap s; connectionClosed := connectionClosed s;
     connectionTerminated := v; handlers := handlers s |}.

Definition with_handlers (s : AWSSSMSession) (v : list Handler) : AWSSSMSession :=
  {| webSocket := webSocket s; sessionId := sessionId s; tokenValue := tokenValue s;
     streamUrl := streamUrl s; outgoingSequenceNumber := outgoingSequenceNumber s;
     outputMap := outputMap s; connectionClosed := connectionClosed s;
     connectionTerminated := connectionTerminated s; handlers := v |}.

Definition constructor (streamUrl sessionId tokenValue : jsstring) : AWSSSMSession :=
  {| webSocket := {| readyState := 0 |};
     sessionId := sessionId; tokenValue := tokenValue; streamUrl := streamUrl;
     outgoingSequenceNumber := 0; outputMap := ∅;
     connectionClosed := false; connectionTerminated := false;
     handlers := [] |}.

Section EarlierMethods.
Context `{Sha256} `{Json}.

Definition emit (eventName : EventName) (data : jsstring) (s : AWSSSMSession)
    : outcome :=
  Returns s
    (Emit eventName data
     :: List.map (fun h => Call (callback h) data)
          (List.filter (fun h => EventName_eqb (event h) eventName) (handlers s))).

Definition on (eventName : EventName) (callback : nat) (s : AWSSSMSession)
    : outcome :=
  Returns (with_handlers s (handlers s ++ [ {| event := eventName; callback := callback |} ]))
          [].

Definition send (message : bytes) (s : AWSSSMSession) : outcome :=
  Returns (with_outgoingSequenceNumber s (outgoingSequenceNumber s + 1))
          [WsSend message].

Definition write (env : Env) (message : jsstring) (s : AWSSSMSession) : outcome :=
  let data :=
    {| MessageType := MessageType.InputStreamDataMessage;
       SequenceNumber := outgoingSequenceNumber s;
       Payload := message;
       PayloadType := PayloadType.Output |} in
  match encode env data with
  | Ok encoded => send encoded s
  | Throw e => Raises e s []
  end.

Definition ping (s : AWSSSMSession) : outcome := Returns s [WsSendText (js "ping")].

Definition setSize (env : Env) (cols rows : Z) (s : AWSSSMSession) : outcome :=
  let message :=
    {| MessageType := MessageType.InputStreamDataMessage;
       SequenceNumber := outgoingSequenceNumber s;
       Payload := JSON_stringify
                    (JObject [ (js "cols", JNumber cols); (js "rows", JNumber rows) ]);
       PayloadType := PayloadType.Size |} in
  match encode env message with
  | Ok encoded => send encoded s
  | Throw e => Raises e s []
  end.

Definition close (s : AWSSSMSession) : outcome := Returns s [WsClose].

Definition acknowledgeMessage (env : Env) (messageType messageId : jsstring)
    (messageSequenceNumber : Z) (s : AWSSSMSession) : outcome :=
  let message :=
    {| MessageType := MessageType.AcknowledgeMessage;
       SequenceNumber := outgoingSequenceNumber s;
       PayloadType := PayloadType.Output;
       Payload := JSON_stringify
         (JObject
            [ (js "AcknowledgedMessageType", JString messageType);
              (js "AcknowledgedMessageId", JString messageId);
              (js "AcknowledgedMessageSequenceNumber", JNumber messageSequenceNumber);
              (js "IsSequentialMessage", JBool true) ]) |} in
  match encode env message with
  | Ok encoded => Returns s [WsSend encoded]
  | Throw e => Raises e s []
  end.

Definition onopen (requestId : jsstring) (s : AWSSSMSession) : outcome :=
  andThen
    (Returns s
       [WsSendText
          (JSON_stringify
             (JObject [ (js "MessageSchemaVersion", JString (js "1.0"));
                        (js "RequestId", JString requestId);
                        (js "TokenValue", JString (tokenValue s)) ]))])
    (emit connect []).

Definition handle (env : Env) (message : AgentMessage) (s : AWSSSMSession)
    : outcome :=
  if decide (MessageType message = MessageType.OutputStreamDataMessage) then
    andThen
      (acknowledgeMessage env (MessageType message) (MessageId message)
                          (SequenceNumber message) s)
      (fun s =>
         let text := Payload message in
         andThen
           (if negb (bool_decide (is_Some (outputMap s !! MessageId message)))
            then emit output text s
            else Returns s [])
           (fun s =>
              Returns (with_outputMap s (<[MessageId message := text]> (outputMap s)))
                      []))
  else if decide (MessageType message = MessageType.InputStreamDataMessage
                  \/ MessageType message = MessageType.StartPublicationMessage
                  \/ MessageType message = MessageType.PausePublicationMessage
                  \/ MessageType message = MessageType.AcknowledgeMessage) then
    Returns s []
  else if decide (MessageType message = MessageType.ChannelClosedMessage) then
    andThen
      (match Payload message with
       | [] => Returns s []
       | _ :: _ =>
         match JSON_parse (Payload message) with
         | Throw e => Raises e s []
         | Ok payloadData =>
           match property payloadData (js "Output") with
           | Throw e => Raises e s []
           | Ok None | Ok (Some JNull) => Raises TypeError s []
           | Ok (Some (JString text)) =>
             if 0 <? str_length text
             then emit output (text ++ js_crlf) s
             else Returns s []
           | Ok (Some (JNumber _)) | Ok (Some (JBool _)) | Ok (Some (JArray [])) =>
             Returns s []
           | Ok (Some (JArray (_ :: _))) | Ok (Some (JObject _)) => Unmodelled
           end
         end
       end)
      (fun s => Returns (with_connectionTerminated s true) [])
  else
    Returns s [ConsoleError (js "Unhandled message type " ++ MessageType message
                             ++ js ".")].

Definition onmessage (env : Env) (data : bytes) (s : AWSSSMSession) : outcome :=
  let uint8 := data in
  let message := decode uint8 in
  handle env message s.

Definition onclose (reason : jsstring) (s : AWSSSMSession) : outcome :=
  emit disconnect reason (with_connectionClosed s true).

End EarlierMethods.

End Earlier.

(** The fields the two versions of the class share. *)
Definition forget (s : AWSSSMSession) : Earlier.AWSSSMSession :=
  {| Earlier.webSocket := webSocket s; Earlier.sessionId := sessionId s;
     Earlier.tokenValue := tokenValue s; Earlier.streamUrl := streamUrl s;
     Earlier.outgoingSequenceNumber := outgoingSequenceNumber s;
     Earlier.outputMap := outputMap s;
     Earlier.connectionClosed := connectionClosed s;
     Earlier.connectionTerminated := connectionTerminated s;
     Earlier.handlers := handlers s |}.

Definition forget_outcome (o : outcome) : Earlier.outcome :=
  match o with
  | Returns s log => Earlier.Returns (forget s) log
  | Raises e s log => Earlier.Raises e (forget s) log
  | Unmodelled => Earlier.Unmodelled
  end.


(** ** Inputs used in the further examples *)


(** A tag of the vocabulary the handler has no case for. *)
Definition state_message : AgentMessage :=
  incoming MessageType.AgentSessionState 15 (js "{}").

(** A buffer whose unread fields hold ones instead of zeros. *)
Definition header_cells (filler : Z) (body : list Z) : list Z :=
  layout [0; 0; 0; 116] (repeat 32 32) (repeat filler 12) [0; 0; 0; 0; 0; 0; 0; 7]
         (repeat filler 8) (repeat 171 16) (repeat filler 32) [0; 0; 0; 1]
         (repeat filler 4) body.

(** ** The reference instances on known values *)

Example sha256_abc :
  hex_of (sha256_digest (js "abc"))
  = js "ba7816bf8f01cfea414140de5dae2223b00361a396177a9cb410ff61f20015ad".
Proof. vm_compute. reflexivity. Qed.

Example json_text_roundtrip :
  let value := JObject [ (js "Output", JString (js "done"));
                         (js "n", JNumber (-42));
                         (js "l", JArray [JBool true; JNull; JNumber 0]) ] in
  JSON_parse (JSON_stringify value) = Ok value.
Proof. vm_compute. reflexivity. Qed.

(** ** Lemmas on the Uint8Array operations *)

Lemma set_at (pre old post source : list Z) (offset : Z) :
  offset = Z.of_nat (List.length pre) ->
  List.length old = List.length source ->
  set (pre ++ old ++ post) source offset = Ok (pre ++ u8 source ++ post).
Proof.
  intros -> Hlen. unfold set.
  rewrite !List.length_app, Hlen.
  replace (_ || _) with false.
  2:{ symmetry. apply orb_false_iff. split; [apply Z.ltb_ge | apply Z.ltb_ge]; lia. }
  rewrite Nat2Z.id. f_equal.
  rewrite List.firstn_app, Nat.sub_diag, List.firstn_all. simpl.
  rewrite List.app_nil_r. f_equal. f_equal.
  rewrite List.skipn_app, List.skipn_all2 by lia. simpl.
  replace (_ - _)%nat with (List.length old) by lia.
  rewrite List.skipn_app, List.skipn_all, Nat.sub_diag. reflexivity.
Qed.

Lemma string_cells_S value i count :
  string_cells value i (S count)
  = to_uint8 (if str_length value <=? i then 32 else charCodeAt value i)
    :: string_cells value (i + 1) count.
Proof.
  unfold string_cells. simpl. rewrite Z.add_0_r. f_equal.
  rewrite <- List.seq_shift, List.map_map. apply List.map_ext. intros j.
  replace (i + 1 + Z.of_nat j) with (i + Z.of_nat (S j)) by lia. reflexivity.
Qed.

Lemma putString_loop_at value start count :
  forall i pre old post,
    start + i = Z.of_nat (List.length pre) ->
    List.length old = count ->
    putString_loop value start count i (pre ++ old ++ post)
    = Ok (pre ++ string_cells value i count ++ post).
Proof.
  induction count as [|count IH]; intros i pre old post Hpos Hlen.
  - destruct old; [reflexivity | discriminate].
  - destruct old as [|o old]; [discriminate|]. simpl in Hlen.
    cbn [putString_loop].
    rewrite (set_at pre [o] (old ++ post)) by (auto).
    cbn [rbind u8 List.map].
    change (pre ++ ?x :: old ++ post) with (pre ++ [x] ++ old ++ post).
    rewrite List.app_assoc.
    rewrite IH.
    + rewrite string_cells_S, <- List.app_assoc. reflexivity.
    + rewrite List.length_app. simpl. lia.
    + lia.
Qed.

Lemma string_cells_shift value c i count :
  0 <= i ->
  string_cells (c :: value) (i + 1) count = string_cells value i count.
Proof.
  intros Hi. unfold string_cells. apply List.map_ext. intros j.
  unfold str_length, charCodeAt. cbn [List.length].
  replace (Z.to_nat (i + 1 + Z.of_nat j)) with (S (Z.to_nat (i + Z.of_nat j))) by lia.
  cbn [nth].
  destruct (Z.leb_spec (Z.of_nat (S (List.length value))) (i + 1 + Z.of_nat j));
    destruct (Z.leb_spec (Z.of_nat (List.length value)) (i + Z.of_nat j));
    try reflexivity; lia.
Qed.

Lemma string_cells_all value :
  string_cells value 0 (List.length value) = u8 value.
Proof.
  induction value as [|c value IH]; [reflexivity|].
  cbn [List.length]. rewrite string_cells_S.
  rewrite (string_cells_shift value c 0) by lia. rewrite IH.
  unfold str_length, charCodeAt. cbn. reflexivity.
Qed.

(** Beyond the end of the string [putString] pads with spaces. *)
Lemma string_cells_pad value i count :
  str_length value <= i ->
  string_cells value i count = repeat 32 count.
Proof.
  intros Hi. unfold string_cells.
  generalize 0%nat. induction count as [|count IH]; intros k; [reflexivity|].
  cbn [seq List.map repeat].
  destruct (Z.leb_spec (str_length value) (i + Z.of_nat k)); [|lia].
  f_equal. apply IH.
Qed.

Lemma string_cells_app value i n k :
  string_cells value i (n + k)
  = string_cells value i n ++ string_cells value (i + Z.of_nat n) k.
Proof.
  unfold string_cells. rewrite List.seq_app, List.map_app. f_equal.
  cbn [Nat.add]. rewrite <- (List.map_id (seq n k)) at 1.
  replace (seq n k) with (List.map (fun j => (n + j)%nat) (seq 0 k)).
  2:{ clear. revert n. induction k as [|k IH]; intros n; [reflexivity|].
      cbn [seq List.map]. rewrite Nat.add_0_r. f_equal.
      rewrite <- List.seq_shift, List.map_map, <- (IH (S n)).
      apply List.map_ext. intros; lia. }
  rewrite !List.map_map. apply List.map_ext. intros j. cbn.
  replace (i + Z.of_nat (n + j)) with (i + Z.of_nat n + Z.of_nat j) by lia.
  reflexivity.
Qed.

(** The 32-byte slot of a string no longer than the slot. *)
Lemma string_cells_slot value (width : nat) :
  (List.length value <= width)%nat ->
  string_cells value 0 width = u8 value ++ repeat 32 (width - List.length value).
Proof.
  intros Hle.
  replace width with (List.length value + (width - List.length value))%nat at 1 by lia.
  rewrite string_cells_app, string_cells_all, string_cells_pad; [reflexivity|].
  unfold str_length. lia.
Qed.

Lemma store_at pre x post i v :
  i = Z.of_nat (List.length pre) ->
  store (pre ++ x :: post) i v = pre ++ to_uint8 v :: post.
Proof.
  intros ->. unfold store.
  destruct (Z.ltb_spec (Z.of_nat (List.length pre)) 0); [lia|].
  rewrite Nat2Z.id.
  rewrite insert_app_r_alt by reflexivity.
  rewrite Nat.sub_diag. reflexivity.
Qed.

Lemma uuidv4_loop_at generated offset count :
  forall first pre old post,
    offset + Z.of_nat first = Z.of_nat (List.length pre) ->
    List.length old = count ->
    fold_left (fun b i => store b (offset + Z.of_nat i) (nth i generated 0))
              (seq first count) (pre ++ old ++ post)
    = pre ++ List.map (fun i => to_uint8 (nth i generated 0)) (seq first count) ++ post.
Proof.
  induction count as [|count IH]; intros first pre old post Hpos Hlen.
  - destruct old; [reflexivity | discriminate].
  - destruct old as [|o old]; [discriminate|]. simpl in Hlen.
    cbn [seq fold_left List.map].
    change (pre ++ (o :: old) ++ post) with (pre ++ o :: old ++ post).
    rewrite store_at by assumption.
    change (pre ++ ?x :: old ++ post) with (pre ++ [x] ++ old ++ post).
    rewrite List.app_assoc, IH.
    + rewrite <- List.app_assoc. reflexivity.
    + rewrite List.length_app. simpl. lia.
    + lia.
Qed.

Lemma uuidv4_into_at generated pre old post offset :
  offset = Z.of_nat (List.length pre) ->
  List.length old = 16%nat ->
  uuidv4_into generated (pre ++ old ++ post) offset
  = pre ++ uuid_cells generated ++ post.
Proof.
  intros Hoff Hlen. unfold uuidv4_into, uuid_cells.
  apply uuidv4_loop_at; [lia | assumption].
Qed.

(** One write into a buffer whose spine is known. *)
Ltac write_field pre old post :=
  match goal with
  | |- context [set ?b ?src ?off] =>
    change b with (pre ++ old ++ post);
    rewrite (set_at pre old post src off)
      by first [reflexivity | rewrite sha256_digest_length; reflexivity];
    cbn [rbind]
  end.

Section EncodeLayout.
Context `{Sha256}.

(** [encode] succeeds whenever the tag fits its slot, and then returns
    exactly [frame]. *)
Lemma encode_frame env message :
  str_length (MessageType message) <= 32 ->
  encode env message = Ok (frame env message).
Proof.
  intros Htag. unfold encode, frame, header.
  set (p := Payload message).
  set (tail := repeat 0 (List.length p)).
  replace (new_Uint8Array (Offset.PayloadLength + str_length p + 4))
    with (repeat 0 120 ++ tail ++ []).
  2:{ unfold new_Uint8Array, str_length, tail.
      replace (Z.to_nat _) with (120 + List.length p)%nat
        by (change Offset.PayloadLength with 116; lia).
      rewrite List.repeat_app, List.app_nil_r. reflexivity. }
  pose (c0 := u8 (be32 Offset.PayloadLength)).
  pose (c1 := string_cells (MessageType message) 0 32).
  pose (c2 := u8 (be32 1)).
  pose (c3 := repeat 0 4 ++ u8 (be32 (now env))).
  pose (c4 := repeat 0 4 ++ u8 (be32 (SequenceNumber message))).
  pose (c5 := repeat 0 4 ++ u8 (be32 (if 0 <? SequenceNumber message then 0 else 1))).
  pose (c6 := uuid_cells (uuid env)).
  pose (c7 := u8 (sha256_digest p)).
  pose (c8 := u8 (be32 (PayloadType message))).
  pose (c9 := u8 (be32 (str_length p))).
  unfold putLong, putInt.
  write_field (@nil Z) (repeat 0 4) (repeat 0 116 ++ tail ++ []).
  unfold putString at 1.
  destruct (Z.ltb_spec (Offset.MessageType + Length.MessageType - Offset.MessageType)
              (str_length (MessageType message))) as [Hbad|_];
    [unfold Offset.MessageType, Length.MessageType in Hbad; lia|].
  change (Z.to_nat _) with 32%nat.
  change ([] ++ ?x ++ repeat 0 116 ++ tail ++ [])
    with (x ++ repeat 0 32 ++ repeat 0 84 ++ tail ++ []).
  rewrite putString_loop_at by reflexivity. cbn [rbind].
  write_field (c0 ++ c1) (repeat 0 4) (repeat 0 80 ++ tail ++ []).
  write_field (c0 ++ c1 ++ c2 ++ repeat 0 4) (repeat 0 4) (repeat 0 72 ++ tail ++ []).
  write_field (c0 ++ c1 ++ c2 ++ c3 ++ repeat 0 4) (repeat 0 4) (repeat 0 64 ++ tail ++ []).
  write_field (c0 ++ c1 ++ c2 ++ c3 ++ c4 ++ repeat 0 4) (repeat 0 4)
              (repeat 0 56 ++ tail ++ []).
  cbv zeta.
  match goal with
  | |- context [uuidv4_into ?g ?b ?off] =>
    change b with ((c0 ++ c1 ++ c2 ++ c3 ++ c4 ++ c5) ++ repeat 0 16
                   ++ repeat 0 40 ++ tail ++ []);
    rewrite (uuidv4_into_at g (c0 ++ c1 ++ c2 ++ c3 ++ c4 ++ c5) (repeat 0 16))
      by reflexivity
  end.
  write_field (c0 ++ c1 ++ c2 ++ c3 ++ c4 ++ c5 ++ c6) (repeat 0 32)
              (repeat 0 8 ++ tail ++ []).
  assert (Hc7 : List.length c7 = 32%nat)
    by (unfold c7, u8; rewrite List.length_map; apply sha256_digest_length).
  assert (Hpre7 : Z.of_nat (List.length (c0 ++ c1 ++ c2 ++ c3 ++ c4 ++ c5 ++ c6 ++ c7)) = 112).
  { rewrite !List.length_app, Hc7. reflexivity. }
  assert (Hpre8 : Z.of_nat (List.length ((c0 ++ c1 ++ c2 ++ c3 ++ c4 ++ c5 ++ c6 ++ c7) ++ c8))
                  = 116).
  { rewrite List.length_app, Nat2Z.inj_add, Hpre7. reflexivity. }
  match goal with
  | |- context [set ?b ?src ?off] =>
    replace b with ((c0 ++ c1 ++ c2 ++ c3 ++ c4 ++ c5 ++ c6 ++ c7)
                    ++ repeat 0 4 ++ repeat 0 4 ++ tail ++ [])
      by (rewrite <- !List.app_assoc; reflexivity);
    rewrite (set_at (c0 ++ c1 ++ c2 ++ c3 ++ c4 ++ c5 ++ c6 ++ c7) (repeat 0 4))
      by first [reflexivity | rewrite Hpre7; reflexivity];
    cbn [rbind]
  end.
  match goal with
  | |- context [set ?b ?src ?off] =>
    replace b with (((c0 ++ c1 ++ c2 ++ c3 ++ c4 ++ c5 ++ c6 ++ c7) ++ c8)
                    ++ repeat 0 4 ++ tail ++ [])
      by (rewrite <- !List.app_assoc; reflexivity);
    rewrite (set_at ((c0 ++ c1 ++ c2 ++ c3 ++ c4 ++ c5 ++ c6 ++ c7) ++ c8) (repeat 0 4))
      by first [reflexivity | rewrite Hpre8; reflexivity];
    cbn [rbind]
  end.
  unfold putString.
  replace (Offset.PayloadLength + str_length p + 4 - Offset.Payload)
    with (str_length p) by (unfold Offset.Payload, Offset.PayloadLength, Length.PayloadLength; cbn; lia).
  rewrite Z.ltb_irrefl. unfold str_length at 1. rewrite Nat2Z.id.
  rewrite !List.app_assoc.
  rewrite <- (List.app_assoc _ tail []).
  rewrite putString_loop_at.
  - rewrite string_cells_all, List.app_nil_r.
    unfold c0, c1, c2, c3, c4, c5, c6, c7, c8, c9.
    rewrite <- !List.app_assoc. reflexivity.
  - rewrite !List.length_app, Hc7. reflexivity.
  - unfold tail. apply List.repeat_length.
Qed.

End EncodeLayout.

(** ** Reading the fields back *)

Lemma slice_at (pre mid post : list Z) (a b : Z) :
  a = Z.of_nat (List.length pre) ->
  b = a + Z.of_nat (List.length mid) ->
  slice (pre ++ mid ++ post) a (Some b) = mid.
Proof.
  intros -> ->. unfold slice, rel_index. rewrite !List.length_app.
  destruct (Z.ltb_spec (Z.of_nat (List.length pre)) 0); [lia|].
  destruct (Z.ltb_spec (Z.of_nat (List.length pre) + Z.of_nat (List.length mid)) 0); [lia|].
  rewrite !Z.min_l by lia.
  replace (Z.to_nat (_ - _)) with (List.length mid) by lia.
  rewrite Nat2Z.id.
  rewrite List.skipn_app, List.skipn_all, Nat.sub_diag, List.skipn_O. cbn [app].
  rewrite List.firstn_app, List.firstn_all, Nat.sub_diag, List.firstn_O.
  apply List.app_nil_r.
Qed.

Lemma slice_from (pre post : list Z) (a : Z) :
  a = Z.of_nat (List.length pre) ->
  slice (pre ++ post) a None = post.
Proof.
  intros ->. unfold slice, rel_index. rewrite !List.length_app.
  destruct (Z.ltb_spec (Z.of_nat (List.length pre)) 0); [lia|].
  rewrite Z.min_l by lia.
  replace (Z.to_nat (_ - _)) with (List.length post) by lia.
  rewrite Nat2Z.id.
  rewrite List.skipn_app, List.skipn_all, Nat.sub_diag, List.skipn_O. cbn [app].
  apply List.firstn_all.
Qed.

(** A slice that starts at or after the end of the array is empty. *)
Lemma slice_beyond (buffer : list Z) (a : Z) (e : option Z) :
  Z.of_nat (List.length buffer) <= a ->
  slice buffer a e = [].
Proof.
  intros Ha. unfold slice, rel_index.
  destruct (Z.ltb_spec a 0); [lia|].
  rewrite Z.min_r by lia.
  rewrite Nat2Z.id, List.skipn_all. apply List.firstn_nil.
Qed.

Lemma to_int32_small z : - 2 ^ 31 <= z < 2 ^ 31 -> to_int32 z = z.
Proof.
  intros Hz. unfold to_int32. rewrite Z.mod_small; lia.
Qed.

Lemma to_int32_range z : - 2 ^ 31 <= to_int32 z < 2 ^ 31.
Proof.
  unfold to_int32.
  pose proof (Z.mod_pos_bound (z + 2 ^ 31) (2 ^ 32) ltac:(lia)). lia.
Qed.

Lemma to_int32_idem z : to_int32 (to_int32 z) = to_int32 z.
Proof. apply to_int32_small, to_int32_range. Qed.

Lemma land_255 z : Z.land z 255 = z mod 256.
Proof. change 255 with (Z.ones 8). rewrite Z.land_ones by lia. reflexivity. Qed.

(** The four bytes of [putInt], as quotients and remainders of the wrapped value. *)
Lemma be32_bytes value :
  let w := to_int32 value in
  u8 (be32 value)
  = [ (w / 2 ^ 24) mod 256; (w / 2 ^ 16) mod 256; (w / 2 ^ 8) mod 256; w mod 256 ].
Proof.
  intros w. unfold be32, u8, band, sar. fold w. cbn [List.map].
  pose proof (to_int32_range value) as Hw. fold w in Hw.
  change (to_int32 255) with 255.
  rewrite !Z.shiftr_div_pow2 by lia.
  rewrite (to_int32_small (w / 2 ^ 24)), (to_int32_small (w / 2 ^ 16)),
          (to_int32_small (w / 2 ^ 8)).
  - rewrite !land_255. unfold to_uint8. rewrite !Z.mod_mod by lia. reflexivity.
  - split; [apply Z.div_le_lower_bound | apply Z.div_lt_upper_bound]; lia.
  - split; [apply Z.div_le_lower_bound | apply Z.div_lt_upper_bound]; lia.
  - split; [apply Z.div_le_lower_bound | apply Z.div_lt_upper_bound]; lia.
Qed.

Lemma shl8_small a : 0 <= a < 2 ^ 23 -> shl a 8 = a * 256.
Proof.
  intros Ha. unfold shl. rewrite (to_int32_small a) by lia.
  rewrite Z.shiftl_mul_pow2 by lia. change (2 ^ 8) with 256.
  apply to_int32_small. lia.
Qed.

(** [decodeInt] over the bytes [putInt] stored returns the wrapped value. *)
Lemma decode_be32 value :
  fold_left (fun acc byte => shl acc 8 + byte) (u8 (be32 value)) 0 = to_int32 value.
Proof.
  rewrite be32_bytes. cbv zeta.
  pose proof (to_int32_range value) as Hw.
  set (w := to_int32 value) in *.
  cbn [fold_left].
  change (shl 0 8) with 0. rewrite Z.add_0_l.
  set (b3 := (w / 2 ^ 24) mod 256).
  set (b2 := (w / 2 ^ 16) mod 256).
  set (b1 := (w / 2 ^ 8) mod 256).
  set (b0 := w mod 256).
  assert (H3 : 0 <= b3 < 256) by (apply Z.mod_pos_bound; lia).
  assert (H2 : 0 <= b2 < 256) by (apply Z.mod_pos_bound; lia).
  assert (H1 : 0 <= b1 < 256) by (apply Z.mod_pos_bound; lia).
  assert (H0 : 0 <= b0 < 256) by (apply Z.mod_pos_bound; lia).
  rewrite (shl8_small b3) by lia.
  rewrite (shl8_small (b3 * 256 + b2)) by lia.
  unfold shl. rewrite (to_int32_small ((b3 * 256 + b2) * 256 + b1)) by lia.
  rewrite Z.shiftl_mul_pow2 by lia. change (2 ^ 8) with 256.
  assert (Hu : ((b3 * 256 + b2) * 256 + b1) * 256 + b0 = w mod 2 ^ 32).
  { unfold b3, b2, b1, b0. clear.
    change (2 ^ 24) with 16777216. change (2 ^ 16) with 65536.
    change (2 ^ 8) with 256. change (2 ^ 32) with 4294967296.
    Z.div_mod_to_equations. lia. }
  unfold to_int32.
  replace (((b3 * 256 + b2) * 256 + b1) * 256) with (w mod 2 ^ 32 - b0) by lia.
  unfold b0. clear - Hw.
  Z.div_mod_to_equations. lia.
Qed.

Lemma decode_long value :
  fold_left (fun acc byte => shl acc 8 + byte) (repeat 0 4 ++ u8 (be32 value)) 0
  = to_int32 value.
Proof. rewrite List.fold_left_app. cbn [repeat fold_left]. apply decode_be32. Qed.

(** ** Text fields *)

Lemma u8_small (l : list Z) : Forall (fun c => 0 <= c < 256) l -> u8 l = l.
Proof.
  induction 1 as [|c l Hc _ IH]; [reflexivity|].
  cbn [u8 List.map]. unfold to_uint8. rewrite Z.mod_small by lia.
  f_equal. exact IH.
Qed.

Lemma utf8_run_ascii (l : list Z) :
  Forall (fun c => 0 <= c < 128) l -> utf8_run utf8_start l = l.
Proof.
  induction 1 as [|c l Hc _ IH]; [reflexivity|].
  cbn [utf8_run]. unfold utf8_step. cbn [bytes_needed utf8_start Z.eqb].
  unfold utf8_lead. destruct (Z.leb_spec c 127); [|lia].
  cbn [app]. f_equal. exact IH.
Qed.

Lemma strip_bom_ascii (l : list Z) :
  Forall (fun c => 0 <= c < 128) l -> strip_bom l = l.
Proof.
  intros Hl. destruct l as [|b0 [|b1 [|b2 rest]]]; try reflexivity.
  unfold strip_bom. inversion Hl as [|? ? Hb0 _]; subst.
  destruct (Z.eqb_spec b0 239); [lia | reflexivity].
Qed.

Lemma concat_units (l : list Z) :
  Forall (fun c => 0 <= c < 128) l -> List.concat (List.map utf16_units l) = l.
Proof.
  induction 1 as [|c l Hc _ IH]; [reflexivity|].
  cbn [List.map List.concat]. unfold utf16_units at 1.
  destruct (Z.ltb_spec c 65536); [|lia]. cbn [app]. f_equal. exact IH.
Qed.

Lemma TextDecoder_decode_ascii (l : list Z) :
  Forall (fun c => 0 <= c < 128) l -> TextDecoder_decode l = l.
Proof.
  intros Hl. unfold TextDecoder_decode.
  rewrite strip_bom_ascii, utf8_run_ascii by assumption.
  apply concat_units, Hl.
Qed.

Lemma strip_nul_id (l : list Z) : Forall (fun c => c <> 0) l -> strip_nul l = l.
Proof.
  induction 1 as [|c l Hc _ IH]; [reflexivity|].
  unfold strip_nul in *. cbn [List.filter].
  destruct (Z.eqb_spec c 0); [contradiction|]. cbn [negb]. f_equal. exact IH.
Qed.

Lemma rev_repeat {A} (x : A) n : rev (repeat x n) = repeat x n.
Proof.
  induction n as [|n IH]; [reflexivity|].
  cbn [repeat rev]. rewrite IH. clear IH.
  induction n as [|n IH]; [reflexivity|]. cbn [repeat app]. f_equal. exact IH.
Qed.

Lemma drop_while_ws_spaces n s : drop_while_ws (repeat 32 n ++ s) = drop_while_ws s.
Proof. induction n as [|n IH]; [reflexivity|]. cbn [repeat app drop_while_ws]. exact IH. Qed.

(** Trailing spaces do not change what [trimEnd] returns. *)
Lemma trimEnd_pad s n : trimEnd (s ++ repeat 32 n) = trimEnd s.
Proof.
  unfold trimEnd. rewrite List.rev_app_distr, rev_repeat, drop_while_ws_spaces.
  reflexivity.
Qed.

Lemma ascii_text_bytes s : ascii_text s -> Forall (fun c => 0 <= c < 256) s.
Proof. induction 1; constructor; [lia | assumption]. Qed.

Lemma ascii_text_low s : ascii_text s -> Forall (fun c => 0 <= c < 128) s.
Proof. induction 1; constructor; [lia | assumption]. Qed.

Lemma ascii_text_nonzero s : ascii_text s -> Forall (fun c => c <> 0) s.
Proof. induction 1; constructor; [lia | assumption]. Qed.

(** A padded ASCII slot decodes to the text with its trailing blanks removed. *)
Lemma decode_slot s n :
  ascii_text s ->
  trimEnd (strip_nul (TextDecoder_decode (s ++ repeat 32 n))) = trimEnd s.
Proof.
  intros Hs.
  assert (Hpad : ascii_text (s ++ repeat 32 n)).
  { apply Forall_app. split; [exact Hs|].
    clear. induction n; constructor; [lia | assumption]. }
  rewrite TextDecoder_decode_ascii by (apply ascii_text_low, Hpad).
  rewrite strip_nul_id by (apply ascii_text_nonzero, Hpad).
  apply trimEnd_pad.
Qed.

Lemma decode_text_ascii s :
  ascii_text s -> strip_nul (TextDecoder_decode s) = s.
Proof.
  intros Hs.
  rewrite TextDecoder_decode_ascii by (apply ascii_text_low, Hs).
  apply strip_nul_id, ascii_text_nonzero, Hs.
Qed.

(** ** UUID strings *)

Lemma padStart2_hex b : is_byte b -> padStart2 (toString16 b) = hex2 b.
Proof.
  intros [Hlo Hhi]. unfold padStart2, toString16, hex2.
  destruct (Z.ltb_spec b 16).
  - cbn [List.length Nat.sub repeat app].
    rewrite Z.div_small, Z.mod_small by lia. reflexivity.
  - reflexivity.
Qed.

Lemma longToHex_acc (l : list Z) : forall acc,
  Forall is_byte l ->
  fold_left (fun str byte => str ++ padStart2 (toString16 byte)) l acc = acc ++ hex_of l.
Proof.
  induction l as [|b l IH]; intros acc Hl.
  - cbn. symmetry. apply List.app_nil_r.
  - inversion Hl; subst. cbn [fold_left]. rewrite IH by assumption.
    rewrite padStart2_hex by assumption.
    unfold hex_of. cbn [List.map List.concat]. rewrite <- List.app_assoc. reflexivity.
Qed.

Lemma longToHex_hex (l : list Z) : Forall is_byte l -> longToHex l = hex_of l.
Proof. intros Hl. unfold longToHex. rewrite longToHex_acc by assumption. reflexivity. Qed.

Lemma is_hex_digit_hex d : 0 <= d < 16 -> is_hex_digit (hex_digit d) = true.
Proof.
  intros Hd. unfold is_hex_digit, hex_digit.
  destruct (Z.ltb_spec d 10).
  - replace (48 <=? 48 + d) with true by (symmetry; apply Z.leb_le; lia).
    replace (48 + d <=? 57) with true by (symmetry; apply Z.leb_le; lia).
    reflexivity.
  - replace (97 <=? 87 + d) with true by (symmetry; apply Z.leb_le; lia).
    replace (87 + d <=? 102) with true by (symmetry; apply Z.leb_le; lia).
    apply orb_true_r.
Qed.

Lemma uuid_wf_cases u :
  uuid_wf u ->
  exists b0 b1 b2 b3 b4 b5 b6 b7 b8 b9 b10 b11 b12 b13 b14 b15,
    u = [b0; b1; b2; b3; b4; b5; b6; b7; b8; b9; b10; b11; b12; b13; b14; b15]
    /\ Forall is_byte u.
Proof.
  intros [Hlen Hb].
  do 16 (destruct u as [|? u]; [discriminate|]).
  destruct u; [|discriminate]. repeat eexists. exact Hb.
Qed.

(** The canonical text of any 16 bytes is a well-formed UUID string. *)
Lemma uuid_string_syntax u : uuid_wf u -> uuid_syntax (uuid_string u) = true.
Proof.
  intros Hu. destruct (uuid_wf_cases u Hu) as (b0 & b1 & b2 & b3 & b4 & b5 & b6 & b7
    & b8 & b9 & b10 & b11 & b12 & b13 & b14 & b15 & -> & Hb).
  unfold uuid_syntax, uuid_string, hex_of, hex2.
  cbn [firstn skipn List.map List.concat app js list_ascii_of_string List.length
       Nat.eqb andb seq combine forallb orb nat_of_ascii].
  repeat match goal with
  | H : Forall _ (_ :: _) |- _ => inversion H; subst; clear H
  end.
  unfold is_byte in *.
  rewrite !is_hex_digit_hex;
    try (apply Z.mod_pos_bound; lia);
    try (split; [apply Z.div_pos | apply Z.div_lt_upper_bound]; lia).
  reflexivity.
Qed.

(** ** The fields of an encoded frame *)

Section FrameFields.
Context `{Sha256} (env : Env) (message : EncodeableAgentMessage).

Let c0 := u8 (be32 Offset.PayloadLength).
Let c1 := string_cells (MessageType message) 0 32.
Let c2 := u8 (be32 1).
Let c3 := repeat 0 4 ++ u8 (be32 (now env)).
Let c4 := repeat 0 4 ++ u8 (be32 (SequenceNumber message)).
Let c5 := repeat 0 4 ++ u8 (be32 (if 0 <? SequenceNumber message then 0 else 1)).
Let c6 := uuid_cells (uuid env).
Let c7 := u8 (sha256_digest (Payload message)).
Let c8 := u8 (be32 (PayloadType message)).
Let c9 := u8 (be32 (str_length (Payload message))).
Let body := u8 (Payload message).

Lemma frame_chunks :
  frame env message
  = c0 ++ c1 ++ c2 ++ c3 ++ c4 ++ c5 ++ c6 ++ c7 ++ c8 ++ c9 ++ body.
Proof. unfold frame, header. rewrite <- !List.app_assoc. reflexivity. Qed.

Lemma digest_cells_length : List.length c7 = 32%nat.
Proof. unfold c7, u8. rewrite List.length_map. apply sha256_digest_length. Qed.

Lemma header_length : List.length (header env message) = 120%nat.
Proof.
  unfold header. fold c7. rewrite !List.length_app, digest_cells_length. reflexivity.
Qed.

Lemma frame_length :
  Z.of_nat (List.length (frame env message)) = 120 + str_length (Payload message).
Proof.
  unfold frame. rewrite List.length_app, header_length.
  unfold u8, str_length. rewrite List.length_map. lia.
Qed.

Lemma frame_slice_HL :
  slice (frame env message) Offset.HL (Some (Offset.HL + Length.HL)) = c0.
Proof.
  rewrite frame_chunks.
  apply (slice_at [] c0); reflexivity.
Qed.

Lemma frame_slice_MessageType :
  slice (frame env message) Offset.MessageType
        (Some (Offset.MessageType + Length.MessageType)) = c1.
Proof.
  rewrite frame_chunks.
  apply (slice_at c0 c1); reflexivity.
Qed.

Lemma frame_slice_SequenceNumber :
  slice (frame env message) Offset.SequenceNumber
        (Some (Offset.SequenceNumber + Length.SequenceNumber)) = c4.
Proof.
  rewrite frame_chunks.
  change (c0 ++ c1 ++ c2 ++ c3 ++ c4 ++ ?post)
    with ((c0 ++ c1 ++ c2 ++ c3) ++ c4 ++ post).
  apply (slice_at (c0 ++ c1 ++ c2 ++ c3) c4); reflexivity.
Qed.

Lemma frame_slice_MessageId :
  slice (frame env message) Offset.MessageId
        (Some (Offset.MessageId + Length.MessageId)) = c6.
Proof.
  rewrite frame_chunks.
  change (c0 ++ c1 ++ c2 ++ c3 ++ c4 ++ c5 ++ c6 ++ ?post)
    with ((c0 ++ c1 ++ c2 ++ c3 ++ c4 ++ c5) ++ c6 ++ post).
  apply (slice_at (c0 ++ c1 ++ c2 ++ c3 ++ c4 ++ c5) c6); reflexivity.
Qed.

Lemma frame_slice_PayloadType :
  slice (frame env message) Offset.PayloadType
        (Some (Offset.PayloadType + Length.PayloadType)) = c8.
Proof.
  rewrite frame_chunks.
  replace (c0 ++ c1 ++ c2 ++ c3 ++ c4 ++ c5 ++ c6 ++ c7 ++ c8 ++ c9 ++ body)
    with ((c0 ++ c1 ++ c2 ++ c3 ++ c4 ++ c5 ++ c6 ++ c7) ++ c8 ++ c9 ++ body)
    by (rewrite <- !List.app_assoc; reflexivity).
  assert (Hpre : Z.of_nat (List.length (c0 ++ c1 ++ c2 ++ c3 ++ c4 ++ c5 ++ c6 ++ c7)) = 112).
  { rewrite !List.length_app, digest_cells_length. reflexivity. }
  apply slice_at; [rewrite Hpre; reflexivity | reflexivity].
Qed.

Lemma frame_slice_Payload :
  slice (frame env message) Offset.Payload None = body.
Proof.
  unfold frame. apply slice_from. rewrite header_length. reflexivity.
Qed.

(** What [decode] returns on the frame [encode] builds. *)
Lemma decode_frame :
  decode (frame env message)
  = {| encodeable :=
         {| MessageType := trimEnd (strip_nul (TextDecoder_decode c1));
            SequenceNumber := to_int32 (SequenceNumber message);
            PayloadType := to_int32 (PayloadType message);
            Payload := strip_nul (TextDecoder_decode body) |};
       MessageId :=
         decodeUuid (frame env message) Offset.MessageId
                    (Offset.MessageId + Length.MessageId) |}.
Proof.
  unfold decode, decodeInt, decodeText.
  rewrite frame_slice_HL, frame_slice_MessageType, frame_slice_SequenceNumber,
          frame_slice_PayloadType.
  unfold c0, c4, c8.
  rewrite decode_be32, decode_long, decode_be32.
  change (to_int32 Offset.PayloadLength + Length.PayloadLength) with Offset.Payload.
  rewrite frame_slice_Payload. reflexivity.
Qed.

Lemma uuid_cells_wf : uuid_wf (uuid env) -> c6 = uuid env.
Proof.
  intros Hu. unfold c6.
  destruct (uuid_wf_cases _ Hu) as (b0 & b1 & b2 & b3 & b4 & b5 & b6 & b7
    & b8 & b9 & b10 & b11 & b12 & b13 & b14 & b15 & -> & Hb).
  unfold uuid_cells. cbn [seq List.map nth].
  apply (u8_small _ Hb).
Qed.

End FrameFields.

(** [decodeUuid] on a field holding the 16 bytes [u]: the second half of the
    field is printed first. *)
Lemma decodeUuid_field (pre post u : list Z) (start : Z) :
  uuid_wf u ->
  start = Z.of_nat (List.length pre) ->
  decodeUuid (pre ++ u ++ post) start (start + 16) = uuid_string (swap_halves u).
Proof.
  intros Hu Hstart. unfold decodeUuid, subarray.
  rewrite (slice_at pre u post)
    by first [assumption | destruct Hu as [Hl _]; rewrite Hl; reflexivity].
  destruct (uuid_wf_cases _ Hu) as (b0 & b1 & b2 & b3 & b4 & b5 & b6 & b7
    & b8 & b9 & b10 & b11 & b12 & b13 & b14 & b15 & -> & Hb).
  change (slice _ 0 (Some 8)) with [b0; b1; b2; b3; b4; b5; b6; b7].
  change (slice _ 8 (Some 16)) with [b8; b9; b10; b11; b12; b13; b14; b15].
  repeat match goal with
  | H : Forall _ (_ :: _) |- _ => inversion H; subst; clear H
  end.
  rewrite !longToHex_hex
    by (repeat first [assumption | apply List.Forall_cons | apply List.Forall_nil]).
  reflexivity.
Qed.

(** ** The codec: theorems *)

Lemma swap_halves_wf u : uuid_wf u -> uuid_wf (swap_halves u).
Proof.
  intros Hu. destruct (uuid_wf_cases _ Hu) as (b0 & b1 & b2 & b3 & b4 & b5 & b6 & b7
    & b8 & b9 & b10 & b11 & b12 & b13 & b14 & b15 & -> & Hb).
  split; [reflexivity|]. unfold swap_halves. cbn [skipn firstn app].
  repeat match goal with
  | H : Forall _ (_ :: _) |- _ => inversion H; subst; clear H
  end.
  repeat first [assumption | apply List.Forall_cons | apply List.Forall_nil].
Qed.

Lemma swap_halves_involutive u : uuid_wf u -> swap_halves (swap_halves u) = u.
Proof.
  intros Hu. destruct (uuid_wf_cases _ Hu) as (b0 & b1 & b2 & b3 & b4 & b5 & b6 & b7
    & b8 & b9 & b10 & b11 & b12 & b13 & b14 & b15 & -> & Hb).
  reflexivity.
Qed.

Section CodecTheorems.
Context `{Sha256}.

Lemma decode_encode_MessageId env message :
  str_length (MessageType message) <= 32 ->
  uuid_wf (uuid env) ->
  MessageId (decode (frame env message)) = uuid_string (swap_halves (uuid env)).
Proof.
  intros Htag Hu. rewrite decode_frame. cbn [MessageId].
  rewrite frame_chunks.
  rewrite (uuid_cells_wf env Hu).
  match goal with
  | |- decodeUuid (?c0 ++ ?c1 ++ ?c2 ++ ?c3 ++ ?c4 ++ ?c5 ++ ?u ++ ?post) _ _ = _ =>
    change (c0 ++ c1 ++ c2 ++ c3 ++ c4 ++ c5 ++ u ++ post)
      with ((c0 ++ c1 ++ c2 ++ c3 ++ c4 ++ c5) ++ u ++ post);
    apply (decodeUuid_field (c0 ++ c1 ++ c2 ++ c3 ++ c4 ++ c5) post u)
  end; [assumption | reflexivity].
Qed.

(** C1, as amended.  For every message with a sequence number in
    [0, 2^31), a payload type in the signed 32-bit range, a tag of at most
    32 ASCII characters without trailing white space (every tag of the
    vocabulary is one) and a payload of ASCII characters U+0001..U+007F,
    [encode] succeeds and [decode] of its result reproduces the message
    type, sequence number, payload type and payload; the decoded MessageId
    is a well-formed 8-4-4-4-12 hexadecimal string computed from the bytes
    [encode] generated, not from the message. *)
Theorem decode_encode_roundtrip (env : Env) (m : EncodeableAgentMessage) :
  0 <= SequenceNumber m < 2 ^ 31 ->
  - 2 ^ 31 <= PayloadType m < 2 ^ 31 ->
  str_length (MessageType m) <= 32 ->
  ascii_text (MessageType m) ->
  trimEnd (MessageType m) = MessageType m ->
  ascii_text (Payload m) ->
  uuid_wf (uuid env) ->
  exists buffer,
    encode env m = Ok buffer
    /\ encodeable (decode buffer) = m
    /\ uuid_syntax (MessageId (decode buffer)) = true
    /\ MessageId (decode buffer) = uuid_string (swap_halves (uuid env)).
Proof.
  intros Hseq Hpt Hlen Hascii Htrim Hpayload Hu.
  exists (frame env m). split; [apply encode_frame, Hlen|].
  split; [|split].
  - rewrite decode_frame. cbn [encodeable].
    rewrite (string_cells_slot (MessageType m) 32) by (unfold str_length in Hlen; lia).
    rewrite (u8_small (MessageType m)) by (apply ascii_text_bytes, Hascii).
    rewrite decode_slot by assumption. rewrite Htrim.
    rewrite (u8_small (Payload m)) by (apply ascii_text_bytes, Hpayload).
    rewrite decode_text_ascii by assumption.
    rewrite !to_int32_small by lia.
    destruct m; reflexivity.
  - rewrite decode_encode_MessageId by assumption.
    apply uuid_string_syntax, swap_halves_wf, Hu.
  - apply decode_encode_MessageId; assumption.
Qed.

(** C3, as amended.  [encode] stores the 16 generated bytes in the MessageId
    field in their order, the first eight first.  [decode] reads the first
    eight bytes of the field as the least-significant half and the last
    eight as the most-significant half, and prints the most-significant
    half first: it returns the canonical text of a UUID whose halves were
    stored least-significant first, and on a frame built by [encode] the
    canonical text of the generated bytes with the two halves exchanged. *)
Theorem message_id_packing (env : Env) (m : EncodeableAgentMessage) :
  str_length (MessageType m) <= 32 ->
  uuid_wf (uuid env) ->
  exists buffer,
    encode env m = Ok buffer
    /\ slice buffer Offset.MessageId (Some (Offset.MessageId + Length.MessageId))
       = uuid env
    /\ MessageId (decode buffer) = uuid_string (swap_halves (uuid env))
    /\ (forall pre post u,
          uuid_wf u ->
          Z.of_nat (List.length pre) = Offset.MessageId ->
          decodeUuid (pre ++ swap_halves u ++ post) Offset.MessageId
                     (Offset.MessageId + Length.MessageId)
          = uuid_string u).
Proof.
  intros Hlen Hu. exists (frame env m).
  split; [apply encode_frame, Hlen|]. split; [|split].
  - rewrite frame_slice_MessageId. apply uuid_cells_wf, Hu.
  - apply decode_encode_MessageId; assumption.
  - intros pre post u Hwf Hpre. change Length.MessageId with 16.
    rewrite (decodeUuid_field pre post (swap_halves u) Offset.MessageId).
    + rewrite swap_halves_involutive by assumption. reflexivity.
    + apply swap_halves_wf, Hwf.
    + symmetry. exact Hpre.
Qed.


End CodecTheorems.

(** C10.  [decode] returns a message for every byte buffer.  A field whose
    bytes lie beyond the end of the buffer is the empty text, zero, or (for
    MessageId) the four dashes that separate five empty groups. *)
Theorem decode_total (buffer : list Z) :
  exists message : AgentMessage,
    decode buffer = message
    /\ (Z.of_nat (List.length buffer) <= Offset.MessageType -> MessageType message = [])
    /\ (Z.of_nat (List.length buffer) <= Offset.SequenceNumber ->
        SequenceNumber message = 0)
    /\ (Z.of_nat (List.length buffer) <= Offset.MessageId ->
        MessageId message = js "----")
    /\ (Z.of_nat (List.length buffer) <= Offset.PayloadType -> PayloadType message = 0)
    /\ (Z.of_nat (List.length buffer)
          <= decodeInt buffer Offset.HL (Offset.HL + Length.HL) + Length.PayloadLength ->
        Payload message = []).
Proof.
  exists (decode buffer). split; [reflexivity|].
  unfold decode. cbn [encodeable MessageType SequenceNumber PayloadType Payload MessageId].
  repeat split; intros Hshort.
  - unfold decodeText. rewrite slice_beyond by assumption. reflexivity.
  - unfold decodeInt. rewrite slice_beyond by assumption. reflexivity.
  - unfold decodeUuid, subarray. rewrite (slice_beyond buffer) by assumption. reflexivity.
  - unfold decodeInt at 1. rewrite slice_beyond by assumption. reflexivity.
  - unfold decodeText. rewrite slice_beyond by assumption. reflexivity.
Qed.

(** Checks that compute, for concrete texts and byte lists. *)
Lemma ascii_text_check (s : list Z) :
  forallb (fun c => (1 <=? c) && (c <? 128)) s = true -> ascii_text s.
Proof.
  intros Hs. apply List.Forall_forall. intros c Hc.
  apply (proj1 (List.forallb_forall _ _) Hs) in Hc.
  apply andb_true_iff in Hc. destruct Hc as [H1 H2].
  apply Z.leb_le in H1. apply Z.ltb_lt in H2. lia.
Qed.

Lemma uuid_wf_check (u : list Z) :
  (List.length u =? 16)%nat && forallb (fun b => (0 <=? b) && (b <? 256)) u = true ->
  uuid_wf u.
Proof.
  intros Hu. apply andb_true_iff in Hu. destruct Hu as [Hlen Hb].
  split; [apply Nat.eqb_eq, Hlen|].
  apply List.Forall_forall. intros c Hc.
  apply (proj1 (List.forallb_forall _ _) Hb) in Hc.
  apply andb_true_iff in Hc. destruct Hc as [H1 H2].
  apply Z.leb_le in H1. apply Z.ltb_lt in H2. unfold is_byte. lia.
Qed.

(** Every tag of the vocabulary fits the slot and survives the round trip. *)
Lemma vocabulary_tags :
  Forall (fun tag => str_length tag <= 32 /\ ascii_text tag /\ trimEnd tag = tag)
         MessageType.members.
Proof.
  unfold MessageType.members.
  repeat (apply List.Forall_cons;
          [split; [vm_compute; discriminate
                  | split; [apply ascii_text_check; vm_compute; reflexivity
                           | vm_compute; reflexivity]]|]).
  apply List.Forall_nil.
Qed.

(** In UTF-8 an ASCII text is its own encoding: byte count and character
    count agree. *)
Lemma utf8_encode_ascii (s : list Z) : ascii_text s -> utf8_encode s = s.
Proof.
  induction 1 as [|c s Hc _ IH]; [reflexivity|].
  cbn [utf8_encode]. unfold is_high_surrogate, is_low_surrogate.
  destruct (Z.leb_spec 55296 c); [lia|]. cbn [andb].
  destruct (Z.leb_spec 56320 c); [lia|]. cbn [andb].
  unfold utf8_of_code_point. destruct (Z.ltb_spec c 128); [|lia].
  cbn [app]. f_equal. exact IH.
Qed.

(** What [encode] allocates and stores for the payload, whatever the text:
    one byte per UTF-16 code unit. *)
Lemma encode_payload_layout `{Sha256} (env : Env) (m : EncodeableAgentMessage) :
  str_length (MessageType m) <= 32 ->
  exists buffer,
    encode env m = Ok buffer
    /\ Z.of_nat (List.length buffer) = 120 + str_length (Payload m)
    /\ decodeInt buffer Offset.PayloadLength (Offset.PayloadLength + Length.PayloadLength)
       = to_int32 (str_length (Payload m))
    /\ slice buffer Offset.Payload None = u8 (Payload m).
Proof.
  intros Hlen. exists (frame env m). split; [apply encode_frame, Hlen|].
  split; [apply frame_length|]. split; [|apply frame_slice_Payload].
  unfold decodeInt. rewrite frame_chunks.
  match goal with
  | |- context [slice (?c0 ++ ?c1 ++ ?c2 ++ ?c3 ++ ?c4 ++ ?c5 ++ ?c6 ++ ?c7 ++ ?c8 ++ ?c9 ++ ?body)] =>
    replace (c0 ++ c1 ++ c2 ++ c3 ++ c4 ++ c5 ++ c6 ++ c7 ++ c8 ++ c9 ++ body)
      with ((c0 ++ c1 ++ c2 ++ c3 ++ c4 ++ c5 ++ c6 ++ c7 ++ c8) ++ c9 ++ body)
      by (rewrite <- !List.app_assoc; reflexivity);
    rewrite (slice_at (c0 ++ c1 ++ c2 ++ c3 ++ c4 ++ c5 ++ c6 ++ c7 ++ c8) c9 body)
  end.
  - apply decode_be32.
  - rewrite !List.length_app, (digest_cells_length m). reflexivity.
  - reflexivity.
Qed.

(** On an ASCII payload the buffer is the header followed by the payload's
    UTF-8 bytes, and their number is what the PayloadLength field holds. *)
Lemma encode_ascii_payload `{Sha256} (env : Env) (m : EncodeableAgentMessage) :
  str_length (MessageType m) <= 32 ->
  ascii_text (Payload m) ->
  str_length (Payload m) < 2 ^ 31 ->
  exists buffer,
    encode env m = Ok buffer
    /\ Z.of_nat (List.length buffer)
       = 120 + Z.of_nat (List.length (utf8_encode (Payload m)))
    /\ decodeInt buffer Offset.PayloadLength (Offset.PayloadLength + Length.PayloadLength)
       = Z.of_nat (List.length (utf8_encode (Payload m)))
    /\ slice buffer Offset.Payload None = utf8_encode (Payload m).
Proof.
  intros Hlen Hascii Hsize.
  destruct (encode_payload_layout env m Hlen) as (buffer & Henc & Hl & Hfield & Hbody).
  exists buffer. rewrite utf8_encode_ascii by assumption.
  split; [exact Henc|]. split; [exact Hl|]. split.
  - rewrite Hfield. apply to_int32_small. unfold str_length in *. lia.
  - rewrite Hbody. apply u8_small, ascii_text_bytes, Hascii.
Qed.

(** For an ASCII text the length [putString] compares with the slot is the
    number of UTF-8 bytes. *)
Lemma putString_oversized_ascii (buffer : list Z) (start end_ : Z) (value : list Z) :
  ascii_text value ->
  end_ - start < Z.of_nat (List.length (utf8_encode value)) ->
  putString buffer start end_ value = Throw EncodingError.
Proof.
  intros Hascii Hlong. rewrite utf8_encode_ascii in Hlong by assumption.
  unfold putString, str_length.
  destruct (Z.ltb_spec (end_ - start) (Z.of_nat (List.length value))); [reflexivity | lia].
Qed.

(** C1 fails as stated, at two messages with a non-negative sequence number,
    a tag of the vocabulary and a text payload: the sequence number 2^31 is
    decoded as -2^31, and the payload "a", U+0000, "b" is decoded as "ab". *)
Lemma roundtrip_counterexample :
  (0 <= SequenceNumber msg_big
   /\ In (MessageType msg_big) MessageType.members
   /\ exists buffer,
        encode env0 msg_big = Ok buffer
        /\ SequenceNumber (decode buffer) = -2147483648
        /\ encodeable (decode buffer) <> msg_big)
  /\ (0 <= SequenceNumber msg_nul
      /\ In (MessageType msg_nul) MessageType.members
      /\ exists buffer,
           encode env0 msg_nul = Ok buffer
           /\ Payload (decode buffer) = [97; 98]
           /\ encodeable (decode buffer) <> msg_nul).
Proof.
  split.
  - split; [vm_compute; discriminate|].
    split; [vm_compute; tauto|].
    exists (frame env0 msg_big).
    split; [vm_compute; reflexivity|].
    split; [vm_compute; reflexivity|].
    intros Heq. apply (f_equal SequenceNumber) in Heq. vm_compute in Heq. discriminate.
  - split; [vm_compute; discriminate|].
    split; [vm_compute; tauto|].
    exists (frame env0 msg_nul).
    split; [vm_compute; reflexivity|].
    split; [vm_compute; reflexivity|].
    intros Heq. apply (f_equal Payload) in Heq. vm_compute in Heq. discriminate.
Qed.

(** Outside the vocabulary: white space that ends a tag is lost with the
    padding, and a payload type is kept modulo 2^32. *)
Example roundtrip_trims_tag :
  exists buffer,
    encode env0 msg_trailing = Ok buffer
    /\ MessageType (decode buffer) = js "shell"
    /\ PayloadType (decode buffer) = 1.
Proof.
  exists (frame env0 msg_trailing). split; [vm_compute; reflexivity|].
  split; vm_compute; reflexivity.
Qed.

Lemma decode_encode_roundtrip_witness :
  exists buffer,
    encode env0 msg0 = Ok buffer
    /\ encodeable (decode buffer) = msg0
    /\ uuid_syntax (MessageId (decode buffer)) = true
    /\ MessageId (decode buffer) = uuid_string (swap_halves (uuid env0)).
Proof.
  apply (decode_encode_roundtrip env0 msg0).
  - vm_compute. split; [discriminate | reflexivity].
  - vm_compute. split; [discriminate | reflexivity].
  - vm_compute. discriminate.
  - apply ascii_text_check. vm_compute. reflexivity.
  - vm_compute. reflexivity.
  - apply ascii_text_check. vm_compute. reflexivity.
  - apply uuid_wf_check. vm_compute. reflexivity.
Defined.

(** C2 at a payload outside ASCII.  The UTF-8 encoding of U+00E9 has two
    bytes, yet the buffer has 120 + 1 bytes, PayloadLength holds 1 and the
    payload bytes are the single code unit 233, which [decode] reads back as
    U+FFFD. *)
Theorem encode_non_ascii_payload :
  utf8_encode (Payload msg_accent) = [195; 169]
  /\ exists buffer,
       encode env0 msg_accent = Ok buffer
       /\ List.length buffer = 121%nat
       /\ slice buffer Offset.PayloadLength
                (Some (Offset.PayloadLength + Length.PayloadLength)) = [0; 0; 0; 1]
       /\ slice buffer Offset.Payload None = [233]
       /\ Payload (decode buffer) = [65533].
Proof.
  split; [reflexivity|].
  exists (frame env0 msg_accent).
  repeat split; vm_compute; reflexivity.
Qed.

(** C3 fails as stated: the decoded MessageId is not the canonical text of
    the bytes [encode] generated. *)
Lemma message_id_counterexample :
  exists buffer,
    encode env0 msg0 = Ok buffer
    /\ uuid_string (uuid env0) = js "00010203-0405-4607-8809-0a0b0c0d0e0f"
    /\ MessageId (decode buffer) = js "88090a0b-0c0d-0e0f-0001-020304054607"
    /\ MessageId (decode buffer) <> uuid_string (uuid env0).
Proof.
  exists (frame env0 msg0).
  split; [vm_compute; reflexivity|].
  split; [vm_compute; reflexivity|].
  split; [vm_compute; reflexivity|].
  vm_compute. discriminate.
Qed.

Lemma message_id_packing_witness :
  exists buffer,
    encode env0 msg0 = Ok buffer
    /\ slice buffer Offset.MessageId (Some (Offset.MessageId + Length.MessageId))
       = uuid env0
    /\ MessageId (decode buffer) = uuid_string (swap_halves (uuid env0))
    /\ (forall pre post u,
          uuid_wf u ->
          Z.of_nat (List.length pre) = Offset.MessageId ->
          decodeUuid (pre ++ swap_halves u ++ post) Offset.MessageId
                     (Offset.MessageId + Length.MessageId)
          = uuid_string u).
Proof.
  apply (message_id_packing env0 msg0).
  - vm_compute. discriminate.
  - apply uuid_wf_check. vm_compute. reflexivity.
Defined.


(** The empty buffer decodes to the message with empty and zero fields. *)
Example decode_empty :
  decode [] = {| encodeable := {| MessageType := []; SequenceNumber := 0;
                                  PayloadType := 0; Payload := [] |};
                 MessageId := js "----" |}.
Proof. reflexivity. Qed.

(** ** The session: theorems *)

Section SessionTheorems.
Context `{Sha256} `{Json}.

Lemma emits_calls name data s : emits (calls name data s) = [].
Proof.
  unfold calls, emits. induction (List.filter _ _) as [|h l IH]; [reflexivity|].
  cbn. exact IH.
Qed.

Lemma sends_calls name data s : sends (calls name data s) = [].
Proof.
  unfold calls, sends. induction (List.filter _ _) as [|h l IH]; [reflexivity|].
  cbn. exact IH.
Qed.

Lemma acknowledgeMessage_sends env messageType messageId n s :
  exists frame',
    acknowledgeMessage env messageType messageId n s = Returns s [WsSend frame'].
Proof.
  unfold acknowledgeMessage. rewrite encode_frame by (vm_compute; discriminate).
  eexists. reflexivity.
Qed.

Lemma handle_acknowledge env message n s :
  acknowledges message n ->
  handle env message s
  = Returns (match lastAcknowledgedSequenceNumber s with
             | None => with_lastAcknowledgedSequenceNumber s (Some n)
             | Some last =>
               if last <? n then with_lastAcknowledgedSequenceNumber s (Some n) else s
             end) [].
Proof.
  intros (Htype & Hpayload & data & Hparse & Hprop).
  unfold handle. rewrite Htype.
  repeat (destruct (decide _) as [Heq|_]; [vm_compute in Heq; discriminate|]).
  destruct (decide _) as [_|Hne]; [|contradiction].
  destruct (Payload message) as [|c rest] eqn:Hp; [contradiction|].
  rewrite Hparse, Hprop.
  destruct (lastAcknowledgedSequenceNumber s) as [last|]; [|reflexivity].
  destruct (last <? n); reflexivity.
Qed.

(** C4.  Handling an acknowledgement that carries the number [n] stores [n]
    in [lastAcknowledgedSequenceNumber] exactly when the field is unset or
    holds a smaller number, and changes nothing else; no message of any
    type makes the field go down, whether its handling returns or raises;
    and after the acknowledgements 5, 3, 8 in this order a session that had
    none recorded holds 8. *)
Theorem acknowledge_never_regresses :
  (forall env message n s,
      acknowledges message n ->
      handle env message s
      = Returns (if match lastAcknowledgedSequenceNumber s with
                    | None => true
                    | Some last => last <? n
                    end
                 then with_lastAcknowledgedSequenceNumber s (Some n) else s) [])
  /\ (forall env message s s',
        final_state (handle env message s) = Some s' ->
        not_below (lastAcknowledgedSequenceNumber s) (lastAcknowledgedSequenceNumber s'))
  /\ (forall env5 env3 env8 m5 m3 m8 s,
        acknowledges m5 5 -> acknowledges m3 3 -> acknowledges m8 8 ->
        lastAcknowledgedSequenceNumber s = None ->
        exists s',
          feed [(env5, m5); (env3, m3); (env8, m8)] s = Returns s' []
          /\ lastAcknowledgedSequenceNumber s' = Some 8).
Proof.
  split; [|split].
  - intros env message n s Hack. rewrite (handle_acknowledge env message n s Hack).
    destruct (lastAcknowledgedSequenceNumber s); reflexivity.
  - intros env message s s'. unfold handle.
    assert (Hrefl : forall o, not_below o o) by (intros [x|]; cbn; lia).
    repeat (destruct (decide _) as [_|_]).
    + destruct (acknowledgeMessage_sends env (MessageType message) (MessageId message)
                  (SequenceNumber message) s) as [f ->].
      cbn [andThen]. destruct (negb _); cbn [emit andThen final_state];
        intros [= <-]; apply Hrefl.
    + destruct (lastAcknowledgedSequenceNumber s) eqn:Hl; cbn [emit final_state];
        intros [= <-]; cbn; rewrite ?Hl; cbn; trivial; lia.
    + cbn [emit final_state]. intros [= <-]. apply Hrefl.
    + destruct (Payload message); [intros [= <-]; apply Hrefl|].
      destruct (JSON_parse _); [|intros [= <-]; apply Hrefl].
      destruct (property _ _) as [[[| | n | | |]|]|]; try discriminate;
        try (intros [= <-]; apply Hrefl).
      destruct (lastAcknowledgedSequenceNumber s) as [last|] eqn:Hl.
      * destruct (Z.ltb_spec last n); intros [= <-]; cbn; rewrite ?Hl; cbn; lia.
      * intros [= <-]. exact I.
    + intros [= <-]. apply Hrefl.
    + destruct (Payload message).
      { cbn [andThen final_state]. intros [= <-]. apply Hrefl. }
      destruct (JSON_parse _); [|intros [= <-]; apply Hrefl].
      destruct (property _ _) as [[[| | n | text | [|i items] |]|]|];
        cbn [andThen emit final_state]; try discriminate;
        try (intros [= <-]; apply Hrefl).
      destruct (0 <? str_length text); cbn [andThen emit final_state];
        intros [= <-]; apply Hrefl.
    + intros [= <-]. apply Hrefl.
  - intros env5 env3 env8 m5 m3 m8 s H5 H3 H8 Hnone.
    cbn [feed]. rewrite (handle_acknowledge env5 m5 5 s H5), Hnone.
    cbn [andThen]. rewrite (handle_acknowledge env3 m3 3 _ H3).
    cbn [lastAcknowledgedSequenceNumber with_lastAcknowledgedSequenceNumber].
    change (5 <? 3) with false. cbn [andThen].
    rewrite (handle_acknowledge env8 m8 8 _ H8).
    cbn [lastAcknowledgedSequenceNumber with_lastAcknowledgedSequenceNumber].
    change (5 <? 8) with true. cbn [andThen app].
    eexists. split; reflexivity.
Qed.


Lemma decode_frame_MessageType env m :
  str_length (MessageType m) <= 32 ->
  ascii_text (MessageType m) ->
  trimEnd (MessageType m) = MessageType m ->
  MessageType (decode (frame env m)) = MessageType m.
Proof.
  intros Hlen Hascii Htrim. rewrite decode_frame. cbn [encodeable MessageType].
  rewrite (string_cells_slot (MessageType m) 32) by (unfold str_length in Hlen; lia).
  rewrite (u8_small (MessageType m)) by (apply ascii_text_bytes, Hascii).
  rewrite decode_slot by assumption. exact Htrim.
Qed.

(** The frame [acknowledgeMessage] sends is an [acknowledge] frame. *)
Lemma acknowledgeMessage_frame env messageType messageId n s :
  exists frame',
    acknowledgeMessage env messageType messageId n s = Returns s [WsSend frame']
    /\ MessageType (decode frame') = MessageType.AcknowledgeMessage.
Proof.
  unfold acknowledgeMessage. rewrite encode_frame by (vm_compute; discriminate).
  eexists. split; [reflexivity|].
  rewrite decode_frame_MessageType; [reflexivity | vm_compute; discriminate | |].
  - apply ascii_text_check. vm_compute. reflexivity.
  - vm_compute. reflexivity.
Qed.

(** C6.  The same decoded [output_stream_data] frame handled twice, its
    MessageId not seen before: both times one acknowledgement frame is
    sent, the event [output] is emitted the first time only, and after
    each time [outputMap] maps the MessageId to the payload. *)
Theorem output_deduplicated (env1 env2 : Env) (message : AgentMessage)
    (s : AWSSSMSession) :
  MessageType message = MessageType.OutputStreamDataMessage ->
  outputMap s !! MessageId message = None ->
  exists ack1 ack2 s1 s2 log1 log2,
    handle env1 message s = Returns s1 log1
    /\ handle env2 message s1 = Returns s2 log2
    /\ emits log1 = [(output, Payload message)]
    /\ emits log2 = []
    /\ sends log1 = [ack1]
    /\ sends log2 = [ack2]
    /\ MessageType (decode ack1) = MessageType.AcknowledgeMessage
    /\ MessageType (decode ack2) = MessageType.AcknowledgeMessage
    /\ outputMap s1 !! MessageId message = Some (Payload message)
    /\ outputMap s2 !! MessageId message = Some (Payload message)
    /\ outgoingSequenceNumber s2 = outgoingSequenceNumber s.
Proof.
  intros Htype Hnew.
  pose (s1 := with_outputMap s (<[MessageId message := Payload message]> (outputMap s))).
  pose (s2 := with_outputMap s1 (<[MessageId message := Payload message]> (outputMap s1))).
  destruct (acknowledgeMessage_frame env1 (MessageType message) (MessageId message)
              (SequenceNumber message) s) as (ack1 & Hack1 & Htag1).
  destruct (acknowledgeMessage_frame env2 (MessageType message) (MessageId message)
              (SequenceNumber message) s1) as (ack2 & Hack2 & Htag2).
  exists ack1, ack2, s1, s2.
  exists ([WsSend ack1] ++ (Emit output (Payload message)
                            :: calls output (Payload message) s) ++ []).
  exists ([WsSend ack2] ++ [] ++ []).
  assert (Hfirst : handle env1 message s
                   = Returns s1 ([WsSend ack1] ++ (Emit output (Payload message)
                                   :: calls output (Payload message) s) ++ [])).
  { unfold handle. destruct (decide _) as [_|Hne]; [|contradiction].
    rewrite Hack1. cbn [andThen]. rewrite Hnew. reflexivity. }
  assert (Hseen : outputMap s1 !! MessageId message = Some (Payload message)).
  { unfold s1. cbn [outputMap with_outputMap]. apply lookup_insert_eq. }
  assert (Hsecond : handle env2 message s1 = Returns s2 ([WsSend ack2] ++ [] ++ [])).
  { unfold handle. destruct (decide _) as [_|Hne]; [|contradiction].
    rewrite Hack2. cbn [andThen]. rewrite Hseen. reflexivity. }
  repeat split; try assumption.
  - cbn [app]. change (emits (?a :: ?e :: ?l)) with ([(output, Payload message)] ++ emits l).
    rewrite List.app_nil_r, emits_calls. reflexivity.
  - cbn [app]. change (sends (?a :: ?e :: ?l)) with ([ack1] ++ sends l).
    rewrite List.app_nil_r, sends_calls. reflexivity.
  - unfold s2. cbn [outputMap with_outputMap]. apply lookup_insert_eq.
Qed.



End SessionTheorems.

(** ** The session on concrete frames *)

Lemma ack_message_acknowledges (n : Z) :
  JsonText.parse (Payload (ack_message n))
  = Ok (JObject [ (js "AcknowledgedMessageSequenceNumber", JNumber n) ]) ->
  acknowledges (ack_message n) n.
Proof.
  intros Hparse. split; [reflexivity|]. split.
  - unfold ack_message, object_text. cbn. discriminate.
  - eexists. split; [exact Hparse|]. reflexivity.
Qed.

Lemma acknowledge_never_regresses_witness :
  Payload (ack_message 5)
  = js "{" ++ text_of_quoted "AcknowledgedMessageSequenceNumber" ++ js ":5}"
  /\ exists s',
       feed [(env0, ack_message 5); (env1, ack_message 3); (env0, ack_message 8)]
            session1 = Returns s' []
       /\ lastAcknowledgedSequenceNumber s' = Some 8.
Proof.
  split; [vm_compute; reflexivity|].
  apply (proj2 (proj2 acknowledge_never_regresses)).
  - apply ack_message_acknowledges. vm_compute. reflexivity.
  - apply ack_message_acknowledges. vm_compute. reflexivity.
  - apply ack_message_acknowledges. vm_compute. reflexivity.
  - reflexivity.
Defined.


Lemma output_deduplicated_witness :
  exists ack1 ack2 s1 s2 log1 log2,
    handle env0 output_message session1 = Returns s1 log1
    /\ handle env1 output_message s1 = Returns s2 log2
    /\ emits log1 = [(output, js "total 0")]
    /\ emits log2 = []
    /\ sends log1 = [ack1]
    /\ sends log2 = [ack2]
    /\ MessageType (decode ack1) = MessageType.AcknowledgeMessage
    /\ MessageType (decode ack2) = MessageType.AcknowledgeMessage
    /\ outputMap s1 !! MessageId output_message = Some (js "total 0")
    /\ outputMap s2 !! MessageId output_message = Some (js "total 0")
    /\ outgoingSequenceNumber s2 = 9.
Proof.
  apply (output_deduplicated env0 env1 output_message session1); reflexivity.
Defined.



(** [onmessage] on the bytes of a [channel_closed] frame: the frame is
    decoded, its payload parsed, the output emitted and the session marked
    terminated. *)
Example onmessage_channel_closed :
  match onmessage env1 (frame env0 (closed_message "done")) session1 with
  | Returns s log =>
    connectionTerminated s = true
    /\ emits log = [(output, js "done" ++ js_crlf)]
    /\ log = [Emit output (js "done" ++ js_crlf);
              Call 0 (js "done" ++ js_crlf); Call 2 (js "done" ++ js_crlf)]
  | _ => False
  end.
Proof. vm_compute. repeat split; reflexivity. Qed.

(** * Further properties of the code *)

(** ** More on the integer fields *)

Lemma shl8_step (x b : Z) :
  is_byte b -> shl (to_int32 x) 8 + b = to_int32 (x * 256 + b).
Proof.
  intros [Hlo Hhi]. unfold shl. rewrite to_int32_idem.
  rewrite Z.shiftl_mul_pow2 by lia. change (2 ^ 8) with 256.
  unfold to_int32. change (2 ^ 31) with 2147483648. change (2 ^ 32) with 4294967296.
  Z.div_mod_to_equations. lia.
Qed.

Lemma decode_fold (l : list Z) : forall x,
  Forall is_byte l ->
  fold_left (fun acc byte => shl acc 8 + byte) l (to_int32 x)
  = to_int32 (fold_left (fun acc b => acc * 256 + b) l x).
Proof.
  induction l as [|b l IH]; intros x Hl; [reflexivity|].
  inversion Hl; subst. cbn [fold_left]. rewrite shl8_step by assumption.
  apply IH. assumption.
Qed.

Lemma Forall_slice (P : Z -> Prop) (buffer : list Z) (a : Z) (e : option Z) :
  Forall P buffer -> Forall P (slice buffer a e).
Proof.
  intros Hb. unfold slice. apply Forall_take, Forall_drop, Hb.
Qed.

(** A buffer cut at two positions inside it. *)
Lemma buffer_split (buffer : list Z) (a b : Z) :
  0 <= a <= b -> b <= Z.of_nat (List.length buffer) ->
  buffer = firstn (Z.to_nat a) buffer ++ slice buffer a (Some b)
           ++ skipn (Z.to_nat b) buffer
  /\ List.length (slice buffer a (Some b)) = Z.to_nat (b - a)
  /\ Z.of_nat (List.length (firstn (Z.to_nat a) buffer)) = a.
Proof.
  intros Hab Hb. unfold slice, rel_index.
  destruct (Z.ltb_spec a 0); [lia|]. destruct (Z.ltb_spec b 0); [lia|].
  rewrite !Z.min_l by lia.
  split; [|split].
  - rewrite <- (List.firstn_skipn (Z.to_nat a) buffer) at 1. f_equal.
    rewrite <- (List.firstn_skipn (Z.to_nat (b - a)) (skipn (Z.to_nat a) buffer)) at 1.
    f_equal. rewrite List.skipn_skipn. f_equal. lia.
  - rewrite List.length_firstn, List.length_skipn. lia.
  - rewrite List.length_firstn. lia.
Qed.

Lemma slice_app_mid (buffer : list Z) (a m b : Z) :
  0 <= a <= m -> m <= b -> b <= Z.of_nat (List.length buffer) ->
  slice buffer a (Some b) = slice buffer a (Some m) ++ slice buffer m (Some b).
Proof.
  intros Ham Hmb Hb.
  destruct (buffer_split buffer a m) as (Hsplit1 & Hlen1 & Hpre1); [lia | lia |].
  destruct (buffer_split buffer m b) as (Hsplit2 & Hlen2 & Hpre2); [lia | lia |].
  set (p := firstn (Z.to_nat a) buffer) in *.
  set (x := slice buffer a (Some m)) in *.
  set (y := slice buffer m (Some b)) in *.
  set (q := skipn (Z.to_nat b) buffer) in *.
  assert (Hm : firstn (Z.to_nat m) buffer = p ++ x).
  { rewrite Hsplit1 at 1. rewrite List.app_assoc, List.firstn_app.
    rewrite List.firstn_all2 by (rewrite List.length_app; lia).
    replace (_ - _)%nat with 0%nat by (rewrite List.length_app; lia).
    rewrite List.firstn_O. apply List.app_nil_r. }
  rewrite Hm in Hsplit2.
  rewrite Hsplit2 at 1. rewrite <- !List.app_assoc. rewrite (List.app_assoc x y q).
  apply (slice_at p (x ++ y) q); [lia | rewrite List.length_app; lia].
Qed.

Lemma putInt_at (pre old post : list Z) (pos value : Z) :
  pos = Z.of_nat (List.length pre) ->
  List.length old = 4%nat ->
  putInt (pre ++ old ++ post) pos value = Ok (pre ++ u8 (be32 value) ++ post).
Proof. intros Hpos Hlen. unfold putInt. apply set_at; assumption. Qed.

Lemma be_value_low (hi lo : list Z) :
  List.length lo = 4%nat ->
  to_int32 (fold_left (fun acc b => acc * 256 + b) lo (be_value hi))
  = to_int32 (be_value lo).
Proof.
  intros Hlen. do 4 (destruct lo as [|? lo]; [discriminate|]).
  destruct lo; [|discriminate]. unfold be_value at 2. cbn [fold_left].
  generalize (be_value hi). intros x.
  unfold to_int32. change (2 ^ 31) with 2147483648. change (2 ^ 32) with 4294967296.
  Z.div_mod_to_equations. lia.
Qed.

(** X1.  On a buffer of bytes, [decodeInt] returns the big-endian value of
    the bytes from [start] up to [end_], wrapped to a signed 32-bit
    integer; the result lies between -2^31 and 2^31 - 1. *)
Theorem decodeInt_big_endian (buffer : list Z) (start end_ : Z) :
  Forall is_byte buffer ->
  decodeInt buffer start end_ = to_int32 (be_value (slice buffer start (Some end_)))
  /\ - 2 ^ 31 <= decodeInt buffer start end_ < 2 ^ 31.
Proof.
  intros Hb.
  assert (Heq : decodeInt buffer start end_
                = to_int32 (be_value (slice buffer start (Some end_)))).
  { unfold decodeInt, be_value. change 0 with (to_int32 0) at 1.
    apply decode_fold, Forall_slice, Hb. }
  split; [exact Heq|]. rewrite Heq. apply to_int32_range.
Qed.

(** X2.  When a field of at least four bytes lies inside a buffer of
    bytes, [decodeInt] over the field depends on its last four bytes only:
    it returns what [decodeInt] returns over those four bytes. *)
Theorem decodeInt_last_four (buffer : list Z) (start end_ : Z) :
  Forall is_byte buffer ->
  0 <= start -> start + 4 <= end_ -> end_ <= Z.of_nat (List.length buffer) ->
  decodeInt buffer start end_ = decodeInt buffer (end_ - 4) end_.
Proof.
  intros Hb Hs He Hl. unfold decodeInt.
  rewrite (slice_app_mid buffer start (end_ - 4) end_) by lia.
  rewrite List.fold_left_app.
  set (hi := slice buffer start (Some (end_ - 4))).
  set (lo := slice buffer (end_ - 4) (Some end_)).
  assert (Hhi : Forall is_byte hi) by (apply Forall_slice, Hb).
  assert (Hlo : Forall is_byte lo) by (apply Forall_slice, Hb).
  assert (Hlen : List.length lo = 4%nat).
  { destruct (buffer_split buffer (end_ - 4) end_) as (_ & Hlen & _); [lia | lia |].
    unfold lo. rewrite Hlen. lia. }
  change 0 with (to_int32 0). rewrite (decode_fold hi 0 Hhi).
  rewrite !decode_fold by assumption.
  apply (be_value_low hi lo Hlen).
Qed.

(** X3.  [putInt] at a position with four bytes of room succeeds, keeps
    the length of the buffer and the bytes before and after the four it
    writes, and [decodeInt] over those four bytes reads the value back
    wrapped to a signed 32-bit integer. *)
Theorem putInt_roundtrip (buffer : list Z) (pos value : Z) :
  0 <= pos -> pos + 4 <= Z.of_nat (List.length buffer) ->
  exists buffer',
    putInt buffer pos value = Ok buffer'
    /\ List.length buffer' = List.length buffer
    /\ decodeInt buffer' pos (pos + 4) = to_int32 value
    /\ firstn (Z.to_nat pos) buffer' = firstn (Z.to_nat pos) buffer
    /\ skipn (Z.to_nat (pos + 4)) buffer' = skipn (Z.to_nat (pos + 4)) buffer.
Proof.
  intros Hpos Hfit.
  destruct (buffer_split buffer pos (pos + 4)) as (Hsplit & Hlen & Hpre); [lia | lia |].
  set (pre := firstn (Z.to_nat pos) buffer) in *.
  set (old := slice buffer pos (Some (pos + 4))) in *.
  set (post := skipn (Z.to_nat (pos + 4)) buffer) in *.
  replace (Z.to_nat (pos + 4 - pos)) with 4%nat in Hlen by lia.
  exists (pre ++ u8 (be32 value) ++ post).
  assert (Hpl : List.length pre = Z.to_nat pos) by lia.
  split; [rewrite Hsplit at 1; apply putInt_at; [lia | exact Hlen]|].
  split; [rewrite Hsplit at 1; rewrite !List.length_app, Hlen; reflexivity|].
  split; [|split].
  - unfold decodeInt. rewrite (slice_at pre (u8 (be32 value)) post) by (cbn; lia).
    apply decode_be32.
  - rewrite List.firstn_app, <- Hpl, List.firstn_all, Nat.sub_diag, List.firstn_O.
    apply List.app_nil_r.
  - replace (Z.to_nat (pos + 4)) with (List.length pre + 4)%nat by lia.
    rewrite List.skipn_app, List.skipn_all2 by lia.
    replace (_ - _)%nat with 4%nat by lia. reflexivity.
Qed.

(** X4.  [putInt] raises RangeError exactly when the position is negative
    or fewer than four bytes of the buffer remain from it. *)
Theorem putInt_out_of_range (buffer : list Z) (pos value : Z) :
  putInt buffer pos value = Throw RangeError
  <-> pos < 0 \/ Z.of_nat (List.length buffer) < pos + 4.
Proof.
  unfold putInt, set. cbn [List.length].
  destruct (Z.ltb_spec pos 0); cbn [orb].
  - split; [intros _; left; assumption | reflexivity].
  - destruct (Z.ltb_spec (Z.of_nat (List.length buffer)) (pos + Z.of_nat 4)).
    + split; [intros _; right; lia | reflexivity].
    + split; [discriminate | intros [?|?]; lia].
Qed.

(** X5.  [putLong] writes the last four bytes of its eight-byte field
    only: the first four bytes of the field and everything outside the
    field stay as they were and the length is kept; on a buffer of bytes,
    [decodeInt] over the eight bytes then returns the value wrapped to a
    signed 32-bit integer, whatever the first four bytes hold. *)
Theorem putLong_low_word (buffer : list Z) (pos value : Z) :
  Forall is_byte buffer ->
  0 <= pos -> pos + 8 <= Z.of_nat (List.length buffer) ->
  exists buffer',
    putLong buffer pos value = Ok buffer'
    /\ List.length buffer' = List.length buffer
    /\ firstn (Z.to_nat (pos + 4)) buffer' = firstn (Z.to_nat (pos + 4)) buffer
    /\ skipn (Z.to_nat (pos + 8)) buffer' = skipn (Z.to_nat (pos + 8)) buffer
    /\ decodeInt buffer' pos (pos + 8) = to_int32 value.
Proof.
  intros Hb Hpos Hfit. unfold putLong.
  destruct (buffer_split buffer (pos + 4) (pos + 8)) as (Hsplit & Hlen & Hpre);
    [lia | lia |].
  set (pre := firstn (Z.to_nat (pos + 4)) buffer) in *.
  set (old := slice buffer (pos + 4) (Some (pos + 8))) in *.
  set (post := skipn (Z.to_nat (pos + 8)) buffer) in *.
  replace (Z.to_nat (pos + 8 - (pos + 4))) with 4%nat in Hlen by lia.
  assert (Hpl : List.length pre = Z.to_nat (pos + 4)) by lia.
  exists (pre ++ u8 (be32 value) ++ post).
  split; [rewrite Hsplit at 1; apply putInt_at; [lia | exact Hlen]|].
  assert (Hsame : List.length (pre ++ u8 (be32 value) ++ post) = List.length buffer).
  { rewrite Hsplit at 1. rewrite !List.length_app, Hlen. reflexivity. }
  split; [exact Hsame|]. split; [|split].
  - rewrite List.firstn_app, <- Hpl, List.firstn_all, Nat.sub_diag, List.firstn_O.
    apply List.app_nil_r.
  - replace (Z.to_nat (pos + 8)) with (List.length pre + 4)%nat by lia.
    rewrite List.skipn_app, List.skipn_all2 by lia.
    replace (_ - _)%nat with 4%nat by lia. reflexivity.
  - assert (Hb' : Forall is_byte (pre ++ u8 (be32 value) ++ post)).
    { apply Forall_app. split; [apply Forall_take, Hb|].
      apply Forall_app. split; [|apply Forall_drop, Hb].
      rewrite be32_bytes. cbv zeta.
      repeat (apply List.Forall_cons; [apply Z.mod_pos_bound; lia|]).
      apply List.Forall_nil. }
    unfold decodeInt.
    rewrite (slice_app_mid _ pos (pos + 4) (pos + 8)) by lia.
    rewrite List.fold_left_app.
    rewrite (slice_at pre (u8 (be32 value)) post (pos + 4) (pos + 8)) by (cbn; lia).
    assert (Hcells : Forall is_byte (u8 (be32 value))).
    { rewrite be32_bytes. cbv zeta.
      repeat (apply List.Forall_cons; [apply Z.mod_pos_bound; lia|]).
      apply List.Forall_nil. }
    change 0 with (to_int32 0) at 1.
    rewrite decode_fold by (apply Forall_slice, Hb').
    rewrite decode_fold by exact Hcells.
    match goal with
    | |- to_int32 (fold_left _ _ (fold_left _ ?hi 0)) = _ =>
      change (fold_left (fun acc b => acc * 256 + b) hi 0) with (be_value hi);
      rewrite (be_value_low hi (u8 (be32 value)) eq_refl)
    end.
    unfold be_value. rewrite <- (decode_fold _ 0 Hcells).
    change (to_int32 0) with 0. apply decode_be32.
Qed.

(** ** More on the text fields *)

Lemma putString_loop_overrun value start count :
  forall i pre old,
    start + i = Z.of_nat (List.length pre) ->
    (List.length old < count)%nat ->
    putString_loop value start count i (pre ++ old) = Throw RangeError.
Proof.
  induction count as [|count IH]; intros i pre old Hpos Hlen; [lia|].
  cbn [putString_loop]. destruct old as [|o old].
  - unfold set. rewrite List.app_nil_r. cbn [List.length].
    destruct (Z.ltb_spec (start + i) 0); [reflexivity|]. cbn [orb].
    destruct (Z.ltb_spec (Z.of_nat (List.length pre)) (start + i + Z.of_nat 1));
      [reflexivity | lia].
  - rewrite (set_at pre [o] old) by auto. cbn [rbind u8 List.map].
    change (pre ++ ?x :: old) with (pre ++ [x] ++ old).
    rewrite List.app_assoc. apply IH.
    + rewrite List.length_app. cbn [List.length]. lia.
    + cbn [List.length] in Hlen. lia.
Qed.

(** X6.  [putString] with a value of no more code units than the slot, the
    slot inside the buffer, succeeds: the slot then holds the code units
    of the value, each reduced modulo 256, followed by spaces (32) up to
    its end; the bytes outside the slot and the length of the buffer are
    kept. *)
Theorem putString_slot (buffer : list Z) (start end_ : Z) (value : list Z) :
  0 <= start -> end_ <= Z.of_nat (List.length buffer) ->
  str_length value <= end_ - start ->
  exists buffer',
    putString buffer start end_ value = Ok buffer'
    /\ List.length buffer' = List.length buffer
    /\ slice buffer' start (Some end_)
       = u8 value ++ repeat 32 (Z.to_nat (end_ - start) - List.length value)
    /\ firstn (Z.to_nat start) buffer' = firstn (Z.to_nat start) buffer
    /\ skipn (Z.to_nat end_) buffer' = skipn (Z.to_nat end_) buffer.
Proof.
  intros Hstart Hend Hfit. unfold str_length in Hfit.
  destruct (buffer_split buffer start end_) as (Hsplit & Hlen & Hpre); [lia | lia |].
  set (pre := firstn (Z.to_nat start) buffer) in *.
  set (old := slice buffer start (Some end_)) in *.
  set (post := skipn (Z.to_nat end_) buffer) in *.
  set (n := Z.to_nat (end_ - start)) in *.
  assert (Hpl : List.length pre = Z.to_nat start) by lia.
  exists (pre ++ string_cells value 0 n ++ post).
  assert (Hcells : List.length (string_cells value 0 n) = n).
  { unfold string_cells. rewrite List.length_map. apply List.length_seq. }
  split.
  - unfold putString, str_length.
    destruct (Z.ltb_spec (end_ - start) (Z.of_nat (List.length value))); [lia|].
    fold n. rewrite Hsplit at 1. apply putString_loop_at; [lia | exact Hlen].
  - split; [rewrite Hsplit at 1; rewrite !List.length_app, Hcells, Hlen; reflexivity|].
    split; [|split].
    + rewrite (slice_at pre (string_cells value 0 n) post) by lia.
      apply string_cells_slot. lia.
    + rewrite List.firstn_app, <- Hpl, List.firstn_all, Nat.sub_diag, List.firstn_O.
      apply List.app_nil_r.
    + replace (Z.to_nat end_) with (List.length pre + n)%nat by lia.
      rewrite List.skipn_app, List.skipn_all2 by lia.
      replace (_ - _)%nat with n by lia.
      rewrite List.skipn_app, List.skipn_all2 by lia.
      rewrite Hcells, Nat.sub_diag. reflexivity.
Qed.

Lemma putString_too_long (buffer : list Z) (start end_ : Z) (value : list Z) :
  end_ - start < str_length value ->
  putString buffer start end_ value = Throw EncodingError.
Proof.
  intros Hlong. unfold putString.
  destruct (Z.ltb_spec (end_ - start) (str_length value)); [reflexivity | lia].
Qed.

(** X7.  [putString] raises its own error (String is too long to encode)
    when the value has more code units than the slot, whatever the buffer;
    when the value fits, the slot starts inside the buffer and ends past
    it, it raises the RangeError of [buffer.set]. *)
Theorem putString_errors (buffer : list Z) (start end_ : Z) (value : list Z) :
  (end_ - start < str_length value ->
   putString buffer start end_ value = Throw EncodingError)
  /\ (str_length value <= end_ - start ->
      0 <= start <= Z.of_nat (List.length buffer) ->
      Z.of_nat (List.length buffer) < end_ ->
      putString buffer start end_ value = Throw RangeError).
Proof.
  split.
  - apply putString_too_long.
  - intros Hfit Hstart Hend. unfold putString.
    destruct (Z.ltb_spec (end_ - start) (str_length value)); [lia|].
    rewrite <- (List.firstn_skipn (Z.to_nat start) buffer).
    apply putString_loop_overrun.
    + rewrite List.length_firstn. lia.
    + rewrite List.length_skipn. lia.
Qed.

Lemma drop_while_ws_head (s : list Z) :
  match drop_while_ws s with
  | [] => True
  | c :: _ => is_white_space c = false
  end.
Proof.
  induction s as [|c s IH]; [exact I|].
  cbn [drop_while_ws]. destruct (is_white_space c) eqn:Hc; [exact IH | exact Hc].
Qed.

Lemma drop_while_ws_fixed (s : list Z) :
  drop_while_ws (drop_while_ws s) = drop_while_ws s.
Proof.
  pose proof (drop_while_ws_head s) as Hh.
  destruct (drop_while_ws s) as [|c r]; [reflexivity|].
  cbn [drop_while_ws]. rewrite Hh. reflexivity.
Qed.

Lemma drop_while_ws_In (x : Z) (s : list Z) : In x (drop_while_ws s) -> In x s.
Proof.
  induction s as [|c s IH]; [intros []|].
  cbn [drop_while_ws]. destruct (is_white_space c); [right; auto | trivial].
Qed.

Lemma trimEnd_In (x : Z) (s : list Z) : In x (trimEnd s) -> In x s.
Proof.
  unfold trimEnd. intros Hx. apply List.in_rev in Hx.
  apply drop_while_ws_In in Hx. apply List.in_rev. exact Hx.
Qed.

Lemma trimEnd_idempotent (s : list Z) : trimEnd (trimEnd s) = trimEnd s.
Proof. unfold trimEnd. rewrite List.rev_involutive, drop_while_ws_fixed. reflexivity. Qed.

Lemma strip_nul_clean (s : list Z) : ~ In 0 (strip_nul s).
Proof.
  unfold strip_nul. intros Hin. apply List.filter_In in Hin. destruct Hin as [_ Hz].
  discriminate.
Qed.

(** X8.  Whatever the buffer, the MessageType and the Payload [decode]
    returns hold no U+0000, and the MessageType is unchanged by [trimEnd]:
    it is empty or ends with a character that is not white space. *)
Theorem decode_text_clean (buffer : list Z) :
  ~ In 0 (MessageType (decode buffer))
  /\ ~ In 0 (Payload (decode buffer))
  /\ trimEnd (MessageType (decode buffer)) = MessageType (decode buffer)
  /\ (MessageType (decode buffer) = []
      \/ exists s c, MessageType (decode buffer) = s ++ [c]
                     /\ is_white_space c = false).
Proof.
  unfold decode. cbn [encodeable MessageType Payload]. unfold decodeText.
  split; [|split; [|split]].
  - intros Hin. apply trimEnd_In in Hin. exact (strip_nul_clean _ Hin).
  - apply strip_nul_clean.
  - apply trimEnd_idempotent.
  - unfold trimEnd.
    pose proof (drop_while_ws_head (rev (strip_nul (TextDecoder_decode
      (slice buffer Offset.MessageType
             (Some (Offset.MessageType + Length.MessageType))))))) as Hh.
    destruct (drop_while_ws _) as [|d r]; [left; reflexivity|].
    right. exists (rev r), d. split; [reflexivity | exact Hh].
Qed.

(** ** What [decode] reads *)

Lemma slice_whole (l : list Z) : slice l 0 (Some (Z.of_nat (List.length l))) = l.
Proof.
  rewrite <- (List.app_nil_r l) at 1.
  apply (slice_at [] l []); cbn; lia.
Qed.

Lemma slice_all (l : list Z) : slice l 0 None = l.
Proof. apply (slice_from [] l). reflexivity. Qed.

(** [decode] on a buffer given by its fields, the HeaderLength field holding
    116 as in every frame. *)
Lemma decode_layout (hl tag sc seq fl id dg pt pl body : list Z) :
  List.length hl = 4%nat -> List.length tag = 32%nat -> List.length sc = 12%nat ->
  List.length seq = 8%nat -> List.length fl = 8%nat -> List.length id = 16%nat ->
  List.length dg = 32%nat -> List.length pt = 4%nat -> List.length pl = 4%nat ->
  decodeInt hl 0 4 = Offset.PayloadLength ->
  decode (layout hl tag sc seq fl id dg pt pl body)
  = {| encodeable :=
         {| MessageType := trimEnd (strip_nul (TextDecoder_decode tag));
            SequenceNumber := decodeInt seq 0 8;
            PayloadType := decodeInt pt 0 4;
            Payload := strip_nul (TextDecoder_decode body) |};
       MessageId := decodeUuid id 0 16 |}.
Proof.
  intros Hhl Htag Hsc Hseq Hfl Hid Hdg Hpt Hpl Hheader.
  assert (Hw : forall (l : list Z) (n : nat),
             List.length l = n -> slice l 0 (Some (Z.of_nat n)) = l)
    by (intros l n <-; apply slice_whole).
  assert (Hwhl : slice hl 0 (Some 4) = hl) by exact (Hw hl 4%nat Hhl).
  assert (Hwseq : slice seq 0 (Some 8) = seq) by exact (Hw seq 8%nat Hseq).
  assert (Hwpt : slice pt 0 (Some 4) = pt) by exact (Hw pt 4%nat Hpt).
  assert (Hwid : slice id 0 (Some 16) = id) by exact (Hw id 16%nat Hid).
  set (full := layout hl tag sc seq fl id dg pt pl body).
  assert (S0 : slice full Offset.HL (Some (Offset.HL + Length.HL)) = hl).
  { apply (slice_at [] hl (tag ++ sc ++ seq ++ fl ++ id ++ dg ++ pt ++ pl ++ body));
      rewrite ?Hhl; reflexivity. }
  assert (S1 : slice full Offset.MessageType
                     (Some (Offset.MessageType + Length.MessageType)) = tag).
  { apply (slice_at hl tag (sc ++ seq ++ fl ++ id ++ dg ++ pt ++ pl ++ body));
      rewrite ?Hhl, ?Htag; reflexivity. }
  assert (S2 : slice full Offset.SequenceNumber
                     (Some (Offset.SequenceNumber + Length.SequenceNumber)) = seq).
  { unfold full, layout.
    replace (hl ++ tag ++ sc ++ seq ++ fl ++ id ++ dg ++ pt ++ pl ++ body)
      with ((hl ++ tag ++ sc) ++ seq ++ fl ++ id ++ dg ++ pt ++ pl ++ body)
      by (rewrite <- !List.app_assoc; reflexivity).
    apply slice_at;
      rewrite ?List.length_app, ?Hhl, ?Htag, ?Hsc, ?Hseq, ?Hfl, ?Hid, ?Hdg, ?Hpt;
      reflexivity. }
  assert (S3 : slice full Offset.MessageId
                     (Some (Offset.MessageId + Length.MessageId)) = id).
  { unfold full, layout.
    replace (hl ++ tag ++ sc ++ seq ++ fl ++ id ++ dg ++ pt ++ pl ++ body)
      with ((hl ++ tag ++ sc ++ seq ++ fl) ++ id ++ dg ++ pt ++ pl ++ body)
      by (rewrite <- !List.app_assoc; reflexivity).
    apply slice_at;
      rewrite ?List.length_app, ?Hhl, ?Htag, ?Hsc, ?Hseq, ?Hfl, ?Hid, ?Hdg, ?Hpt;
      reflexivity. }
  assert (S4 : slice full Offset.PayloadType
                     (Some (Offset.PayloadType + Length.PayloadType)) = pt).
  { unfold full, layout.
    replace (hl ++ tag ++ sc ++ seq ++ fl ++ id ++ dg ++ pt ++ pl ++ body)
      with ((hl ++ tag ++ sc ++ seq ++ fl ++ id ++ dg) ++ pt ++ pl ++ body)
      by (rewrite <- !List.app_assoc; reflexivity).
    apply slice_at;
      rewrite ?List.length_app, ?Hhl, ?Htag, ?Hsc, ?Hseq, ?Hfl, ?Hid, ?Hdg, ?Hpt;
      reflexivity. }
  assert (S5 : slice full Offset.Payload None = body).
  { unfold full, layout.
    replace (hl ++ tag ++ sc ++ seq ++ fl ++ id ++ dg ++ pt ++ pl ++ body)
      with ((hl ++ tag ++ sc ++ seq ++ fl ++ id ++ dg ++ pt ++ pl) ++ body)
      by (rewrite <- !List.app_assoc; reflexivity).
    apply slice_from.
    rewrite !List.length_app, Hhl, Htag, Hsc, Hseq, Hfl, Hid, Hdg, Hpt, Hpl.
    reflexivity. }
  unfold decodeInt in Hheader. rewrite Hwhl in Hheader.
  unfold decode, decodeInt, decodeText, decodeUuid, subarray.
  rewrite S0, Hheader, S1, S2, S3, S4.
  change (Offset.PayloadLength + Length.PayloadLength) with Offset.Payload.
  rewrite S5, Hwseq, Hwpt, Hwid. reflexivity.
Qed.

(** X9.  [decode] does not read SchemaVersion, CreatedDate, Flags,
    PayloadDigest and PayloadLength: two buffers laid out as a frame whose
    HeaderLength field holds 116, differing in those fields only, decode
    to the same message. *)
Theorem decode_ignores_unread_fields
    (hl tag sc sc' seq fl fl' id dg dg' pt pl pl' body : list Z) :
  List.length hl = 4%nat -> List.length tag = 32%nat ->
  List.length sc = 12%nat -> List.length sc' = 12%nat ->
  List.length seq = 8%nat ->
  List.length fl = 8%nat -> List.length fl' = 8%nat ->
  List.length id = 16%nat ->
  List.length dg = 32%nat -> List.length dg' = 32%nat ->
  List.length pt = 4%nat ->
  List.length pl = 4%nat -> List.length pl' = 4%nat ->
  decodeInt hl 0 4 = Offset.PayloadLength ->
  decode (layout hl tag sc seq fl id dg pt pl body)
  = decode (layout hl tag sc' seq fl' id dg' pt pl' body).
Proof.
  intros Hhl Htag Hsc Hsc' Hseq Hfl Hfl' Hid Hdg Hdg' Hpt Hpl Hpl' Hheader.
  rewrite (decode_layout hl tag sc seq fl id dg pt pl body) by assumption.
  rewrite (decode_layout hl tag sc' seq fl' id dg' pt pl' body) by assumption.
  reflexivity.
Qed.

Section FrameLayout.
Context `{Sha256} (env : Env) (message : EncodeableAgentMessage).

(** The frame [encode] builds, field by field. *)
Lemma frame_layout (extra : list Z) :
  frame env message ++ extra
  = layout (u8 (be32 Offset.PayloadLength))
           (string_cells (MessageType message) 0 32)
           (u8 (be32 1) ++ repeat 0 4 ++ u8 (be32 (now env)))
           (repeat 0 4 ++ u8 (be32 (SequenceNumber message)))
           (repeat 0 4 ++ u8 (be32 (if 0 <? SequenceNumber message then 0 else 1)))
           (uuid_cells (uuid env))
           (u8 (sha256_digest (Payload message)))
           (u8 (be32 (PayloadType message)))
           (u8 (be32 (str_length (Payload message))))
           (u8 (Payload message) ++ extra).
Proof.
  rewrite frame_chunks. unfold layout. rewrite <- !List.app_assoc. reflexivity.
Qed.

Lemma decode_frame_extra (extra : list Z) :
  decode (frame env message ++ extra)
  = {| encodeable :=
         {| MessageType :=
              trimEnd (strip_nul (TextDecoder_decode
                                    (string_cells (MessageType message) 0 32)));
            SequenceNumber := to_int32 (SequenceNumber message);
            PayloadType := to_int32 (PayloadType message);
            Payload := strip_nul (TextDecoder_decode (u8 (Payload message) ++ extra)) |};
       MessageId := decodeUuid (uuid_cells (uuid env)) 0 16 |}.
Proof.
  rewrite frame_layout. rewrite decode_layout; try reflexivity.
  - f_equal. f_equal.
    + unfold decodeInt.
      change (slice (repeat 0 4 ++ ?l) 0 (Some 8)) with (repeat 0 4 ++ l).
      apply decode_long.
    + unfold decodeInt. change (slice (u8 (be32 ?v)) 0 (Some 4)) with (u8 (be32 v)).
      apply decode_be32.
  - unfold u8. rewrite List.length_map. apply sha256_digest_length.
Qed.

End FrameLayout.

(** X10.  [decode] reads the payload up to the end of the buffer, not up
    to PayloadLength: bytes (ASCII, U+0001..U+007F) appended to the frame
    of a message with such a payload are decoded as the end of the
    payload, the other decoded fields being those of the frame alone. *)
Theorem decode_reads_to_buffer_end `{Sha256} (env : Env) (m : EncodeableAgentMessage)
    (extra : list Z) :
  str_length (MessageType m) <= 32 ->
  ascii_text (Payload m) ->
  ascii_text extra ->
  exists buffer,
    encode env m = Ok buffer
    /\ Payload (decode (buffer ++ extra)) = Payload m ++ extra
    /\ MessageType (decode (buffer ++ extra)) = MessageType (decode buffer)
    /\ SequenceNumber (decode (buffer ++ extra)) = SequenceNumber (decode buffer)
    /\ PayloadType (decode (buffer ++ extra)) = PayloadType (decode buffer)
    /\ MessageId (decode (buffer ++ extra)) = MessageId (decode buffer).
Proof.
  intros Hlen Hpayload Hextra. exists (frame env m).
  split; [apply encode_frame, Hlen|].
  rewrite <- (List.app_nil_r (frame env m)) at 3 5 7 9.
  rewrite !decode_frame_extra. cbn [encodeable MessageType SequenceNumber PayloadType
                                    Payload MessageId].
  repeat split.
  rewrite (u8_small (Payload m)) by (apply ascii_text_bytes, Hpayload).
  apply decode_text_ascii. apply Forall_app. split; assumption.
Qed.

(** ** The MessageId of any buffer *)

Lemma slice_length (l : list Z) (a b : Z) :
  0 <= a -> 0 <= b ->
  List.length (slice l a (Some b))
  = Z.to_nat (Z.min b (Z.of_nat (List.length l)) - Z.min a (Z.of_nat (List.length l))).
Proof.
  intros Ha Hb. unfold slice, rel_index.
  destruct (Z.ltb_spec a 0); [lia|]. destruct (Z.ltb_spec b 0); [lia|].
  rewrite List.length_firstn, List.length_skipn. lia.
Qed.

Lemma hex_of_length (l : list Z) : List.length (hex_of l) = (2 * List.length l)%nat.
Proof.
  unfold hex_of. induction l as [|b l IH]; [reflexivity|].
  cbn [List.map List.concat List.length app hex2]. rewrite IH. lia.
Qed.

Lemma decodeUuid_length (buffer : list Z) (start end_ : Z) :
  Forall is_byte buffer ->
  (List.length (slice buffer start (Some end_)) <= 16)%nat ->
  List.length (decodeUuid buffer start end_)
  = (2 * List.length (slice buffer start (Some end_)) + 4)%nat.
Proof.
  intros Hb Hshort. unfold decodeUuid, subarray.
  set (field := slice buffer start (Some end_)) in *.
  assert (Hf : Forall is_byte field) by (apply Forall_slice, Hb).
  rewrite !longToHex_hex by (apply Forall_slice, Hf).
  set (raw := hex_of (slice field 8 (Some 16)) ++ hex_of (slice field 0 (Some 8))).
  assert (Hraw : List.length raw = (2 * List.length field)%nat).
  { unfold raw. rewrite List.length_app, !hex_of_length, !slice_length by lia. lia. }
  cbn [join]. unfold substr, substr_from.
  rewrite !List.length_app, !List.length_firstn, !List.length_skipn. cbn [List.length js
    list_ascii_of_string List.map]. lia.
Qed.

(** X11.  On a buffer of bytes: when it has at least 80 bytes, the decoded
    MessageId is the hyphenated hexadecimal text of bytes 72..79 followed
    by bytes 64..71; and the decoded MessageId has the syntax of a UUID
    (8-4-4-4-12 hexadecimal digits) exactly when the buffer has at least
    80 bytes. *)
Theorem decode_MessageId_syntax (buffer : list Z) :
  Forall is_byte buffer ->
  (80 <= Z.of_nat (List.length buffer) ->
   MessageId (decode buffer)
   = uuid_string (swap_halves (slice buffer Offset.MessageId
                                (Some (Offset.MessageId + Length.MessageId)))))
  /\ (uuid_syntax (MessageId (decode buffer)) = true
      <-> 80 <= Z.of_nat (List.length buffer)).
Proof.
  intros Hb.
  assert (Hlong : 80 <= Z.of_nat (List.length buffer) ->
            uuid_wf (slice buffer Offset.MessageId
                           (Some (Offset.MessageId + Length.MessageId)))
            /\ MessageId (decode buffer)
               = uuid_string (swap_halves (slice buffer Offset.MessageId
                                (Some (Offset.MessageId + Length.MessageId))))).
  { intros Hlen.
    destruct (buffer_split buffer Offset.MessageId (Offset.MessageId + Length.MessageId))
      as (Hsplit & Hl & Hpre);
      [change Offset.MessageId with 64; change Length.MessageId with 16; lia
      | change (Offset.MessageId + Length.MessageId) with 80; lia |].
    set (u := slice buffer Offset.MessageId (Some (Offset.MessageId + Length.MessageId)))
      in *.
    assert (Hu : uuid_wf u).
    { split; [rewrite Hl; reflexivity | apply Forall_slice, Hb]. }
    split; [exact Hu|].
    unfold decode. cbn [MessageId]. rewrite Hsplit at 1.
    change (Offset.MessageId + Length.MessageId) with (Offset.MessageId + 16).
    apply decodeUuid_field; [exact Hu | symmetry; exact Hpre]. }
  split; [intros Hlen; apply Hlong, Hlen|].
  split.
  - intros Hsyn. unfold uuid_syntax in Hsyn.
    apply andb_true_iff in Hsyn. destruct Hsyn as [Hlen36 _].
    apply Nat.eqb_eq in Hlen36.
    unfold decode in Hlen36. cbn [MessageId] in Hlen36.
    set (field := slice buffer Offset.MessageId
                        (Some (Offset.MessageId + Length.MessageId))).
    assert (Hfield : (List.length field <= 16)%nat).
    { unfold field. rewrite slice_length by (vm_compute; discriminate).
      change (Offset.MessageId + Length.MessageId) with 80.
      change Offset.MessageId with 64. lia. }
    rewrite decodeUuid_length in Hlen36 by assumption.
    fold field in Hlen36. unfold field in Hlen36.
    rewrite slice_length in Hlen36 by (vm_compute; discriminate).
    change (Offset.MessageId + Length.MessageId) with 80 in Hlen36.
    change Offset.MessageId with 64 in Hlen36. lia.
  - intros Hlen. destruct (Hlong Hlen) as [Hu ->].
    apply uuid_string_syntax, swap_halves_wf, Hu.
Qed.

(** ** More on [encode] *)

Section EncodeFields.
Context `{Sha256} (env : Env) (m : EncodeableAgentMessage).

Lemma frame_slice_SchemaVersion :
  slice (frame env m) Offset.SchemaVersion
        (Some (Offset.SchemaVersion + Length.SchemaVersion)) = u8 (be32 1).
Proof.
  rewrite frame_chunks.
  match goal with
  | |- slice (?c0 ++ ?c1 ++ ?c2 ++ ?post) _ _ = _ =>
    change (c0 ++ c1 ++ c2 ++ post) with ((c0 ++ c1) ++ c2 ++ post);
    apply (slice_at (c0 ++ c1) c2 post); reflexivity
  end.
Qed.

Lemma frame_slice_CreatedDate :
  slice (frame env m) Offset.CreatedDate (Some (Offset.CreatedDate + Length.CreatedDate))
  = repeat 0 4 ++ u8 (be32 (now env)).
Proof.
  rewrite frame_chunks.
  match goal with
  | |- slice (?c0 ++ ?c1 ++ ?c2 ++ ?c3 ++ ?post) _ _ = _ =>
    change (c0 ++ c1 ++ c2 ++ c3 ++ post) with ((c0 ++ c1 ++ c2) ++ c3 ++ post);
    apply (slice_at (c0 ++ c1 ++ c2) c3 post); reflexivity
  end.
Qed.

Lemma frame_slice_Flags :
  slice (frame env m) Offset.Flags (Some (Offset.Flags + Length.Flags))
  = repeat 0 4 ++ u8 (be32 (if 0 <? SequenceNumber m then 0 else 1)).
Proof.
  rewrite frame_chunks.
  match goal with
  | |- slice (?c0 ++ ?c1 ++ ?c2 ++ ?c3 ++ ?c4 ++ ?c5 ++ ?post) _ _ = _ =>
    change (c0 ++ c1 ++ c2 ++ c3 ++ c4 ++ c5 ++ post)
      with ((c0 ++ c1 ++ c2 ++ c3 ++ c4) ++ c5 ++ post);
    apply (slice_at (c0 ++ c1 ++ c2 ++ c3 ++ c4) c5 post); reflexivity
  end.
Qed.

Lemma frame_slice_PayloadDigest :
  slice (frame env m) Offset.PayloadDigest
        (Some (Offset.PayloadDigest + Length.PayloadDigest))
  = u8 (sha256_digest (Payload m)).
Proof.
  rewrite frame_chunks.
  match goal with
  | |- slice (?c0 ++ ?c1 ++ ?c2 ++ ?c3 ++ ?c4 ++ ?c5 ++ ?c6 ++ ?c7 ++ ?post) _ _ = _ =>
    change (c0 ++ c1 ++ c2 ++ c3 ++ c4 ++ c5 ++ c6 ++ c7 ++ post)
      with ((c0 ++ c1 ++ c2 ++ c3 ++ c4 ++ c5 ++ c6) ++ c7 ++ post);
    apply (slice_at (c0 ++ c1 ++ c2 ++ c3 ++ c4 ++ c5 ++ c6) c7 post);
      [reflexivity | rewrite (digest_cells_length m); reflexivity]
  end.
Qed.

(** When the tag does not fit, [encode] raises at the second write. *)
Lemma encode_long_tag :
  32 < str_length (MessageType m) -> encode env m = Throw EncodingError.
Proof.
  intros Hlen. unfold encode.
  replace (new_Uint8Array (Offset.PayloadLength + str_length (Payload m) + 4))
    with ([] ++ repeat 0 4 ++ repeat 0 (116 + List.length (Payload m))).
  2:{ unfold new_Uint8Array, str_length.
      replace (Z.to_nat _) with (4 + (116 + List.length (Payload m)))%nat
        by (change Offset.PayloadLength with 116; lia).
      rewrite List.repeat_app. reflexivity. }
  rewrite putInt_at by reflexivity. cbn [rbind].
  rewrite putString_too_long; [reflexivity|].
  change (Offset.MessageType + Length.MessageType - Offset.MessageType) with 32.
  exact Hlen.
Qed.

End EncodeFields.

(** X12.  In the frame of a message whose tag fits, the Flags field holds
    seven zero bytes followed by 1 when SequenceNumber is 0 or negative
    (SYN) and by 0 when it is positive; the FIN bit is never set. *)
Theorem encode_flags `{Sha256} (env : Env) (m : EncodeableAgentMessage) :
  str_length (MessageType m) <= 32 ->
  exists buffer,
    encode env m = Ok buffer
    /\ slice buffer Offset.Flags (Some (Offset.Flags + Length.Flags))
       = [0; 0; 0; 0; 0; 0; 0; if SequenceNumber m <=? 0 then 1 else 0].
Proof.
  intros Hlen. exists (frame env m). split; [apply encode_frame, Hlen|].
  rewrite frame_slice_Flags.
  destruct (Z.ltb_spec 0 (SequenceNumber m)); destruct (Z.leb_spec (SequenceNumber m) 0);
    try lia; reflexivity.
Qed.

(** X13.  In the frame of a message whose tag fits, read with [decodeInt],
    the HeaderLength field holds 116, SchemaVersion holds 1 and
    CreatedDate holds the clock wrapped to a signed 32-bit integer; the
    PayloadDigest field holds the SHA-256 digest of the payload (a digest
    being made of bytes). *)
Theorem encode_fixed_fields `{Sha256} (env : Env) (m : EncodeableAgentMessage) :
  str_length (MessageType m) <= 32 ->
  Forall is_byte (sha256_digest (Payload m)) ->
  exists buffer,
    encode env m = Ok buffer
    /\ decodeInt buffer Offset.HL (Offset.HL + Length.HL) = Offset.PayloadLength
    /\ decodeInt buffer Offset.SchemaVersion
                 (Offset.SchemaVersion + Length.SchemaVersion) = 1
    /\ decodeInt buffer Offset.CreatedDate (Offset.CreatedDate + Length.CreatedDate)
       = to_int32 (now env)
    /\ slice buffer Offset.PayloadDigest
             (Some (Offset.PayloadDigest + Length.PayloadDigest))
       = sha256_digest (Payload m).
Proof.
  intros Hlen Hdigest. exists (frame env m). split; [apply encode_frame, Hlen|].
  split; [|split; [|split]].
  - unfold decodeInt. rewrite frame_slice_HL. reflexivity.
  - unfold decodeInt. rewrite frame_slice_SchemaVersion. reflexivity.
  - unfold decodeInt. rewrite frame_slice_CreatedDate. apply decode_long.
  - rewrite frame_slice_PayloadDigest. apply u8_small.
    induction Hdigest; constructor; assumption.
Qed.

(** X14.  The only error [encode] raises is that of [putString] (String is
    too long to encode), and it raises it exactly when the tag has more
    than 32 code units; otherwise it returns a buffer of 120 bytes plus
    one byte for each code unit of the payload. *)
Theorem encode_outcomes `{Sha256} (env : Env) (m : EncodeableAgentMessage) :
  (forall e, encode env m = Throw e ->
             e = EncodingError /\ 32 < str_length (MessageType m))
  /\ (forall buffer, encode env m = Ok buffer ->
        str_length (MessageType m) <= 32
        /\ Z.of_nat (List.length buffer) = 120 + str_length (Payload m)).
Proof.
  destruct (Z.le_gt_cases (str_length (MessageType m)) 32) as [Hfit|Hlong].
  - rewrite (encode_frame env m Hfit). split; [discriminate|].
    intros buffer [= <-]. split; [exact Hfit | apply frame_length].
  - rewrite (encode_long_tag env m) by lia. split; [|discriminate].
    intros e [= <-]. split; [reflexivity | lia].
Qed.

(** X15.  For every message whose tag fits, whatever its payload, the
    SequenceNumber and the PayloadType decoded from its frame are
    congruent modulo 2^32 to those of the message and lie between -2^31
    and 2^31 - 1. *)
Theorem decode_encode_wraps `{Sha256} (env : Env) (m : EncodeableAgentMessage) :
  str_length (MessageType m) <= 32 ->
  exists buffer,
    encode env m = Ok buffer
    /\ (SequenceNumber (decode buffer) - SequenceNumber m) mod 2 ^ 32 = 0
    /\ - 2 ^ 31 <= SequenceNumber (decode buffer) < 2 ^ 31
    /\ (PayloadType (decode buffer) - PayloadType m) mod 2 ^ 32 = 0
    /\ - 2 ^ 31 <= PayloadType (decode buffer) < 2 ^ 31.
Proof.
  intros Hlen. exists (frame env m). split; [apply encode_frame, Hlen|].
  rewrite decode_frame. cbn [encodeable SequenceNumber PayloadType].
  assert (Hmod : forall z, (to_int32 z - z) mod 2 ^ 32 = 0).
  { intros z. unfold to_int32. change (2 ^ 31) with 2147483648.
    change (2 ^ 32) with 4294967296. Z.div_mod_to_equations. lia. }
  repeat split; try apply Hmod; apply to_int32_range.
Qed.

Lemma strip_nul_pad (s : list Z) (n : nat) :
  strip_nul (s ++ repeat 32 n) = strip_nul s ++ repeat 32 n.
Proof.
  unfold strip_nul. rewrite List.filter_app. f_equal.
  induction n as [|n IH]; [reflexivity|]. cbn [repeat List.filter Z.eqb negb].
  f_equal. exact IH.
Qed.

(** X16.  For a message whose tag (at most 32 code units) and payload hold
    code units below 128 only, U+0000 allowed, the MessageType decoded
    from its frame is the tag without its U+0000 and without trailing
    white space, and the decoded Payload is the payload without its
    U+0000. *)
Theorem decode_encode_text `{Sha256} (env : Env) (m : EncodeableAgentMessage) :
  str_length (MessageType m) <= 32 ->
  low_text (MessageType m) ->
  low_text (Payload m) ->
  exists buffer,
    encode env m = Ok buffer
    /\ MessageType (decode buffer) = trimEnd (strip_nul (MessageType m))
    /\ Payload (decode buffer) = strip_nul (Payload m).
Proof.
  intros Hlen Htag Hpayload. exists (frame env m).
  split; [apply encode_frame, Hlen|].
  assert (Hbytes : forall s, low_text s -> Forall (fun c => 0 <= c < 256) s).
  { intros s Hs. induction Hs; constructor; [lia | assumption]. }
  rewrite decode_frame. cbn [encodeable MessageType Payload]. split.
  - rewrite (string_cells_slot (MessageType m) 32) by (unfold str_length in Hlen; lia).
    rewrite (u8_small (MessageType m)) by (apply Hbytes, Htag).
    rewrite TextDecoder_decode_ascii.
    + rewrite strip_nul_pad. apply trimEnd_pad.
    + apply Forall_app. split; [exact Htag|].
      generalize (32 - List.length (MessageType m))%nat. intros n.
      induction n; constructor; [lia | assumption].
  - rewrite (u8_small (Payload m)) by (apply Hbytes, Hpayload).
    rewrite TextDecoder_decode_ascii by exact Hpayload. reflexivity.
Qed.

(** ** More on the session *)

Lemma with_handlers_same (s : AWSSSMSession) : with_handlers s (handlers s) = s.
Proof. destruct s. reflexivity. Qed.

Lemma register_handlers (registrations : list (EventName * nat)) : forall s,
  register registrations s
  = Returns (with_handlers s
               (handlers s
                ++ List.map (fun r => {| event := fst r; callback := snd r |})
                     registrations)) [].
Proof.
  induction registrations as [|[eventName callback] rest IH]; intros s.
  - cbn [register List.map]. rewrite List.app_nil_r, with_handlers_same. reflexivity.
  - cbn [register]. unfold on. cbn [andThen]. rewrite IH.
    cbn [handlers with_handlers List.map fst snd app].
    rewrite <- List.app_assoc. reflexivity.
Qed.

(** X17.  After callbacks are registered with [on], [emit] of an event
    calls, with the data emitted, the callbacks registered for that event
    and no other, in the order of registration: those the session had
    first, then the new ones; [on] and [emit] change nothing but the list
    of handlers. *)
Theorem emit_calls_in_registration_order
    (registrations : list (EventName * nat)) (eventName : EventName)
    (data : jsstring) (s : AWSSSMSession) :
  register registrations s >>> emit eventName data
  = Returns (with_handlers s
               (handlers s
                ++ List.map (fun r => {| event := fst r; callback := snd r |})
                     registrations))
            (Emit eventName data
             :: calls eventName data s
             ++ List.map (fun r => Call (snd r) data)
                  (List.filter (fun r => EventName_eqb (fst r) eventName)
                               registrations)).
Proof.
  rewrite register_handlers. unfold emit, calls. cbn [andThen handlers with_handlers app].
  f_equal. f_equal. rewrite List.filter_app, List.map_app. f_equal.
  induction registrations as [|[name cb] rest IH]; [reflexivity|].
  cbn [List.map List.filter fst snd event]. destruct (EventName_eqb name eventName).
  - cbn [List.map snd callback]. f_equal. exact IH.
  - exact IH.
Qed.

Section SessionExtras.
Context `{Sha256} `{Json}.


Lemma sends_emit name data s : sends (Emit name data :: calls name data s) = [].
Proof. change (sends (?e :: ?l)) with (sends l). apply sends_calls. Qed.

Lemma write_ready env text s :
  readyState (webSocket s) = 1 ->
  write env text s
  = Returns (with_outgoingSequenceNumber s (outgoingSequenceNumber s + 1))
            [WsSend (frame env {| MessageType := MessageType.InputStreamDataMessage;
                                  SequenceNumber := outgoingSequenceNumber s;
                                  Payload := text;
                                  PayloadType := PayloadType.Output |})].
Proof.
  intros Hready. unfold write. rewrite encode_frame by (vm_compute; discriminate).
  unfold send. rewrite Hready. reflexivity.
Qed.


(** X19.  A message of type [input_stream_data] changes nothing, emits
    nothing and logs nothing; a message whose type is none of the six the
    switch names leaves the session unchanged and logs one console error
    naming the type; this is the case of four tags of the vocabulary:
    interactive_shell, agent_task_reply, agent_task_complete and
    agent_session_state. *)
Theorem handle_unhandled_types (env : Env) (message : AgentMessage)
    (s : AWSSSMSession) :
  (MessageType message = MessageType.InputStreamDataMessage ->
   handle env message s = Returns s [])
  /\ (~ In (MessageType message)
           [ MessageType.OutputStreamDataMessage; MessageType.StartPublicationMessage;
             MessageType.PausePublicationMessage; MessageType.AcknowledgeMessage;
             MessageType.InputStreamDataMessage; MessageType.ChannelClosedMessage ] ->
      handle env message s
      = Returns s [ConsoleError (js "Unhandled message type " ++ MessageType message
                                 ++ js ".")])
  /\ (In (MessageType message)
         [ MessageType.InteractiveShellMessage; MessageType.TaskReplyMessage;
           MessageType.TaskCompleteMessage; MessageType.AgentSessionState ] ->
      handle env message s
      = Returns s [ConsoleError (js "Unhandled message type " ++ MessageType message
                                 ++ js ".")]).
Proof.
  assert (Hdefault :
    ~ In (MessageType message)
         [ MessageType.OutputStreamDataMessage; MessageType.StartPublicationMessage;
           MessageType.PausePublicationMessage; MessageType.AcknowledgeMessage;
           MessageType.InputStreamDataMessage; MessageType.ChannelClosedMessage ] ->
    handle env message s
    = Returns s [ConsoleError (js "Unhandled message type " ++ MessageType message
                               ++ js ".")]).
  { intros Hout. unfold handle.
    repeat (destruct (decide _) as [Heq|_];
            [exfalso; apply Hout; rewrite Heq; cbn [In]; tauto|]).
    reflexivity. }
  split; [|split].
  - intros Htype. unfold handle. rewrite Htype.
    repeat (destruct (decide _) as [Heq|_]; [vm_compute in Heq; discriminate|]).
    destruct (decide _) as [_|Hne]; [|contradiction]. reflexivity.
  - exact Hdefault.
  - intros Hin. apply Hdefault. intros Hhandled.
    cbn [In] in Hin, Hhandled.
    destruct Hin as [Hin|[Hin|[Hin|[Hin|[]]]]]; rewrite <- Hin in Hhandled;
      repeat (destruct Hhandled as [Hhandled|Hhandled];
              [vm_compute in Hhandled; discriminate|]);
      exact Hhandled.
Qed.

Lemma with_lastAcknowledgedSequenceNumber_same (s : AWSSSMSession) :
  with_lastAcknowledgedSequenceNumber s (lastAcknowledgedSequenceNumber s) = s.
Proof. destruct s. reflexivity. Qed.

(** X20.  Handling [acknowledge]: an empty payload changes nothing; a
    payload JSON.parse rejects makes the handler raise that error, and a
    payload that is the text null makes it raise TypeError, the session
    unchanged in both cases; a payload without
    AcknowledgedMessageSequenceNumber changes nothing; in every case
    nothing is sent, emitted or logged, and no field other than
    [lastAcknowledgedSequenceNumber] changes. (A run in which the code
    would coerce a parsed value of an unexpected type is outside the
    embedding.) *)
Theorem acknowledge_malformed (env : Env) (message : AgentMessage)
    (s : AWSSSMSession) :
  MessageType message = MessageType.AcknowledgeMessage ->
  (Payload message = [] -> handle env message s = Returns s [])
  /\ (forall e, Payload message <> [] -> JSON_parse (Payload message) = Throw e ->
                handle env message s = Raises e s [])
  /\ (Payload message <> [] -> JSON_parse (Payload message) = Ok JNull ->
      handle env message s = Raises TypeError s [])
  /\ (forall payloadData,
        Payload message <> [] -> JSON_parse (Payload message) = Ok payloadData ->
        property payloadData (js "AcknowledgedMessageSequenceNumber") = Ok None ->
        handle env message s = Returns s [])
  /\ effects (handle env message s) = []
  /\ (forall s', final_state (handle env message s) = Some s' ->
                 s' = with_lastAcknowledgedSequenceNumber
                        s (lastAcknowledgedSequenceNumber s')).
Proof.
  intros Htype.
  assert (Hbody : handle env message s
    = match Payload message with
      | [] => Returns s []
      | _ :: _ =>
        match JSON_parse (Payload message) with
        | Throw e => Raises e s []
        | Ok payloadData =>
          match property payloadData (js "AcknowledgedMessageSequenceNumber") with
          | Throw e => Raises e s []
          | Ok None => Returns s []
          | Ok (Some (JNumber acknowledged)) =>
            match lastAcknowledgedSequenceNumber s with
            | None =>
              Returns (with_lastAcknowledgedSequenceNumber s (Some acknowledged)) []
            | Some last =>
              if last <? acknowledged
              then Returns (with_lastAcknowledgedSequenceNumber s (Some acknowledged)) []
              else Returns s []
            end
          | Ok (Some _) => Unmodelled
          end
        end
      end).
  { unfold handle. rewrite Htype.
    repeat (destruct (decide _) as [Heq|_]; [vm_compute in Heq; discriminate|]).
    destruct (decide _) as [_|Hne]; [|contradiction]. reflexivity. }
  rewrite Hbody. clear Hbody.
  split; [|split; [|split; [|split; [|split]]]].
  - intros ->. reflexivity.
  - intros e Hp Hparse. destruct (Payload message); [contradiction|].
    rewrite Hparse. reflexivity.
  - intros Hp Hparse. destruct (Payload message); [contradiction|].
    rewrite Hparse. reflexivity.
  - intros payloadData Hp Hparse Hprop. destruct (Payload message); [contradiction|].
    rewrite Hparse, Hprop. reflexivity.
  - destruct (Payload message); [reflexivity|].
    destruct (JSON_parse _) as [payloadData|e]; [|reflexivity].
    destruct (property _ _) as [[[]|]|e]; try reflexivity.
    destruct (lastAcknowledgedSequenceNumber s); [|reflexivity].
    destruct (_ <? _); reflexivity.
  - intros s' Hfinal.
    assert (Hsame : s = with_lastAcknowledgedSequenceNumber
                          s (lastAcknowledgedSequenceNumber s))
      by (symmetry; apply with_lastAcknowledgedSequenceNumber_same).
    destruct (Payload message); [injection Hfinal as <-; exact Hsame|].
    destruct (JSON_parse _) as [payloadData|e]; [|injection Hfinal as <-; exact Hsame].
    destruct (property _ _) as [[[]|]|e]; try discriminate;
      try (injection Hfinal as <-; exact Hsame).
    destruct (lastAcknowledgedSequenceNumber s) eqn:Hlast.
    + destruct (_ <? _); injection Hfinal as <-; [reflexivity|].
      symmetry. apply with_lastAcknowledgedSequenceNumber_same.
    + injection Hfinal as <-. reflexivity.
Qed.


End SessionExtras.

(** ** What the handler leaves alone *)

Section SessionFrame.
Context `{Sha256} `{Json}.



Lemma final_state_andThen o k s' :
  final_state (o >>> k) = Some s' ->
  exists s1, final_state o = Some s1 /\ (s' = s1 \/ final_state (k s1) = Some s').
Proof.
  destruct o as [s1 log|e s1 log|]; cbn [andThen]; [| |discriminate].
  - intros Hk. exists s1. split; [reflexivity|]. right.
    destruct (k s1); [exact Hk | exact Hk | discriminate].
  - intros [= <-]. exists s1. split; [reflexivity | left; reflexivity].
Qed.

(** The session a message leaves behind, by message type. *)
Lemma handle_final env message s s' :
  final_state (handle env message s) = Some s' ->
  s' = s
  \/ (MessageType message = MessageType.OutputStreamDataMessage
      /\ s' = with_outputMap s (<[MessageId message := Payload message]> (outputMap s)))
  \/ (MessageType message = MessageType.StartPublicationMessage
      /\ s' = with_paused
                (with_outgoingSequenceNumber
                   s (match lastAcknowledgedSequenceNumber s with
                      | Some acknowledged => acknowledged
                      | None => 0
                      end)) false)
  \/ (MessageType message = MessageType.PausePublicationMessage
      /\ s' = with_paused s true)
  \/ (MessageType message = MessageType.AcknowledgeMessage
      /\ exists n, s' = with_lastAcknowledgedSequenceNumber s (Some n))
  \/ (MessageType message = MessageType.ChannelClosedMessage
      /\ s' = with_connectionTerminated s true).
Proof.
  unfold handle.
  destruct (decide _) as [Houtput|_].
  { intros Hfinal. unfold acknowledgeMessage in Hfinal.
    destruct (encode _ _); [|injection Hfinal as <-; left; reflexivity].
    right. left. split; [exact Houtput|].
    cbn [andThen] in Hfinal. unfold emit in Hfinal.
    destruct (negb _); cbn [andThen final_state] in Hfinal;
      injection Hfinal as <-; reflexivity. }
  destruct (decide _) as [Hstart|_].
  { intros [= <-]. right. right. left. split; [exact Hstart|].
    destruct (lastAcknowledgedSequenceNumber s); reflexivity. }
  destruct (decide _) as [Hpause|_].
  { intros [= <-]. right. right. right. left. split; [exact Hpause | reflexivity]. }
  destruct (decide _) as [Hack|_].
  { destruct (Payload message); [intros [= <-]; left; reflexivity|].
    destruct (JSON_parse _) as [payloadData|e]; [|intros [= <-]; left; reflexivity].
    destruct (property _ _) as [[[]|]|e]; try discriminate;
      try (intros [= <-]; left; reflexivity).
    destruct (lastAcknowledgedSequenceNumber s) as [last|];
      [destruct (last <? n)|]; intros [= <-];
      first [ left; reflexivity
            | do 4 right; left; split; [exact Hack | exists n; reflexivity] ]. }
  destruct (decide _) as [Hinput|_].
  { intros [= <-]. left. reflexivity. }
  destruct (decide _) as [Hclosed|_].
  { intros Hfinal. apply final_state_andThen in Hfinal.
    destruct Hfinal as (s1 & Hfirst & Hrest).
    assert (Hs1 : s1 = s).
    { destruct (Payload message); [injection Hfirst as <-; reflexivity|].
      destruct (JSON_parse _) as [payloadData|e]; [|injection Hfirst as <-; reflexivity].
      destruct (property _ _) as [[[| | |text|[]|]|]|e]; try discriminate;
        try (injection Hfirst as <-; reflexivity).
      destruct (_ <? _); injection Hfirst as <-; reflexivity. }
    subst s1. destruct Hrest as [->|Hrest]; [left; reflexivity|].
    injection Hrest as <-. do 5 right. split; [exact Hclosed | reflexivity]. }
  intros [= <-]. left. reflexivity.
Qed.





(** X23.  Each field the handler writes is written for its own message
    types only: [outgoingSequenceNumber] changes on [start_publication]
    only, [paused] on [start_publication] and [pause_publication] only,
    [lastAcknowledgedSequenceNumber] on [acknowledge] only, [outputMap] on
    [output_stream_data] only and [connectionTerminated] on
    [channel_closed] only. (A run in which the code would coerce a parsed
    value of an unexpected type is outside the embedding.) *)
Theorem handle_changes_by_type (env : Env) (message : AgentMessage)
    (s s' : AWSSSMSession) :
  final_state (handle env message s) = Some s' ->
  (MessageType message <> MessageType.StartPublicationMessage ->
   outgoingSequenceNumber s' = outgoingSequenceNumber s)
  /\ (MessageType message <> MessageType.StartPublicationMessage ->
      MessageType message <> MessageType.PausePublicationMessage ->
      paused s' = paused s)
  /\ (MessageType message <> MessageType.AcknowledgeMessage ->
      lastAcknowledgedSequenceNumber s' = lastAcknowledgedSequenceNumber s)
  /\ (MessageType message <> MessageType.OutputStreamDataMessage ->
      outputMap s' = outputMap s)
  /\ (MessageType message <> MessageType.ChannelClosedMessage ->
      connectionTerminated s' = connectionTerminated s).
Proof.
  intros Hfinal. apply handle_final in Hfinal.
  destruct Hfinal as [->|[[Ht ->]|[[Ht ->]|[[Ht ->]|[[Ht [n ->]]|[Ht ->]]]]]];
    repeat split; intros; try reflexivity; try contradiction;
    rewrite Ht in *; exfalso;
    match goal with
    | Hne : ?a <> ?a |- _ => apply Hne; reflexivity
    end.
Qed.


(** X24.  The handler sends nothing for a message that is not
    [output_stream_data]; for [output_stream_data] it sends exactly one
    frame, which decodes to type [acknowledge], payload type Output and
    the session's current [outgoingSequenceNumber] wrapped to a signed
    32-bit integer. *)
Theorem handle_sends_only_acknowledgements (env : Env) (message : AgentMessage)
    (s : AWSSSMSession) :
  (MessageType message <> MessageType.OutputStreamDataMessage ->
   sends (effects (handle env message s)) = [])
  /\ (MessageType message = MessageType.OutputStreamDataMessage ->
      exists ack,
        sends (effects (handle env message s)) = [ack]
        /\ MessageType (decode ack) = MessageType.AcknowledgeMessage
        /\ SequenceNumber (decode ack) = to_int32 (outgoingSequenceNumber s)
        /\ PayloadType (decode ack) = PayloadType.Output).
Proof.
  split.
  - intros Hother. unfold handle.
    destruct (decide _) as [Houtput|_]; [contradiction|].
    destruct (decide _) as [_|_]; [apply sends_emit|].
    destruct (decide _) as [_|_]; [apply sends_emit|].
    destruct (decide _) as [_|_].
    { destruct (Payload message); [reflexivity|].
      destruct (JSON_parse _) as [payloadData|e]; [|reflexivity].
      destruct (property _ _) as [[[]|]|e]; try reflexivity.
      destruct (lastAcknowledgedSequenceNumber s); [|reflexivity].
      destruct (_ <? _); reflexivity. }
    destruct (decide _) as [_|_]; [reflexivity|].
    destruct (decide _) as [_|_]; [|reflexivity].
    destruct (Payload message); [reflexivity|].
    destruct (JSON_parse _) as [payloadData|e]; [|reflexivity].
    destruct (property _ _) as [[[| | |text|[]|]|]|e]; try reflexivity.
    destruct (_ <? _); [|reflexivity].
    cbn [emit andThen effects]. rewrite List.app_nil_r. apply sends_emit.
  - intros Houtput. unfold handle.
    destruct (decide _) as [_|Hne]; [|contradiction].
    unfold acknowledgeMessage. rewrite encode_frame by (vm_compute; discriminate).
    eexists. split; [|split; [|split]].
    + cbn [andThen]. unfold emit.
      destruct (negb _); cbn [andThen effects app]; rewrite ?List.app_nil_r.
      * change (sends (WsSend ?b :: ?l)) with (b :: sends l).
        f_equal. apply (sends_emit output (Payload message) s).
      * reflexivity.
    + rewrite decode_frame_MessageType; [reflexivity | vm_compute; discriminate | |].
      * apply ascii_text_check. vm_compute. reflexivity.
      * vm_compute. reflexivity.
    + rewrite decode_frame. reflexivity.
    + rewrite decode_frame. reflexivity.
Qed.

(** ** The frames [write] and [setSize] send *)




(** X27.  With the socket open, two calls of [write] in a row send two
    frames whose decoded sequence numbers are the session's
    [outgoingSequenceNumber] and the next number (each wrapped to a signed
    32-bit integer), and leave [outgoingSequenceNumber] increased by 2. *)
Theorem consecutive_writes (env1 env2 : Env) (text1 text2 : jsstring)
    (s : AWSSSMSession) :
  readyState (webSocket s) = 1 ->
  exists buffer1 buffer2,
    write env1 text1 s >>> write env2 text2
    = Returns (with_outgoingSequenceNumber s (outgoingSequenceNumber s + 2))
              [WsSend buffer1; WsSend buffer2]
    /\ SequenceNumber (decode buffer1) = to_int32 (outgoingSequenceNumber s)
    /\ SequenceNumber (decode buffer2) = to_int32 (outgoingSequenceNumber s + 1).
Proof.
  intros Hready. rewrite (write_ready env1 text1 s Hready). cbn [andThen].
  rewrite (write_ready env2 text2
             (with_outgoingSequenceNumber s (outgoingSequenceNumber s + 1)) Hready).
  cbn [app outgoingSequenceNumber with_outgoingSequenceNumber].
  replace (outgoingSequenceNumber s + 1 + 1) with (outgoingSequenceNumber s + 2) by lia.
  eexists. eexists. split; [reflexivity|].
  split; rewrite decode_frame; reflexivity.
Qed.


End SessionFrame.

(** ** The class before flow control, against the class as it is *)

Section EarlierSession.
Context `{Sha256} `{Json}.

Lemma earlier_flow_tags (tag : jsstring) :
  tag = MessageType.InputStreamDataMessage
  \/ tag = MessageType.StartPublicationMessage
  \/ tag = MessageType.PausePublicationMessage
  \/ tag = MessageType.AcknowledgeMessage ->
  tag <> MessageType.OutputStreamDataMessage.
Proof.
  intros [->|[->|[->| ->]]] Heq; vm_compute in Heq; discriminate.
Qed.

(** X29.  The class before flow control returns at once, the session
    unchanged and nothing sent or emitted, on [input_stream_data],
    [start_publication], [pause_publication] and [acknowledge]; on every
    message of another type its handler does what the handler of the class
    as it is does, on the fields the two have in common: same outcome,
    same log. *)
Theorem earlier_handle_agrees (env : Env) (message : AgentMessage) :
  (In (MessageType message)
      [ MessageType.InputStreamDataMessage; MessageType.StartPublicationMessage;
        MessageType.PausePublicationMessage; MessageType.AcknowledgeMessage ] ->
   forall s0, Earlier.handle env message s0 = Earlier.Returns s0 [])
  /\ (~ In (MessageType message)
           [ MessageType.StartPublicationMessage; MessageType.PausePublicationMessage;
             MessageType.AcknowledgeMessage ] ->
      forall s, Earlier.handle env message (forget s)
                = forget_outcome (handle env message s)).
Proof.
  split.
  - intros Hin s0. cbn [In] in Hin.
    assert (Hflow : MessageType message = MessageType.InputStreamDataMessage
                    \/ MessageType message = MessageType.StartPublicationMessage
                    \/ MessageType message = MessageType.PausePublicationMessage
                    \/ MessageType message = MessageType.AcknowledgeMessage)
      by (destruct Hin as [Hin|[Hin|[Hin|[Hin|[]]]]]; auto).
    unfold Earlier.handle.
    destruct (decide _) as [Houtput|_].
    { exfalso. revert Houtput. apply earlier_flow_tags. exact Hflow. }
    destruct (decide _) as [_|Hne]; [reflexivity | contradiction].
  - intros Hout s. cbn [In] in Hout. unfold Earlier.handle, handle.
    destruct (decide _) as [Houtput|_].
    { unfold Earlier.acknowledgeMessage, acknowledgeMessage.
      destruct (encode _ _); [|reflexivity].
      cbn [andThen Earlier.andThen forget Earlier.outputMap].
      unfold Earlier.emit, emit.
      destruct (negb _); reflexivity. }
    destruct (decide (MessageType message = MessageType.StartPublicationMessage))
      as [Hstart|Hnstart]; [exfalso; apply Hout; rewrite Hstart; auto|].
    destruct (decide (MessageType message = MessageType.PausePublicationMessage))
      as [Hpause|Hnpause]; [exfalso; apply Hout; rewrite Hpause; auto|].
    destruct (decide (MessageType message = MessageType.AcknowledgeMessage))
      as [Hack|Hnack]; [exfalso; apply Hout; rewrite Hack; auto|].
    destruct (decide (MessageType message = MessageType.InputStreamDataMessage))
      as [Hinput|Hninput].
    { destruct (decide _) as [_|Hne]; [reflexivity|]. exfalso. apply Hne. auto. }
    destruct (decide (_ \/ _)) as [Hflow|_]; [tauto|].
    destruct (decide _) as [Hclosed|_]; [|reflexivity].
    destruct (Payload message); [reflexivity|].
    destruct (JSON_parse _) as [payloadData|e]; [|reflexivity].
    destruct (property _ _) as [[[| | |text|[]|]|]|e]; try reflexivity.
    destruct (_ <? _); reflexivity.
Qed.


End EarlierSession.

(** ** The further properties on concrete inputs *)

Lemma is_byte_check (l : list Z) :
  forallb (fun b => (0 <=? b) && (b <? 256)) l = true -> Forall is_byte l.
Proof.
  induction l as [|b l IH]; [constructor|].
  cbn [forallb]. intros Hl. apply andb_true_iff in Hl. destruct Hl as [Hb Hl].
  apply andb_true_iff in Hb. destruct Hb as [Hlo Hhi].
  constructor; [unfold is_byte; lia | apply IH, Hl].
Qed.

Lemma low_text_check (s : list Z) :
  forallb (fun c => (0 <=? c) && (c <? 128)) s = true -> low_text s.
Proof.
  induction s as [|c s IH]; [constructor|].
  cbn [forallb]. intros Hs. apply andb_true_iff in Hs. destruct Hs as [Hc Hs].
  apply andb_true_iff in Hc. destruct Hc as [Hlo Hhi].
  constructor; [lia | apply IH, Hs].
Qed.

Lemma decodeInt_big_endian_witness :
  decodeInt [9; 255; 255; 255; 254; 9] 1 5
  = to_int32 (be_value (slice [9; 255; 255; 255; 254; 9] 1 (Some 5)))
  /\ - 2 ^ 31 <= decodeInt [9; 255; 255; 255; 254; 9] 1 5 < 2 ^ 31.
Proof.
  apply (decodeInt_big_endian [9; 255; 255; 255; 254; 9] 1 5).
  apply is_byte_check. reflexivity.
Defined.

Lemma decodeInt_last_four_witness :
  decodeInt [1; 2; 3; 4; 0; 0; 1; 2] 0 8 = decodeInt [1; 2; 3; 4; 0; 0; 1; 2] (8 - 4) 8.
Proof.
  apply (decodeInt_last_four [1; 2; 3; 4; 0; 0; 1; 2] 0 8).
  - apply is_byte_check. reflexivity.
  - lia.
  - lia.
  - cbn [List.length]. lia.
Defined.

Lemma putInt_roundtrip_witness :
  exists buffer',
    putInt [9; 9; 9; 9; 9; 9; 9; 9] 2 4294967554 = Ok buffer'
    /\ List.length buffer' = List.length [9; 9; 9; 9; 9; 9; 9; 9]
    /\ decodeInt buffer' 2 (2 + 4) = to_int32 4294967554
    /\ firstn (Z.to_nat 2) buffer' = firstn (Z.to_nat 2) [9; 9; 9; 9; 9; 9; 9; 9]
    /\ skipn (Z.to_nat (2 + 4)) buffer'
       = skipn (Z.to_nat (2 + 4)) [9; 9; 9; 9; 9; 9; 9; 9].
Proof.
  apply (putInt_roundtrip [9; 9; 9; 9; 9; 9; 9; 9] 2 4294967554).
  - lia.
  - cbn [List.length]. lia.
Defined.

Lemma putInt_out_of_range_witness :
  putInt [0; 0; 0; 0; 0] 2 1 = Throw RangeError.
Proof.
  apply (proj2 (putInt_out_of_range [0; 0; 0; 0; 0] 2 1)).
  right. cbn [List.length]. lia.
Defined.

Lemma putLong_low_word_witness :
  exists buffer',
    putLong [9; 9; 9; 9; 9; 9; 9; 9; 9] 1 4294967301 = Ok buffer'
    /\ List.length buffer' = List.length [9; 9; 9; 9; 9; 9; 9; 9; 9]
    /\ firstn (Z.to_nat (1 + 4)) buffer'
       = firstn (Z.to_nat (1 + 4)) [9; 9; 9; 9; 9; 9; 9; 9; 9]
    /\ skipn (Z.to_nat (1 + 8)) buffer'
       = skipn (Z.to_nat (1 + 8)) [9; 9; 9; 9; 9; 9; 9; 9; 9]
    /\ decodeInt buffer' 1 (1 + 8) = to_int32 4294967301.
Proof.
  apply (putLong_low_word [9; 9; 9; 9; 9; 9; 9; 9; 9] 1 4294967301).
  - apply is_byte_check. reflexivity.
  - lia.
  - cbn [List.length]. lia.
Defined.

Lemma putString_slot_witness :
  exists buffer',
    putString [9; 9; 9; 9; 9; 9] 1 5 [97; 353] = Ok buffer'
    /\ List.length buffer' = List.length [9; 9; 9; 9; 9; 9]
    /\ slice buffer' 1 (Some 5)
       = u8 [97; 353] ++ repeat 32 (Z.to_nat (5 - 1) - List.length [97; 353])
    /\ firstn (Z.to_nat 1) buffer' = firstn (Z.to_nat 1) [9; 9; 9; 9; 9; 9]
    /\ skipn (Z.to_nat 5) buffer' = skipn (Z.to_nat 5) [9; 9; 9; 9; 9; 9].
Proof.
  apply (putString_slot [9; 9; 9; 9; 9; 9] 1 5 [97; 353]).
  - lia.
  - cbn [List.length]. lia.
  - unfold str_length. cbn [List.length]. lia.
Defined.

Lemma putString_errors_witness :
  putString [0; 0; 0; 0] 0 2 (js "abc") = Throw EncodingError
  /\ putString [0; 0; 0; 0] 2 6 (js "ab") = Throw RangeError.
Proof.
  split.
  - apply (proj1 (putString_errors [0; 0; 0; 0] 0 2 (js "abc"))).
    vm_compute. reflexivity.
  - apply (proj2 (putString_errors [0; 0; 0; 0] 2 6 (js "ab"))).
    + vm_compute. discriminate.
    + cbn [List.length]. lia.
    + cbn [List.length]. lia.
Defined.

Lemma decode_ignores_unread_fields_witness :
  decode (header_cells 0 (js "ok")) = decode (header_cells 1 (js "ok")).
Proof.
  apply (decode_ignores_unread_fields
           [0; 0; 0; 116] (repeat 32 32) (repeat 0 12) (repeat 1 12)
           [0; 0; 0; 0; 0; 0; 0; 7] (repeat 0 8) (repeat 1 8) (repeat 171 16)
           (repeat 0 32) (repeat 1 32) [0; 0; 0; 1] (repeat 0 4) (repeat 1 4) (js "ok"));
    reflexivity.
Defined.

Lemma decode_reads_to_buffer_end_witness :
  exists buffer,
    encode env0 msg0 = Ok buffer
    /\ Payload (decode (buffer ++ js "; id")) = Payload msg0 ++ js "; id"
    /\ MessageType (decode (buffer ++ js "; id")) = MessageType (decode buffer)
    /\ SequenceNumber (decode (buffer ++ js "; id")) = SequenceNumber (decode buffer)
    /\ PayloadType (decode (buffer ++ js "; id")) = PayloadType (decode buffer)
    /\ MessageId (decode (buffer ++ js "; id")) = MessageId (decode buffer).
Proof.
  apply (decode_reads_to_buffer_end env0 msg0 (js "; id")).
  - vm_compute. discriminate.
  - apply ascii_text_check. vm_compute. reflexivity.
  - apply ascii_text_check. vm_compute. reflexivity.
Defined.

Lemma decode_MessageId_syntax_witness :
  MessageId (decode (repeat 171 80)) = js "abababab-abab-abab-abab-abababababab"
  /\ uuid_syntax (MessageId (decode (repeat 171 80))) = true
  /\ uuid_syntax (MessageId (decode (repeat 171 79))) <> true.
Proof.
  split; [vm_compute; reflexivity|]. split.
  - apply (proj2 (decode_MessageId_syntax (repeat 171 80)
                    (is_byte_check (repeat 171 80) eq_refl))).
    vm_compute. discriminate.
  - intros Hsyntax.
    apply (proj2 (decode_MessageId_syntax (repeat 171 79)
                    (is_byte_check (repeat 171 79) eq_refl))) in Hsyntax.
    vm_compute in Hsyntax. apply Hsyntax. reflexivity.
Defined.

Lemma encode_flags_witness :
  (exists buffer,
      encode env0 msg0 = Ok buffer
      /\ slice buffer Offset.Flags (Some (Offset.Flags + Length.Flags))
         = [0; 0; 0; 0; 0; 0; 0; 0])
  /\ SequenceNumber msg0 = 7.
Proof.
  split; [|reflexivity].
  apply (encode_flags env0 msg0). vm_compute. discriminate.
Defined.

Lemma encode_fixed_fields_witness :
  exists buffer,
    encode env0 msg0 = Ok buffer
    /\ decodeInt buffer Offset.HL (Offset.HL + Length.HL) = Offset.PayloadLength
    /\ decodeInt buffer Offset.SchemaVersion
                 (Offset.SchemaVersion + Length.SchemaVersion) = 1
    /\ decodeInt buffer Offset.CreatedDate (Offset.CreatedDate + Length.CreatedDate)
       = to_int32 (now env0)
    /\ slice buffer Offset.PayloadDigest
             (Some (Offset.PayloadDigest + Length.PayloadDigest))
       = sha256_digest (Payload msg0).
Proof.
  apply (encode_fixed_fields env0 msg0).
  - vm_compute. discriminate.
  - apply is_byte_check. vm_compute. reflexivity.
Defined.

Lemma encode_outcomes_witness :
  (EncodingError = EncodingError /\ 32 < str_length (MessageType msg_long_tag))
  /\ (str_length (MessageType msg0) <= 32
      /\ Z.of_nat (List.length (frame env0 msg0)) = 120 + str_length (Payload msg0)).
Proof.
  split.
  - apply (proj1 (encode_outcomes env0 msg_long_tag) EncodingError).
    vm_compute. reflexivity.
  - apply (proj2 (encode_outcomes env0 msg0) (frame env0 msg0)).
    vm_compute. reflexivity.
Defined.

Lemma decode_encode_wraps_witness :
  exists buffer,
    encode env0 msg_big = Ok buffer
    /\ (SequenceNumber (decode buffer) - SequenceNumber msg_big) mod 2 ^ 32 = 0
    /\ - 2 ^ 31 <= SequenceNumber (decode buffer) < 2 ^ 31
    /\ (PayloadType (decode buffer) - PayloadType msg_big) mod 2 ^ 32 = 0
    /\ - 2 ^ 31 <= PayloadType (decode buffer) < 2 ^ 31.
Proof.
  apply (decode_encode_wraps env0 msg_big). vm_compute. discriminate.
Defined.

Lemma decode_encode_text_witness :
  exists buffer,
    encode env0 msg_nul = Ok buffer
    /\ MessageType (decode buffer) = trimEnd (strip_nul (MessageType msg_nul))
    /\ Payload (decode buffer) = strip_nul (Payload msg_nul).
Proof.
  apply (decode_encode_text env0 msg_nul).
  - vm_compute. discriminate.
  - apply low_text_check. vm_compute. reflexivity.
  - apply low_text_check. vm_compute. reflexivity.
Defined.


Lemma handle_unhandled_types_witness :
  handle env0 state_message session1
  = Returns session1
      [ConsoleError (js "Unhandled message type " ++ MessageType state_message
                     ++ js ".")].
Proof.
  apply (proj2 (proj2 (handle_unhandled_types env0 state_message session1))).
  cbn [In]. right. right. right. left. reflexivity.
Defined.

Lemma acknowledge_malformed_witness :
  handle env0 (incoming MessageType.AcknowledgeMessage 0 (js "null")) session1
  = Raises TypeError session1 []
  /\ handle env0 (incoming MessageType.AcknowledgeMessage 0 (js "oops")) session1
     = Raises SyntaxError session1 []
  /\ handle env0 (incoming MessageType.AcknowledgeMessage 0 (js "{}")) session1
     = Returns session1 [].
Proof.
  split; [|split].
  - destruct (acknowledge_malformed env0
                (incoming MessageType.AcknowledgeMessage 0 (js "null")) session1 eq_refl)
      as (_ & _ & Hnull & _).
    apply Hnull; [vm_compute; discriminate | vm_compute; reflexivity].
  - destruct (acknowledge_malformed env0
                (incoming MessageType.AcknowledgeMessage 0 (js "oops")) session1 eq_refl)
      as (_ & Hthrow & _).
    apply Hthrow; [vm_compute; discriminate | vm_compute; reflexivity].
  - destruct (acknowledge_malformed env0
                (incoming MessageType.AcknowledgeMessage 0 (js "{}")) session1 eq_refl)
      as (_ & _ & _ & Hmissing & _).
    apply (Hmissing (JObject []));
      [vm_compute; discriminate | vm_compute; reflexivity | reflexivity].
Defined.



Lemma handle_changes_by_type_witness :
  outputMap (with_paused (with_outgoingSequenceNumber session1 0) false)
  = outputMap session1
  /\ connectionTerminated (with_paused (with_outgoingSequenceNumber session1 0) false)
     = connectionTerminated session1.
Proof.
  destruct (handle_changes_by_type env0 start_message session1
              (with_paused (with_outgoingSequenceNumber session1 0) false))
    as (_ & _ & _ & Hmap & Hterminated).
  - vm_compute. reflexivity.
  - split; [apply Hmap | apply Hterminated]; vm_compute; discriminate.
Defined.

Lemma handle_sends_only_acknowledgements_witness :
  sends (effects (handle env0 start_message session1)) = []
  /\ exists ack,
       sends (effects (handle env0 output_message session1)) = [ack]
       /\ MessageType (decode ack) = MessageType.AcknowledgeMessage
       /\ SequenceNumber (decode ack) = to_int32 (outgoingSequenceNumber session1)
       /\ PayloadType (decode ack) = PayloadType.Output.
Proof.
  split.
  - apply (proj1 (handle_sends_only_acknowledgements env0 start_message session1)).
    vm_compute. discriminate.
  - apply (proj2 (handle_sends_only_acknowledgements env0 output_message session1)).
    reflexivity.
Defined.



Lemma consecutive_writes_witness :
  exists buffer1 buffer2,
    write env0 (js "ls") session1 >>> write env1 (js "pwd")
    = Returns (with_outgoingSequenceNumber session1 (outgoingSequenceNumber session1 + 2))
              [WsSend buffer1; WsSend buffer2]
    /\ SequenceNumber (decode buffer1) = to_int32 (outgoingSequenceNumber session1)
    /\ SequenceNumber (decode buffer2) = to_int32 (outgoingSequenceNumber session1 + 1).
Proof.
  apply (consecutive_writes env0 env1 (js "ls") (js "pwd") session1). reflexivity.
Defined.

Lemma earlier_handle_agrees_witness :
  Earlier.handle env0 start_message (forget session1)
  = Earlier.Returns (forget session1) []
  /\ Earlier.handle env0 (closed_message "done") (forget session1)
     = forget_outcome (handle env0 (closed_message "done") session1).
Proof.
  split.
  - apply (proj1 (earlier_handle_agrees env0 start_message)).
    cbn [In]. right. left. reflexivity.
  - apply (proj2 (earlier_handle_agrees env0 (closed_message "done"))).
    cbn [In]. intros [Hin|[Hin|[Hin|[]]]]; vm_compute in Hin; discriminate.
Defined.

